(** * Numba decorators and extension classes: a shallow embedding

    The development follows [numba/decorators.py] (the compilation entry
    points [compile_function], [resolve_argtypes], [jit], [autojit],
    [export]) and [numba/exttypes/jitclass.py] (the extension class builder).

    Python code that raises is embedded in a state-and-exception monad; the
    state carries the specialization cache of the Numba environment and a
    trace of the calls made to the external collaborators (the compilation
    pipeline, the type mapper, the template resolver), so that "the pipeline
    was not invoked" is a statement about the trace. *)

From stdpp Require Import gmap strings list fin_maps.
From Stdlib Require Import ZArith Lia.

Local Open Scope string_scope.
Local Open Scope nat_scope.
Local Open Scope list_scope.
Local Open Scope stdpp_scope.

(** ** Numba types and signatures *)

Inductive numba_type : Type :=
  | TScalar (name : string)            (* f8, i4, double, int_, ... *)
  | TPointer (base_type : numba_type)  (* [t.pointer()] *)
  | TExtension (py_class : string)     (* the extension type of a class *)
  | TObject.

Global Instance numba_type_eq_dec : EqDecision numba_type.
Proof. solve_decision. Defined.

Fixpoint numba_type_to_tree (t : numba_type) : gen_tree (string + string) :=
  match t with
  | TScalar n => GenLeaf (inl n)
  | TPointer b => GenNode 0 [numba_type_to_tree b]
  | TExtension c => GenLeaf (inr c)
  | TObject => GenNode 1 []
  end.

Fixpoint numba_type_of_tree (g : gen_tree (string + string)) : numba_type :=
  match g with
  | GenLeaf (inl n) => TScalar n
  | GenLeaf (inr c) => TExtension c
  | GenNode 0 [b] => TPointer (numba_type_of_tree b)
  | GenNode _ _ => TObject
  end.

Global Instance numba_type_countable : Countable numba_type.
Proof.
  apply (inj_countable' numba_type_to_tree numba_type_of_tree).
  induction x as [n|b IH|c|]; simpl; congruence.
Defined.

(** [minitypes.FunctionType]: a return type (possibly still [None]), the
    argument types, and the method flags of [ExtMethodType]. *)
Record signature : Type := FunctionType {
  return_type : option numba_type;
  args : list numba_type;
  sig_name : option string;
  is_class : bool;
  is_static : bool;
}.

Global Instance signature_eq_dec : EqDecision signature.
Proof. solve_decision. Defined.

(** [signature.args], where a Python variable [args] is in scope. *)
Abbreviation sig_args := args.

(** [minitypes.FunctionType(return_type, args)]; calling a type on
    argument types builds the same. *)
Definition function_type (rt : option numba_type) (a : list numba_type)
  : signature :=
  FunctionType rt a None false false.

(** ** Python values, functions and exceptions *)

(** The values that travel through keyword dictionaries and call sites. *)
Inductive pyobj : Type :=
  | PNone
  | PBool (b : bool)
  | PInt (n : Z)
  | PStr (s : string)
  | PType (t : numba_type)
  | PTypes (ts : list numba_type)
  | PDict (d : gmap string numba_type) (* a [locals] dictionary *)
  | PObj (handle : nat).              (* any other object, by identity *)

Global Instance pyobj_eq_dec : EqDecision pyobj.
Proof. solve_decision. Defined.

(** A Python function object: its identity, [__name__], the names of its
    positional parameters ([inspect.getargspec(f).args]) and the optional
    attribute [_numba_compile_only]. *)
Record py_function : Type := PyFunction {
  func_id : nat;
  func_name : string;
  argnames : list string;
  _numba_compile_only : option bool;
}.

(** [f.__code__.co_argcount]: the number of positional parameters. *)
Definition co_argcount (f : py_function) : nat := length (argnames f).

(** What [compile_function] receives as [func]: a plain function, or a
    Numba wrapper carrying the original function as [py_func]. *)
Record numba_wrapper : Type := NumbaWrapper { py_func : py_function }.

Inductive callable : Type :=
  | PlainFunction (f : py_function)
  | NumbaFunction (w : numba_wrapper).

(** [getattr(func, 'py_func', func)] *)
Definition py_func_of (func : callable) : py_function :=
  match func with
  | PlainFunction f => f
  | NumbaFunction w => py_func w
  end.

Inductive exception : Type :=
  | AssertionError (msg : pyobj)
  | ArityTypeError (fname : string) (argcount given : nat)
      (* TypeError("%s() takes exactly %d %s (%d given)") *)
  | TypeError (msg : string)
  | NotImplementedError (msg : string)
  | NumbaError (msg : string) (first second : string)
      (* NumbaError(msg % (first, second)) *)
  | IndexError
  | KeyError
  | AttributeError (attr : string)
  | PyException (msg : string)
  | Raised (diagnostic : string).     (* raised inside an external call *)

Global Instance exception_eq_dec : EqDecision exception.
Proof. solve_decision. Defined.

(** ** The environment and the monad *)

Definition llvm_func := nat.
Definition py_wrapper := nat.

(** The triple [(signature, llvm_func, python_callable)] of the cache. *)
Definition specialization : Type := signature * llvm_func * py_wrapper.

(** [func_env], as far as [compile_function] and [_compile_methods] read it. *)
Record func_env : Type := FuncEnv {
  fe_func : py_function;
  func_signature : signature;
  lfunc : llvm_func;
  lfunc_pointer : nat;
  numba_wrapper_func : py_wrapper;
}.

(** Calls that leave the core, in the order they are made. *)
Inductive event : Type :=
  | EvCompile2 (f : nat) (argtypes : list numba_type)
  | EvInferTypes2 (f : nat)
  | EvFromPython (v : pyobj)
  | EvResolveTemplates
  | EvProcessSignature (s : string)
  | EvCreateExtension (cls : string)
  | EvExportPipeline (f : nat).

Global Instance event_eq_dec : EqDecision event.
Proof. solve_decision. Defined.

Abbreviation function_cache := (gmap (nat * list numba_type) specialization).

Record environment : Type := Environment {
  specializations : function_cache;
  registered : list nat;               (* [env.specializations.register(f)] *)
  trace : list event;                  (* oldest call first *)
}.

(** Pure code that may raise. *)
Global Instance result_ret : MRet (sum exception) := λ A (x : A), inr x.
Global Instance result_bind : MBind (sum exception) :=
  λ A B (k : A → exception + B) (c : exception + A),
  match c with
  | inl e => inl e
  | inr x => k x
  end.

Definition M (A : Type) : Type :=
  environment → (exception + A) * environment.

Global Instance M_ret : MRet M := λ A (x : A) env, (inr x, env).
Global Instance M_bind : MBind M := λ A B (k : A → M B) (c : M A) env,
  match c env with
  | (inl e, env') => (inl e, env')
  | (inr x, env') => k x env'
  end.

Definition raise {A} (e : exception) : M A := λ env, (inl e, env).

(** [assert cond, msg] *)
Definition py_assert (cond : bool) (msg : pyobj) : M unit :=
  if cond then mret () else raise (AssertionError msg).

Definition emit (ev : event) : M unit := λ env,
  (inr (), Environment (specializations env) (registered env)
                       (trace env ++ [ev])).

(** A call to an external collaborator: the call is traced, then its
    outcome is returned or raised. *)
Definition external {A} (ev : event) (outcome : exception + A) : M A :=
  _ ← emit ev;
  match outcome with
  | inl e => raise e
  | inr x => mret x
  end.

(** [d.get(k)] on a keyword dictionary. *)
Definition kw_get (d : gmap string pyobj) (k : string) : pyobj :=
  default PNone (d !! k).

Definition is_None (v : pyobj) : bool :=
  match v with PNone => true | _ => false end.

(** Truth value of an object, as [if v] and [not v] test it. *)
Definition truthy (v : pyobj) : bool :=
  match v with
  | PNone => false
  | PBool b => b
  | PInt n => bool_decide (n ≠ 0%Z)
  | PStr s => bool_decide (s ≠ "")
  | PTypes ts => bool_decide (ts ≠ [])
  | PDict d => bool_decide (d ≠ ∅)
  | PType _ | PObj _ => true
  end.

(** [[f(x) for x in l]] with an [f] that may raise. *)
Fixpoint for_each {A B} (f : A → M B) (l : list A) : M (list B) :=
  match l with
  | [] => mret []
  | x :: l' => y ← f x; ys ← for_each f l'; mret (y :: ys)
  end.

(** * numba/decorators.py *)

Module Decorators.

(** ** The function cache *)

(** Modelled from the spec: [FunctionCache.get_function], the lookup of
    [env.specializations] (numba/functions.py is not part of the sources at
    hand).  The spec has [get(callable_id, signature)] as a pure lookup in a
    map with unique keys; the callable is identified by the identity of the
    function object, the signature by the argument types.  [flags] is the
    stub [None] at the only call site and takes no part in the key. *)
Definition get_function (cache : function_cache) (func : py_function)
    (argtypes : list numba_type) (flags : option pyobj)
  : option specialization :=
  cache !! (func_id func, argtypes).

(** Modelled from the spec: [FunctionCache.register_specialization], which
    "inserts unconditionally, overwriting any stale entry for the same key".
    The source passes the [func_env] alone, so the key is read from it: the
    function it was compiled for and the argument types of its signature. *)
Definition register_specialization (fe : func_env) : M unit := λ env,
  (inr (),
   Environment
     (<[(func_id (fe_func fe), args (func_signature fe)) :=
          (func_signature fe, lfunc fe, numba_wrapper_func fe)]>
        (specializations env))
     (registered env) (trace env)).

(** Modelled from the spec: [FunctionCache.register], called as
    [env.specializations.register(f)] when a function is decorated
    (numba/functions.py is not part of the sources at hand).  The spec names
    no operation of this kind; it has one cache per specializable callable,
    whose entries "live for the process lifetime of the cache (no
    eviction)".  Registering a function is therefore taken to make the
    function known to the cache and to leave every specialization where it
    is; the registrations are kept in a list of their own. *)
Definition register (f : py_function) : M unit := λ env,
  (inr (),
   Environment (specializations env) (registered env ++ [func_id f])
               (trace env)).

Definition lookup_cache (func : py_function) (argtypes : list numba_type)
    (flags : option pyobj) : M (option specialization) := λ env,
  (inr (get_function (specializations env) func argtypes flags), env).

Section CompilationEntryPoints.

(** [pipeline.compile2(env, func, restype, argtypes, **kwds)]: the
    compilation pipeline, an external collaborator. *)
Variable compile2 :
  py_function → option numba_type → list numba_type → gmap string pyobj →
  exception + func_env.

Definition pipeline_compile2 (func : py_function)
    (restype : option numba_type) (argtypes : list numba_type)
    (kwds : gmap string pyobj) : M func_env :=
  external (EvCompile2 (func_id func) argtypes)
           (compile2 func restype argtypes kwds).

(** The keyword dictionary as [compile_function] hands it to the
    pipeline: [kwds['compile_only'] = kwds.get('compile_only', compile_only)]. *)
Definition with_compile_only (func : py_function)
    (kwds : gmap string pyobj) : gmap string pyobj :=
  let compile_only := default false (_numba_compile_only func) in
  <["compile_only" :=
      default (PBool compile_only) (kwds !! "compile_only")]> kwds.

Definition compile_function (func : callable) (argtypes : list numba_type)
    (restype : option numba_type) (kwds : gmap string pyobj)
  : M specialization :=
  let func := py_func_of func in
  let flags := None in
  result ← lookup_cache func argtypes flags;
  match result with
  | Some (sig, lfunc, pycall) => mret (sig, lfunc, pycall)
  | None =>
      let kwds := with_compile_only func kwds in
      _ ← py_assert (is_None (kw_get kwds "llvm_module"))
                    (kw_get kwds "llvm_module");
      func_env ← pipeline_compile2 func restype argtypes kwds;
      _ ← register_specialization func_env;
      mret (func_signature func_env, lfunc func_env,
            numba_wrapper_func func_env)
  end.

(** A request to [compile_function], and a sequence of requests served
    one after the other on the same environment; a request that raises
    does not stop the later ones. *)
Definition request : Type :=
  callable * list numba_type * option numba_type * gmap string pyobj.

Fixpoint serve (reqs : list request) (env : environment)
  : list (exception + specialization) * environment :=
  match reqs with
  | [] => ([], env)
  | (func, argtypes, restype, kwds) :: reqs' =>
      let '(out, env1) := compile_function func argtypes restype kwds env in
      let '(outs, env2) := serve reqs' env1 in
      (out :: outs, env2)
  end.

(** How often the pipeline was invoked for a function and argument types. *)
Definition compilations (func : py_function) (argtypes : list numba_type)
    (tr : list event) : nat :=
  length (filter (λ ev, ev = EvCompile2 (func_id func) argtypes) tr).

Definition same_request (func : py_function) (argtypes : list numba_type)
    (r : request) : Prop :=
  func_id (py_func_of r.1.1.1) = func_id func ∧ r.1.1.2 = argtypes.

(** *** [resolve_argtypes] *)

(** [env.context.typemapper.from_python] and
    [typesystem.resolve_templates]: external collaborators. *)
Variable from_python : pyobj → exception + numba_type.
Variable resolve_templates :
  option (gmap string numba_type) → signature → list string →
  list numba_type → exception + signature.

(** [translator_kwargs.get("locals", None)] *)
Definition get_locals (translator_kwargs : gmap string pyobj)
  : option (gmap string numba_type) :=
  match translator_kwargs !! "locals" with
  | Some (PDict d) => Some d
  | _ => None
  end.

(** The loop over [enumerate(argnames)], started at index [i]:
    [if argname in locals_dict: argtypes[i] = locals_dict[argname]].
    Assigning past the end of a Python list raises [IndexError]. *)
Fixpoint override_argtypes (locals_dict : gmap string numba_type)
    (i : nat) (argnames : list string) (argtypes : list numba_type)
  : M (list numba_type) :=
  match argnames with
  | [] => mret argtypes
  | argname :: argnames' =>
      match locals_dict !! argname with
      | Some new_type =>
          if decide (i < length argtypes)
          then override_argtypes locals_dict (S i) argnames'
                                 (<[i := new_type]> argtypes)
          else raise IndexError
      | None => override_argtypes locals_dict (S i) argnames' argtypes
      end
  end.

Definition resolve_argtypes (numba_func : numba_wrapper)
    (template_signature : option signature) (args : list pyobj)
    (kwargs : gmap string pyobj) (translator_kwargs : gmap string pyobj)
  : M signature :=
  _ ← py_assert (bool_decide (kwargs = ∅))
                (PStr "Keyword arguments are not supported yet");
  let locals_dict := get_locals translator_kwargs in
  let argcount := co_argcount (py_func numba_func) in
  if decide (argcount ≠ length args) then
    raise (ArityTypeError (func_name (py_func numba_func)) argcount
                          (length args))
  else
    let return_type0 : option numba_type := None in
    let argnames := argnames (py_func numba_func) in
    argtypes ← for_each (λ x, external (EvFromPython x) (from_python x))
                        args;
    '(return_type1, argtypes) ←
      match template_signature with
      | Some template =>
          signature ← external EvResolveTemplates
            (resolve_templates locals_dict template argnames argtypes);
          mret (return_type signature, sig_args signature)
      | None => mret (return_type0, argtypes)
      end;
    argtypes ←
      match locals_dict with
      | Some d => override_argtypes d 0 argnames argtypes
      | None => mret argtypes
      end;
    mret (function_type return_type1 argtypes).

(** *** Decorators, as the closures they are *)

Variable process_signature : string → pyobj → exception + signature.
Variable create_extension : string → gmap string pyobj → exception + nat.
Variable export_pipeline : py_function → signature → exception + unit.

(** The first positional argument of [autojit]. *)
Inductive template_arg : Type :=
  | TplType (template : signature)   (* an instance of [minitypes.Type] *)
  | TplCallable (f : py_function)    (* the bare [@autojit] form *)
  | TplOther (v : pyobj).            (* [None], a string, ... *)

(** The first positional argument of [jit]. *)
Inductive restype_arg : Type :=
  | RClass (cls : string)            (* a class: [@jit class Foo] *)
  | RFunctionType (ft : signature)   (* [f8(f8)] *)
  | RStr (s : string)                (* ["f8(f8)"] *)
  | RType (t : numba_type)
  | RNone.

Inductive decorator : Type :=
  | NotImplementedStub
      (* [_not_implemented] *)
  | IExport (function_signature : signature) (backend : pyobj)
      (* [_iexport] of [_internal_export] *)
  | ExportMany (signatures : list string) (kws : gmap string pyobj)
      (* [_export] of [exportmany] *)
  | AutojitDecorator (template_signature : template_arg) (target : string)
      (nopython : bool) (translator_kwargs : gmap string pyobj)
      (* [_autojit_decorator] of [_autojit] *)
  | JitDecorator (restype argtypes : pyobj) (nopython : pyobj)
      (env_name : pyobj) (kwargs : gmap string pyobj).
      (* [_jit_decorator] of [_jit] *)

(** What a decorator is applied to. *)
Inductive decorated : Type :=
  | DFunction (f : py_function)
  | DClass (cls : string).

(** What the entry points and the decorators return. *)
Inductive returned : Type :=
  | Decorator (d : decorator)
  | ExtensionClass (ext : nat)
  | SpecializingWrapper (w : numba_wrapper) (backend : string)
      (closure : decorator)
      (* [NumbaSpecializingWrapper(f, compile_function, cache)] built for
         [autojit_wrappers[(target, backend)]] *)
  | CompiledWrapper (f : py_function) (spec : specialization)
      (* [numbawrapper.create_numba_wrapper(func, wrapper, sig, lfunc)] *)
  | Undecorated (f : decorated).     (* [return func] *)

Inductive jitter : Type := Jit_not_implemented | Jit_jit.
Inductive wrapper_maker : Type :=
  Wrap_not_implemented | Wrap_NumbaSpecializingWrapper.

Definition jit_targets (target backend : string) : option jitter :=
  if decide (target = "cpu") then
    if decide (backend = "bytecode") then Some Jit_not_implemented
    else if decide (backend = "ast") then Some Jit_jit
    else None
  else None.

Definition autojit_wrappers (target backend : string)
  : option wrapper_maker :=
  if decide (target = "cpu") then
    if decide (backend = "bytecode") then Some Wrap_not_implemented
    else if decide (backend = "ast") then Some Wrap_NumbaSpecializingWrapper
    else None
  else None.

Definition _not_implemented {A} : M A :=
  raise (NotImplementedError "Bytecode backend is no longer supported.").

(** [_lc.Module.new('tmp.extension_class.%X' % id(py_class))]: a new LLVM
    module, which stands here by its name, and the class by its own. *)
Definition new_extension_module (py_class : string) : pyobj :=
  PStr ("tmp.extension_class." +:+ py_class).

Definition jit_extension_class (py_class : string)
    (translator_kwargs : gmap string pyobj) : M returned :=
  let llvm_module := kw_get translator_kwargs "llvm_module" in
  let translator_kwargs :=
    if is_None llvm_module
    then <["llvm_module" := new_extension_module py_class]> translator_kwargs
    else translator_kwargs in
  ext ← external (EvCreateExtension py_class)
                 (create_extension py_class translator_kwargs);
  mret (ExtensionClass ext).

Definition _internal_export (function_signature : signature)
    (kws : gmap string pyobj) : decorator :=
  IExport function_signature (default (PStr "ast") (kws !! "backend")).

Definition _iexport (function_signature : signature) (backend : pyobj)
    (func : py_function) : M returned :=
  if decide (backend = PStr "bytecode") then
    raise (NotImplementedError
      "Bytecode translation has been removed for exported functions.")
  else
    _ ← external (EvExportPipeline (func_id func))
                 (export_pipeline func function_signature);
    mret (Undecorated (DFunction func)).

Definition _jit_decorator (restype argtypes nopython env_name : pyobj)
    (kwargs : gmap string pyobj) (func : decorated) : M returned :=
  match func with
  | DClass cls =>
      jit_extension_class cls (<["env_name" := env_name]> kwargs)
  | DFunction func =>
      let argtys :=
        if decide (co_argcount func = 0) then
          if is_None argtypes then PTypes [] else argtypes
        else argtypes in
      _ ← py_assert (negb (is_None argtys)) PNone;
      _ ← register func;
      _ ← py_assert (is_None (kw_get kwargs "llvm_module")) PNone;
      _ ← py_assert (is_None (kw_get kwargs "llvm_ee"))
                    (PStr "Engine should never be provided");
      spec ← compile_function (PlainFunction func)
               (match argtys with PTypes ts => ts | _ => [] end)
               (match restype with PType t => Some t | _ => None end)
               (<["nopython" := nopython]> kwargs);
      mret (CompiledWrapper func spec)
  end.

Definition _autojit_decorator (template_signature : template_arg)
    (target : string) (nopython : bool)
    (translator_kwargs : gmap string pyobj) (f : py_function)
  : M returned :=
  _ ← register f;
  match autojit_wrappers target "ast" with
  | None => raise KeyError
  | Some Wrap_not_implemented => _not_implemented
  | Some Wrap_NumbaSpecializingWrapper =>
      mret (SpecializingWrapper (NumbaWrapper f) "ast"
              (AutojitDecorator template_signature target nopython
                                translator_kwargs))
  end.

Definition apply_decorator (d : decorator) (func : decorated)
  : M returned :=
  match d, func with
  | NotImplementedStub, _ => _not_implemented
  | IExport function_signature backend, DFunction f =>
      _iexport function_signature backend f
  | ExportMany signatures kws, DFunction f =>
      _ ← for_each (λ signature,
             sig ← external (EvProcessSignature signature)
                            (process_signature signature PNone);
             _iexport sig (default (PStr "ast") (kws !! "backend")) f)
           signatures;
      mret (Undecorated func)
  | AutojitDecorator template_signature target nopython tk, DFunction f =>
      _autojit_decorator template_signature target nopython tk f
  | JitDecorator restype argtypes nopython env_name kwargs, _ =>
      _jit_decorator restype argtypes nopython env_name kwargs func
  | _, DClass _ => raise (Raised "AttributeError")
  end.

(** *** Entry points *)

Definition export (signature : string) (kws : gmap string pyobj)
  : M returned :=
  sig ← external (EvProcessSignature signature)
                 (process_signature signature PNone);
  mret (Decorator (_internal_export sig kws)).

Definition exportmany (signatures : list string) (kws : gmap string pyobj)
  : M returned :=
  mret (Decorator (ExportMany signatures kws)).

Definition _autojit (template_signature : template_arg) (target : string)
    (nopython : bool) (translator_kwargs : gmap string pyobj)
  : decorator :=
  AutojitDecorator template_signature target nopython
    (delete "env" (delete "env_name" translator_kwargs)).

(** The part of [autojit] after the test on the first argument. *)
Definition autojit_backend (template_signature : template_arg)
    (backend target : string) (nopython : bool) (locals : pyobj)
    (kwargs : gmap string pyobj) : M returned :=
  if decide (backend = "bytecode") then
    mret (Decorator NotImplementedStub)
  else
    mret (Decorator (_autojit template_signature target nopython
                              (<["locals" := locals]> kwargs))).

(** [autojit]; its one recursive call passes no template signature and
    [backend='ast'], and so runs [autojit_backend] directly. *)
Definition autojit (template_signature : template_arg)
    (backend target : string) (nopython : bool) (locals : pyobj)
    (kwargs : gmap string pyobj) : M returned :=
  match template_signature with
  | TplCallable func =>
      r ← autojit_backend (TplOther PNone) "ast" target nopython locals
                          kwargs;
      match r with
      | Decorator d => apply_decorator d (DFunction func)
      | _ => raise (TypeError "object is not callable")
      end
  | TplOther v =>
      if truthy v then
        raise (PyException
          "The autojit decorator should be called: @autojit(backend='ast')")
      else autojit_backend template_signature backend target nopython
                           locals kwargs
  | TplType _ =>
      autojit_backend template_signature backend target nopython locals
                      kwargs
  end.

(** [_jit] called with the keywords [kws]: the named parameters are taken
    out of [kws], the rest is [kwargs]. *)
Definition _jit (kws : gmap string pyobj) : decorator :=
  JitDecorator (kw_get kws "restype") (kw_get kws "argtypes")
    (default (PBool false) (kws !! "nopython")) (kw_get kws "env_name")
    (delete "restype" (delete "argtypes" (delete "nopython"
      (delete "_llvm_module" (delete "env_name" (delete "env" kws)))))).

Definition jit (restype : restype_arg) (argtypes : option (list numba_type))
    (backend target : string) (nopython : bool) (kws : gmap string pyobj)
  : M returned :=
  let kws := <["backend" := PStr backend]>
               (<["nopython" := PBool nopython]> kws) in
  match restype with
  | RClass cls => jit_extension_class cls (delete "env" kws)
  | _ =>
      '(restype, argtypes, kws) ←
        match restype, argtypes with
        | RFunctionType ft, Some _ =>
            raise (TypeError
              "Cannot use both calling syntax and argtypes keyword")
        | RFunctionType ft, None =>
            mret (from_option PType PNone (return_type ft),
                  Some (args ft), kws)
        | RStr s, None =>
            signature ← external (EvProcessSignature s)
                          (process_signature s (kw_get kws "name"));
            mret (from_option PType PNone (return_type signature),
                  Some (args signature),
                  match sig_name signature with
                  | Some name => <["func_name" := PStr name]> kws
                  | None => kws
                  end)
        | RStr s, Some _ => mret (PStr s, argtypes, kws)
        | RType t, _ => mret (PType t, argtypes, kws)
        | _, _ => mret (PNone, argtypes, kws)
        end;
      let kws := if is_None restype then kws
                 else <["restype" := restype]> kws in
      let kws := match argtypes with
                 | Some ts => <["argtypes" := PTypes ts]> kws
                 | None => kws
                 end in
      match jit_targets target backend with
      | None => raise KeyError
      | Some Jit_not_implemented => _not_implemented
      | Some Jit_jit => mret (Decorator (_jit kws))
      end
  end.

End CompilationEntryPoints.

End Decorators.

(** * numba/exttypes/jitclass.py *)

Module JitClass.

(** ** Dictionaries that are iterated *)

(** [ext_type.symtab] and [class_dict] are Python dictionaries that the
    builder iterates with [iteritems()].  They are association lists with
    unique keys here, and a loop over a dictionary runs through its list
    from the head.  Assigning to a present key keeps its place in the list
    and assigning to a new key puts it last, so a list that was built by
    assignments alone holds the keys in the order in which they were
    entered.  That is not the order in which Python 2 iterates a
    dictionary: [iteritems()] follows the hash table, see [py2_iteritems]
    below.  The lists serve for everything that does not depend on the
    order of iteration; where a statement is about that order, the list is
    taken in the order of the hash table. *)
Section OrderedDict.
Context {V : Type}.

Fixpoint dict_get (d : list (string * V)) (k : string) : option V :=
  match d with
  | [] => None
  | (k', v) :: d' => if decide (k' = k) then Some v else dict_get d' k
  end.

(** [k in d] *)
Definition dict_mem (d : list (string * V)) (k : string) : bool :=
  bool_decide (is_Some (dict_get d k)).

(** [d[k] = v] *)
Fixpoint dict_set (d : list (string * V)) (k : string) (v : V)
  : list (string * V) :=
  match d with
  | [] => [(k, v)]
  | (k', v') :: d' =>
      if decide (k' = k) then (k, v) :: d' else (k', v') :: dict_set d' k v
  end.
End OrderedDict.

(** ** The order of iteration of a Python 2 dictionary *)

(** The dictionary of CPython 2.7 with [str] keys, as far as the order of
    [iteritems()] depends on it, on a 64-bit machine with hash
    randomization off, which is the default: the hash of a string
    ([string_hash] of stringobject.c), the probe sequence of the open
    addressing table ([lookdict_string] of dictobject.c), the growth of the
    table when two thirds of it are filled ([PyDict_SetItem],
    [dictresize]), and the iteration from slot 0 upwards.  Nothing is ever
    deleted from the dictionaries iterated here. *)
Section Py2Dict.
Context {V : Type}.











End Py2Dict.

(** ** Struct types *)

(** A struct type of minivect: the ordered [fields] and the dictionary
    [fielddict] over them; both are updated by the builder. *)
Record struct_type : Type := Struct {
  fields : list (string * numba_type);
  fielddict : gmap string numba_type;
}.

(** [dict(fields)]: a later pair for the same name wins. *)
Definition dict_of_fields (fs : list (string * numba_type))
  : gmap string numba_type :=
  list_to_map (reverse fs).

(** Modelled from the spec: [numba.struct(fields)], the struct constructor
    of minivect called on a list of fields (minitypes.py is not part of the
    sources at hand).  The spec has an attribute struct as an "ordered
    sequence of (name, type) fields ... ordered by insertion": the fields
    are kept in the order given. *)
Definition struct (fs : list (string * numba_type)) : struct_type :=
  Struct fs (dict_of_fields fs).

(** The type of a virtual method table: one field per method, a pointer to
    the method's signature.  The field holds the signature; [pointer()] and
    [base_type] are inverse to each other and left implicit. *)
Record vtab_struct : Type := VtabStruct {
  vtab_fields : list (string * signature);
}.

(** Modelled from the spec: [is_prefix] of minivect's struct type.  "A
    struct D is prefix-compatible with struct B iff the first len(B.fields)
    fields of D, in order, have identical names and types to B.fields", and
    the same for vtables.  [is_prefix_of self_fields other_fields] is
    [self.is_prefix(other)]. *)
Definition is_prefix_of {A} `{EqDecision A} (self_fields other_fields : list A)
  : bool :=
  bool_decide (self_fields = take (length self_fields) other_fields).

(** ** Classes and extension types *)

(** [symtab.Variable(type, promotable_type=...)] *)
Record variable : Type := Variable_ {
  var_type : numba_type;
  promotable_type : bool;
}.

(** A method found in a class body, and the other things found there. *)
Record method : Type := Method {
  method_name : string;
  method_py_func : py_function;
}.

Inductive class_member : Type :=
  | MType (t : numba_type)             (* [attr = double] *)
  | MMethod (m : method)
  | MResult (m : method) (wrapper : py_wrapper)  (* [method.result(...)] *)
  | MObject (v : pyobj).

(** A Python class as the builder reads it.  The three Numba attributes are
    what [getattr] finds on the class, its own or inherited through the
    method resolution order. *)
#[local] Set Warnings "-register-all".
Inductive py_class : Type := PyClass {
  class_name : string;
  bases : list py_class;                          (* [__bases__] *)
  numba_struct_type : option struct_type;         (* [__numba_struct_type] *)
  numba_vtab_type : option vtab_struct;           (* [__numba_vtab_type] *)
  numba_method_pointers : option (list (string * nat));
                                                  (* [__numba_method_pointers] *)
  class_vars : list (string * class_member);      (* [vars(py_class)] *)
}.

(** [typesystem.ExtensionType], as the builder reads and writes it. *)
Record extension_type : Type := ExtensionType {
  ext_class : py_class;
  symtab : list (string * variable);
  methods : list (string * signature);
  attribute_struct : option struct_type;
  vtab_type : option vtab_struct;
  parent_attr_struct : option struct_type;
  parent_vtab_type : option vtab_struct;
}.

(** [typesystem.ExtensionType(py_class)] *)
Definition new_extension_type (cls : py_class) : extension_type :=
  ExtensionType cls [] [] None None None None.

(** The extension type used as the type of an argument. *)
Definition as_type (ext_type : extension_type) : numba_type :=
  TExtension (class_name (ext_class ext_type)).

Definition set_symtab (ext_type : extension_type)
    (st : list (string * variable)) : extension_type :=
  ExtensionType (ext_class ext_type) st (methods ext_type)
    (attribute_struct ext_type) (vtab_type ext_type)
    (parent_attr_struct ext_type) (parent_vtab_type ext_type).

Definition set_attribute_struct (ext_type : extension_type)
    (s : struct_type) : extension_type :=
  ExtensionType (ext_class ext_type) (symtab ext_type) (methods ext_type)
    (Some s) (vtab_type ext_type)
    (parent_attr_struct ext_type) (parent_vtab_type ext_type).

Definition set_parent_types (ext_type : extension_type)
    (s : struct_type) (v : vtab_struct) : extension_type :=
  ExtensionType (ext_class ext_type) (symtab ext_type) (methods ext_type)
    (attribute_struct ext_type) (vtab_type ext_type) (Some s) (Some v).

(** Modelled from the spec: [ExtensionType.add_method] (typesystem is not
    part of the sources at hand).  The method list is an "ordered method
    list (name, signature) pairs" in declaration order, inherited first, and
    an overriding method keeps the index of the method it overrides: a new
    name is appended, a known name has its signature replaced in place. *)
Definition add_method (ext_type : extension_type) (name : string)
    (sig : signature) : extension_type :=
  ExtensionType (ext_class ext_type) (symtab ext_type)
    (dict_set (methods ext_type) name sig)
    (attribute_struct ext_type) (vtab_type ext_type)
    (parent_attr_struct ext_type) (parent_vtab_type ext_type).

(** ** Attribute inheritance *)

(** [hasattr(cls, '__numba_struct_type')] *)
Definition is_numba_class (cls : py_class) : bool :=
  bool_decide (is_Some (numba_struct_type cls)).

(** The loop of [verify_base_class_compatibility] over [cls.__bases__];
    [bases_seen] is the list [bases], last element first. *)
Fixpoint verify_bases (bases_seen : list py_class) (todo : list py_class)
    (struct_ty : struct_type) (vtab_ty : vtab_struct)
  : exception + unit :=
  match todo with
  | [] => inr ()
  | base :: todo' =>
      match numba_struct_type base with
      | Some base_struct =>
          match numba_vtab_type base with
          | None => inl (AttributeError "__numba_vtab_type")
          | Some base_vtab =>
              let attr_prefix :=
                is_prefix_of (fields base_struct) (fields struct_ty) in
              let method_prefix :=
                is_prefix_of (vtab_fields base_vtab) (vtab_fields vtab_ty) in
              if negb attr_prefix || negb method_prefix then
                inl (NumbaError
                       "Multiple incompatible base classes found: %s and %s"
                       (class_name base)
                       (from_option class_name "" (head bases_seen)))
              else verify_bases (base :: bases_seen) todo' struct_ty vtab_ty
          end
      | None => verify_bases bases_seen todo' struct_ty vtab_ty
      end
  end.

Definition verify_base_class_compatibility (cls : py_class)
    (struct_ty : struct_type) (vtab_ty : vtab_struct) : exception + unit :=
  verify_bases [cls] (bases cls) struct_ty vtab_ty.

(** The loop "Inherit methods" of [inherit_attributes]. *)
Definition inherit_method (ext_type : extension_type)
    (method_type : signature) : exception + signature :=
  let func_signature := method_type in
  let args := args func_signature in
  args' ←
    (if negb (is_class func_signature || is_static func_signature) then
       match args with
       | [] => inl IndexError
       | _ :: rest => inr (as_type ext_type :: rest)
       end
     else inr args);
  match return_type func_signature with
  | Some rt => inr (function_type (Some rt) args')
  | None => inl (TypeError "'NoneType' object is not callable")
  end.

Fixpoint inherit_methods (ext_type : extension_type)
    (vfields : list (string * signature)) : exception + extension_type :=
  match vfields with
  | [] => inr ext_type
  | (method_name, method_type) :: vfields' =>
      func_signature ← inherit_method ext_type method_type;
      inherit_methods (add_method ext_type method_name func_signature)
                      vfields'
  end.

Definition inherit_attributes (ext_type : extension_type)
    (class_dict : list (string * class_member))
  : exception + extension_type :=
  let cls := ext_class ext_type in
  match numba_struct_type cls with
  | None => inr ext_type               (* superclass is not a numba class *)
  | Some struct_ty =>
      match numba_vtab_type cls with
      | None => inl (AttributeError "__numba_vtab_type")
      | Some vtab_ty =>
          _ ← verify_base_class_compatibility cls struct_ty vtab_ty;
          (* Inherit attributes *)
          let ext_type :=
            set_attribute_struct ext_type (struct (fields struct_ty)) in
          let ext_type :=
            set_symtab ext_type
              (foldl (λ st '(field_name, field_type),
                        dict_set st field_name (Variable_ field_type false))
                     (symtab ext_type) (fields struct_ty)) in
          (* Inherit methods *)
          ext_type ← inherit_methods ext_type (vtab_fields vtab_ty);
          inr (set_parent_types ext_type struct_ty vtab_ty)
      end
  end.

Definition process_class_attribute_types (ext_type : extension_type)
    (class_dict : list (string * class_member)) : extension_type :=
  set_symtab ext_type
    (foldl (λ st '(name, value),
              match value with
              | MType t => dict_set st name (Variable_ t false)
              | _ => st
              end)
           (symtab ext_type) class_dict).

(** ** Building the attribute struct and compiling the methods *)

Section Builder.

(** [sort_types] of minivect, which orders the fields of an unordered
    struct by rank, and the compilation pipeline. *)
Variable sort_types :
  list (string * numba_type) → list (string * numba_type).
Variable compile2 :
  py_function → option numba_type → list numba_type → gmap string pyobj →
  exception + func_env.

(** The loop "Inherit fields from parent" of
    [_construct_native_attribute_struct]: the new [fields] and the
    updated [fielddict]. *)
Definition collect_new_fields (fd : gmap string numba_type)
    (st : list (string * variable))
  : list (string * numba_type) * gmap string numba_type :=
  foldl (λ '(new_fields, fd) '(name, variable),
           if decide (fd !! name = None)
           then (new_fields ++ [(name, var_type variable)],
                 <[name := var_type variable]> fd)
           else (new_fields, fd))
        ([], fd) st.

Definition _construct_native_attribute_struct (ext_type : extension_type)
  : extension_type :=
  let attrs := map (λ '(name, var), (name, var_type var))
                   (symtab ext_type) in
  match attribute_struct ext_type with
  | None =>
      (* No fields to inherit *)
      set_attribute_struct ext_type (struct (sort_types attrs))
  | Some s =>
      (* Inherit fields from parent *)
      let '(new_fields, fd) :=
        collect_new_fields (fielddict s) (symtab ext_type) in
      let new_fields := fields (struct new_fields) in
      set_attribute_struct ext_type (Struct (fields s ++ new_fields) fd)
  end.

(** The state of the loop of [_compile_methods]: the dictionary and the
    two lists the caller passes in, all three updated in place. *)
Definition compile_state : Type :=
  list (string * class_member) * list llvm_func * list (string * nat).

Fixpoint compile_methods_from
    (parent_method_pointers : option (list (string * nat)))
    (flags : gmap string pyobj) (i : nat)
    (todo : list (string * signature)) (st : compile_state)
  : M compile_state :=
  match todo with
  | [] => mret st
  | (method_name, func_signature) :: todo' =>
      let '(class_dict, lmethods, method_pointers) := st in
      match dict_get class_dict method_name with
      | None =>
          (* Inherited method *)
          match parent_method_pointers with
          | None => raise (AssertionError PNone)
          | Some pointers =>
              match pointers !! i with
              | None => raise IndexError
              | Some (name, p) =>
                  _ ← py_assert (bool_decide (name = method_name)) PNone;
                  compile_methods_from parent_method_pointers flags (S i)
                    todo'
                    (class_dict, lmethods,
                     method_pointers ++ [(method_name, p)])
              end
          end
      | Some (MMethod method) =>
          func_env ←
            Decorators.pipeline_compile2 compile2 (method_py_func method)
              (return_type func_signature) (args func_signature)
              (<["name" := PStr (func_name (method_py_func method))]>
                 flags);
          compile_methods_from parent_method_pointers flags (S i) todo'
            (dict_set class_dict method_name
               (MResult method (numba_wrapper_func func_env)),
             lmethods ++ [lfunc func_env],
             method_pointers ++ [(method_name, lfunc_pointer func_env)])
      | Some _ => raise (AttributeError "py_func")
      end
  end.

Definition _compile_methods (class_dict : list (string * class_member))
    (ext_type : extension_type) (lmethods : list llvm_func)
    (method_pointers : list (string * nat)) (flags : gmap string pyobj)
  : M compile_state :=
  let parent_method_pointers :=
    numba_method_pointers (ext_class ext_type) in
  compile_methods_from parent_method_pointers flags 0 (methods ext_type)
    (class_dict, lmethods, method_pointers).

End Builder.

(** ** The stages of the class builder *)

(** An outcome of pure code, in the monad. *)
Definition lift {A} (outcome : exception + A) : M A :=
  match outcome with
  | inl e => raise e
  | inr x => mret x
  end.

Definition set_vtab_type (ext_type : extension_type) (v : vtab_struct)
  : extension_type :=
  ExtensionType (ext_class ext_type) (symtab ext_type) (methods ext_type)
    (attribute_struct ext_type) (Some v)
    (parent_attr_struct ext_type) (parent_vtab_type ext_type).

(** The class object as a value of the class dictionary, by its name. *)
Definition class_object (cls : py_class) : class_member :=
  MObject (PStr (class_name cls)).

(** [method is None] *)
Definition member_is_None (m : class_member) : bool :=
  match m with MObject PNone => true | _ => false end.

Section Stages.

(** The collaborators of the builder.  [infer_types2] is
    [pipeline.infer_types2]: among its argument types is the extension type
    itself, as the type of [self], and inference on a method body enters
    the attributes it finds into the symbol table of that type; the outcome
    here is the inferred signature with the symbol table as the call leaves
    it.  [get_method_signatures] is what
    [MethodSignatureProcessor(...).get_method_signatures()] yields.
    [_create_descr] gives the property object for an attribute name, which
    the builder only stores.  [build_vtab] and [create_new_extension_type]
    are the last two calls of [create_extension]. *)
Variable sort_types :
  list (string * numba_type) → list (string * numba_type).
Variable compile2 :
  py_function → option numba_type → list numba_type → gmap string pyobj →
  exception + func_env.
Variable infer_types2 :
  py_function → option numba_type → list numba_type → gmap string pyobj →
  list (string * variable) →
  exception + (signature * list (string * variable)).
Variable get_method_signatures :
  list (string * class_member) → extension_type →
  exception + list (method * signature).
Variable _create_descr : string → class_member.
Variable build_vtab :
  option vtab_struct → list (string * nat) → exception + (nat * vtab_struct).
Variable create_new_extension_type :
  string → list py_class → list (string * class_member) → extension_type →
  nat → vtab_struct → list llvm_func → list (string * nat) →
  exception + nat.

Definition process_method_signatures
    (class_dict : list (string * class_member)) (ext_type : extension_type)
  : M (list (string * class_member) * extension_type) :=
  signatures ← lift (get_method_signatures class_dict ext_type);
  mret (foldl (λ '(class_dict, ext_type) '(method, method_type),
                 (dict_set class_dict (method_name method) (MMethod method),
                  add_method ext_type (method_name method) method_type))
              (class_dict, ext_type) signatures).

Definition _type_infer_method (ext_type : extension_type)
    (method : class_member) (method_name : string)
    (class_dict : list (string * class_member)) (flags : gmap string pyobj)
  : M (extension_type * list (string * class_member)) :=
  match dict_get (methods ext_type) method_name with
  | None => mret (ext_type, class_dict)   (* not in [methoddict] *)
  | Some signature =>
      let class_dict := dict_set class_dict method_name method in
      match method with
      | MMethod m =>
          '(func_signature, st) ←
            external (EvInferTypes2 (func_id (method_py_func m)))
              (infer_types2 (method_py_func m) (return_type signature)
                            (args signature) flags (symtab ext_type));
          mret (add_method (set_symtab ext_type st) method_name
                           func_signature,
                class_dict)
      | _ => raise (AttributeError "py_func")
      end
  end.

Definition _type_infer_init_method
    (class_dict : list (string * class_member)) (ext_type : extension_type)
    (flags : gmap string pyobj)
  : M (extension_type * list (string * class_member)) :=
  match dict_get class_dict "__init__" with
  | None => mret (ext_type, class_dict)
  | Some initfunc =>
      if member_is_None initfunc then mret (ext_type, class_dict)
      else _type_infer_method ext_type initfunc "__init__" class_dict flags
  end.

(** The loop of [_type_infer_methods] over the items of the class
    dictionary. *)
Fixpoint type_infer_items (items : list (string * class_member))
    (ext_type : extension_type) (class_dict : list (string * class_member))
    (flags : gmap string pyobj)
  : M (extension_type * list (string * class_member)) :=
  match items with
  | [] => mret (ext_type, class_dict)
  | (method_name, method) :: items' =>
      if bool_decide (method_name = "__new__")
         || bool_decide (method_name = "__init__")
         || member_is_None method
      then type_infer_items items' ext_type class_dict flags
      else
        '(ext_type, class_dict) ←
          _type_infer_method ext_type method method_name class_dict flags;
        type_infer_items items' ext_type class_dict flags
  end.

Definition _type_infer_methods
    (class_dict : list (string * class_member)) (ext_type : extension_type)
    (flags : gmap string pyobj)
  : M (extension_type * list (string * class_member)) :=
  type_infer_items class_dict ext_type class_dict flags.

Definition inject_descriptors (ext_type : extension_type)
    (class_dict : list (string * class_member))
  : list (string * class_member) :=
  foldl (λ class_dict '(attr_name, attr_type),
           dict_set class_dict attr_name (_create_descr attr_name))
        class_dict (symtab ext_type).

Definition compile_extension_methods (cls : py_class)
    (ext_type : extension_type) (class_dict : list (string * class_member))
    (flags : gmap string pyobj)
  : M (extension_type * list (string * class_member)
       * list (string * nat) * list llvm_func) :=
  let class_dict := dict_set class_dict "__numba_py_class"
                             (class_object cls) in
  '(class_dict, ext_type) ← process_method_signatures class_dict ext_type;
  '(ext_type, class_dict) ←
    _type_infer_init_method class_dict ext_type flags;
  let ext_type := _construct_native_attribute_struct sort_types ext_type in
  '(ext_type, class_dict) ← _type_infer_methods class_dict ext_type flags;
  (* Set vtab type before compiling *)
  let ext_type := set_vtab_type ext_type (VtabStruct (methods ext_type)) in
  '(class_dict, lmethods, method_pointers) ←
    _compile_methods compile2 class_dict ext_type [] [] flags;
  mret (ext_type, class_dict, method_pointers, lmethods).

Definition create_extension (cls : py_class) (flags : gmap string pyobj)
  : M nat :=
  let flags := delete "llvm_module" flags in
  let ext_type := new_extension_type cls in
  let class_dict := class_vars cls in
  ext_type ← lift (inherit_attributes ext_type class_dict);
  let ext_type := process_class_attribute_types ext_type class_dict in
  '(ext_type, class_dict, method_pointers, lmethods) ←
    compile_extension_methods cls ext_type class_dict flags;
  let class_dict := inject_descriptors ext_type class_dict in
  '(vtab, vtab_ty) ← lift (build_vtab (vtab_type ext_type) method_pointers);
  lift (create_new_extension_type (class_name cls) (bases cls) class_dict
          ext_type vtab vtab_ty lmethods method_pointers).

End Stages.

End JitClass.

Import Decorators JitClass.

(** * Vocabulary of the properties *)

(** An environment with another cache and further events on its trace. *)
Definition with_cache (env : environment) (c : function_cache)
    (evs : list event) : environment :=
  Environment c (registered env) (trace env ++ evs).

(** The two errors raised for the removed bytecode backend. *)
Definition bytecode_removed : exception :=
  NotImplementedError "Bytecode backend is no longer supported.".
Definition bytecode_export_removed : exception :=
  NotImplementedError
    "Bytecode translation has been removed for exported functions.".

(** The calls that compile or build something. *)
Definition compiles (ev : event) : bool :=
  match ev with
  | EvCompile2 _ _ | EvCreateExtension _ | EvExportPipeline _ => true
  | _ => false
  end.

(** When [jit] reaches the table of targets: the first argument is not a
    class, a function type comes without [argtypes], and a signature
    string that has to be parsed parses. *)
Definition reaches_jit_targets
    (process_signature : string → pyobj → exception + signature)
    (restype : restype_arg) (argtypes : option (list numba_type))
    (kws : gmap string pyobj) : Prop :=
  match restype with
  | RClass _ => False
  | RFunctionType _ => argtypes = None
  | RStr s =>
      argtypes = None →
      ∃ sig, process_signature s (kw_get kws "name") = inr sig
  | RType _ | RNone => True
  end.

(** When [autojit] reaches its test of the backend: the first argument
    is a type, or is false as a condition ([None]). *)
Definition reaches_autojit_backend (template_signature : template_arg)
  : Prop :=
  match template_signature with
  | TplType _ => True
  | TplCallable _ => False
  | TplOther v => truthy v = false
  end.

(** The name and type of each entry of a symbol table, in its order. *)
Definition attributes (st : list (string * variable))
  : list (string * numba_type) :=
  map (λ '(name, var), (name, var_type var)) st.




(** A signature as [inherit_attributes] enters it for the derived type
    [self_type]. *)
Definition rebind_self (self_type : numba_type) (sig : signature)
  : signature :=
  function_type (return_type sig)
    (if is_class sig || is_static sig then args sig
     else self_type :: tail (args sig)).

(** Signatures that can be inherited without raising: the return type is
    known, and a method that is neither a class method nor a static method
    has a first argument. *)
Definition inheritable (sig : signature) : Prop :=
  is_Some (return_type sig)
  ∧ (is_class sig || is_static sig = false → args sig ≠ []).

(** The methods of the list that the class declares itself. *)
Definition declared (class_dict : list (string * class_member))
    (todo : list (string * signature)) : list (string * signature) :=
  filter (λ m, m.1 ∈ class_dict.*1) todo.

(** The events that a run appended to the trace. *)
Definition appended (env env' : environment) (evs : list event) : Prop :=
  specializations env' = specializations env
  ∧ registered env' = registered env
  ∧ trace env' = trace env ++ evs.

Definition is_compile2 (ev : event) : Prop :=
  match ev with EvCompile2 _ _ => True | _ => False end.

(** A base that [verify_base_class_compatibility] has nothing against: it
    is no native class, or its struct and its vtable are prefixes of the
    candidate layout. *)
Definition compatible_base (struct_ty : struct_type) (vtab_ty : vtab_struct)
    (base : py_class) : Prop :=
  ∀ base_struct,
    numba_struct_type base = Some base_struct →
    ∃ base_vtab,
      numba_vtab_type base = Some base_vtab
      ∧ is_prefix_of (fields base_struct) (fields struct_ty) = true
      ∧ is_prefix_of (vtab_fields base_vtab) (vtab_fields vtab_ty) = true.

(** The native classes among some bases, in their order. *)
Definition native_bases (bs : list py_class) : list py_class :=
  filter (λ b, is_numba_class b = true) bs.

(** The loop of [process_class_attribute_types] over the class dictionary,
    from any symbol table. *)
Definition enter_class_attributes (st : list (string * variable))
    (class_dict : list (string * class_member)) : list (string * variable) :=
  foldl (λ st '(name, value),
           match value with
           | MType t => dict_set st name (Variable_ t false)
           | _ => st
           end) st class_dict.

Definition is_infer_types2 (ev : event) : Prop :=
  match ev with EvInferTypes2 _ => True | _ => False end.

(** The members of a class dictionary that [_type_infer_methods] passes to
    type inference: not [__new__], not [__init__], not [None], and with a
    signature in the method list. *)
Definition inferred_member (method_list : list (string * signature))
    (item : string * class_member) : Prop :=
  item.1 ≠ "__new__" ∧ item.1 ≠ "__init__"
  ∧ member_is_None item.2 = false
  ∧ item.1 ∈ method_list.*1.

Global Instance inferred_member_dec method_list item :
  Decision (inferred_member method_list item).
Proof. unfold inferred_member. apply _. Defined.

(** * Worked examples *)

Module Examples.

Definition f8 : numba_type := TScalar "f8".
Definition i4 : numba_type := TScalar "i4".

Definition env0 : environment := Environment ∅ [] [].

(** [def add(a, b)] and [def neg(a)] *)
Definition add : py_function := PyFunction 1 "add" ["a"; "b"] None.
Definition neg : py_function := PyFunction 2 "neg" ["a"] None.

(** A pipeline that compiles everything, and one that always raises. *)
Definition compile_ok (f : py_function) (restype : option numba_type)
    (argtypes : list numba_type) (kwds : gmap string pyobj)
  : exception + func_env :=
  inr (FuncEnv f (function_type restype argtypes)
               (100 + func_id f) (200 + func_id f) (300 + func_id f)).

Definition compile_fail (f : py_function) (restype : option numba_type)
    (argtypes : list numba_type) (kwds : gmap string pyobj)
  : exception + func_env :=
  inl (Raised "CompilationError").


Definition from_python_num (v : pyobj) : exception + numba_type :=
  match v with
  | PInt _ => inr i4
  | _ => inl (Raised "UnsupportedValueError")
  end.

(** A template resolver that returns the template as it is. *)
Definition resolve_identity (locals : option (gmap string numba_type))
    (template : signature) (argnames : list string)
    (argtypes : list numba_type) : exception + signature :=
  inr template.

Definition parse_ok (s : string) (name : pyobj) : exception + signature :=
  inr (FunctionType (Some f8) [f8] (Some s) false false).
Definition create_ok (cls : string) (kws : gmap string pyobj)
  : exception + nat := inr 7.
Definition export_ok (f : py_function) (sig : signature)
  : exception + unit := inr ().

(** [Base] declares [x: f8]; [Child(Base)] adds [y: i4]. *)
Definition base_struct : struct_type := struct [("x", f8)].
Definition base_vtab : vtab_struct :=
  VtabStruct [("get", FunctionType (Some f8) [TExtension "Base"]
                                   None false false);
              ("make", FunctionType (Some f8) [i4] None false true)].
Definition Base : py_class :=
  PyClass "Base" [] (Some base_struct) (Some base_vtab)
          (Some [("get", 11); ("make", 12)]) [("x", MType f8)].
Definition Child : py_class :=
  PyClass "Child" [Base] (Some base_struct) (Some base_vtab)
          (Some [("get", 11); ("make", 12)]) [("y", MType i4)].

(** Three native classes with the layouts [x, y], [x] and [x, z], and a
    class [C(A, B1, B2)], whose layout is that of [A]. *)
Definition no_methods : vtab_struct := VtabStruct [].
Definition A : py_class :=
  PyClass "A" [] (Some (struct [("x", f8); ("y", i4)])) (Some no_methods)
          (Some []) [].
Definition B1 : py_class :=
  PyClass "B1" [] (Some (struct [("x", f8)])) (Some no_methods)
          (Some []) [].
Definition B2 : py_class :=
  PyClass "B2" [] (Some (struct [("x", f8); ("z", i4)])) (Some no_methods)
          (Some []) [].
Definition C : py_class :=
  PyClass "C" [A; B1; B2] (Some (struct [("x", f8); ("y", i4)]))
          (Some no_methods) (Some []) [].

(** [add] compiled for [(i4, i4)], then requested again twice, with a
    request for [neg] in between. *)
Definition env_add : environment :=
  (compile_function compile_ok (PlainFunction add) [i4; i4] None ∅ env0).2.

Definition spec_add : specialization :=
  (function_type None [i4; i4], 101, 301).

Definition requests : list (Decorators.request) :=
  [(PlainFunction add, [i4; i4], Some f8, ∅);
   (PlainFunction neg, [f8], None, ∅);
   (NumbaFunction (NumbaWrapper add), [i4; i4], None, ∅)].

(** [Child(Base)]: the struct of [Child] is [x: f8, y: i4]. *)
Definition child_inherited : extension_type :=
  match inherit_attributes (new_extension_type Child) (class_vars Child) with
  | inr ext => ext
  | inl _ => new_extension_type Child
  end.

Definition child_declared : extension_type :=
  process_class_attribute_types child_inherited (class_vars Child).




(** A pipeline that compiles every function for [f8] arguments, whatever
    the argument types it is given. *)
Definition compile_widening (f : py_function) (restype : option numba_type)
    (argtypes : list numba_type) (kwds : gmap string pyobj)
  : exception + func_env :=
  inr (FuncEnv f (function_type restype (map (λ _, f8) argtypes))
               (100 + func_id f) (200 + func_id f) (300 + func_id f)).

(** [neg] requested twice for the same argument type. *)
Definition neg_twice (t : numba_type) : list (Decorators.request) :=
  [(PlainFunction neg, [t], None, ∅); (PlainFunction neg, [t], None, ∅)].

(** [add(1, 2)] with the template [f8(f8, f8)] and [locals = {b: i4}]. *)
Definition template_f8 : signature := function_type (Some f8) [f8; f8].
Definition locals_b : gmap string pyobj :=
  {["locals" := PDict {["b" := i4]}]}.

(** [Child] declares a method [area] of its own and inherits [get] and
    [make]; [Orphan] is the same class without a parent pointer table. *)
Definition area : method :=
  Method "area" (PyFunction 3 "area" ["self"] None).

Definition child_dict : list (string * class_member) :=
  [("y", MType i4); ("area", MMethod area)].

Definition child_ext : extension_type :=
  add_method child_inherited "area"
    (function_type (Some f8) [TExtension "Child"]).

Definition Orphan : py_class :=
  PyClass "Orphan" [Base] (Some base_struct) (Some base_vtab) None
          [("y", MType i4)].

Definition orphan_ext : extension_type :=
  ExtensionType Orphan (symtab child_ext) (methods child_ext)
    (attribute_struct child_ext) None None None.

(** A keyword dictionary that passes an LLVM module. *)
Definition with_module : gmap string pyobj := {["llvm_module" := PObj 5]}.

(** A template resolver that returns a signature of one argument. *)
Definition resolve_short (locals : option (gmap string numba_type))
    (template : signature) (argnames : list string)
    (argtypes : list numba_type) : exception + signature :=
  inr (function_type (Some f8) [f8]).

(** The decorator [jit(f8, [i4, i4])]. *)
Definition jit_add : decorator :=
  JitDecorator (PType f8) (PTypes [i4; i4]) (PBool false) PNone ∅.

(** [Redeclared(Base)] gives the inherited [x] the type [i4]. *)
Definition Redeclared : py_class :=
  PyClass "Redeclared" [Base] (Some base_struct) (Some base_vtab)
          (Some [("get", 11); ("make", 12)]) [("x", MType i4)].

(** [Child] with a parent pointer table that is too short, and with one
    that has another method first. *)
Definition short_table_ext : extension_type :=
  ExtensionType
    (PyClass "Child" [Base] (Some base_struct) (Some base_vtab)
             (Some []) [("y", MType i4)])
    (symtab child_ext) (methods child_ext) (attribute_struct child_ext)
    None None None.

Definition other_table_ext : extension_type :=
  ExtensionType
    (PyClass "Child" [Base] (Some base_struct) (Some base_vtab)
             (Some [("set", 13)]) [("y", MType i4)])
    (symtab child_ext) (methods child_ext) (attribute_struct child_ext)
    None None None.

(** Collaborators of the class builder that accept everything: inference
    returns [f8] for the argument types given and finds no attribute, the
    class annotates [area] alone, a descriptor is known by the name of its
    attribute. *)
Definition infer_ok (f : py_function) (restype : option numba_type)
    (argtypes : list numba_type) (flags : gmap string pyobj)
    (st : list (string * variable))
  : exception + (signature * list (string * variable)) :=
  inr (function_type (Some f8) argtypes, st).

Definition signatures_area (class_dict : list (string * class_member))
    (ext_type : extension_type) : exception + list (method * signature) :=
  inr [(area, function_type None [as_type ext_type])].

Definition descriptor_of (attr_name : string) : class_member :=
  MObject (PStr attr_name).

Definition build_vtab_ok (vtab_ty : option vtab_struct)
    (method_pointers : list (string * nat)) : exception + (nat * vtab_struct) :=
  inr (9, default (VtabStruct []) vtab_ty).

Definition new_type_ok (name : string) (bases : list py_class)
    (class_dict : list (string * class_member)) (ext_type : extension_type)
    (vtab : nat) (vtab_ty : vtab_struct) (lmethods : list llvm_func)
    (method_pointers : list (string * nat)) : exception + nat :=
  inr 1.

End Examples.

(** * Properties of the compilation entry points *)

Section CompileFunctionFacts.

Variable compile2 :
  py_function → option numba_type → list numba_type → gmap string pyobj →
  exception + func_env.

Abbreviation compile_function := (compile_function compile2).
Abbreviation serve := (serve compile2).

Lemma with_cache_id env : with_cache env (specializations env) [] = env.
Proof. destruct env; unfold with_cache; simpl. by rewrite app_nil_r. Qed.

(** The two paths of [compile_function], as equations. *)
Lemma compile_function_hit func argtypes restype kwds env spec :
  get_function (specializations env) (py_func_of func) argtypes None
    = Some spec →
  compile_function func argtypes restype kwds env = (inr spec, env).
Proof.
  intros Hhit. unfold Decorators.compile_function, lookup_cache.
  unfold mbind, M_bind. rewrite Hhit. by destruct spec as [[sig l] w].
Qed.

Lemma compile_function_miss func argtypes restype kwds env :
  get_function (specializations env) (py_func_of func) argtypes None
    = None →
  let f := py_func_of func in
  let kwds' := with_compile_only f kwds in
  compile_function func argtypes restype kwds env =
    if is_None (kw_get kwds' "llvm_module") then
      match compile2 f restype argtypes kwds' with
      | inl e =>
          (inl e, with_cache env (specializations env)
                    [EvCompile2 (func_id f) argtypes])
      | inr fe =>
          (inr (func_signature fe, lfunc fe, numba_wrapper_func fe),
           with_cache env
             (<[(func_id (fe_func fe), args (func_signature fe)) :=
                  (func_signature fe, lfunc fe, numba_wrapper_func fe)]>
                (specializations env))
             [EvCompile2 (func_id f) argtypes])
      end
    else (inl (AssertionError (kw_get kwds' "llvm_module")), env).
Proof.
  intros Hmiss f kwds'.
  unfold Decorators.compile_function, lookup_cache, mbind, M_bind.
  rewrite Hmiss. fold f. fold kwds'.
  unfold py_assert. destruct (is_None (kw_get kwds' "llvm_module")); [|done].
  unfold mret, M_ret, pipeline_compile2, external, emit, mbind, M_bind.
  destruct (compile2 f restype argtypes kwds') as [e|fe]; done.
Qed.

Lemma compilations_app f a tr1 tr2 :
  compilations f a (tr1 ++ tr2) = compilations f a tr1 + compilations f a tr2.
Proof. unfold compilations. by rewrite filter_app, length_app. Qed.

Lemma compilations_other f a g b :
  (func_id g, b) ≠ (func_id f, a) →
  compilations f a [EvCompile2 (func_id g) b] = 0.
Proof.
  intros Hne. unfold compilations. rewrite filter_cons, filter_nil.
  destruct (decide _) as [Heq|]; [|done]. congruence.
Qed.

Lemma compilations_single_le f a ev : compilations f a [ev] ≤ 1.
Proof.
  unfold compilations. rewrite filter_cons, filter_nil.
  destruct (decide _); simpl; lia.
Qed.

(** Nothing but a failed assertion, a raising pipeline or a successful
    compilation comes out of [compile_function]; in the first two cases
    the cache is as it was. *)
Lemma compile_function_error_cache func argtypes restype kwds env e env' :
  compile_function func argtypes restype kwds env = (inl e, env') →
  specializations env' = specializations env.
Proof.
  destruct (get_function (specializations env) (py_func_of func)
              argtypes None) as [spec|] eqn:Hget.
  - by rewrite (compile_function_hit _ _ _ _ _ _ Hget).
  - rewrite (compile_function_miss _ _ _ _ _ Hget). cbv zeta.
    destruct (is_None _); [|by intros [= _ <-]].
    destruct (compile2 _ _ _ _); [by intros [= _ <-]|done].
Qed.

(** C2: a compilation that fails raises the pipeline's error to the
    caller of [compile_function] and leaves the specialization cache as it
    was; whenever [compile_function] raises, for any reason, the cache is
    unchanged, so an entry is registered only after the pipeline has
    returned. *)
Theorem compile_failure_leaves_cache_unchanged
    func argtypes restype kwds env :
  (∀ e,
     get_function (specializations env) (py_func_of func) argtypes None
       = None →
     is_None (kw_get (with_compile_only (py_func_of func) kwds)
                     "llvm_module") = true →
     compile2 (py_func_of func) restype argtypes
              (with_compile_only (py_func_of func) kwds) = inl e →
     ∃ env', compile_function func argtypes restype kwds env = (inl e, env')
             ∧ specializations env' = specializations env
             ∧ registered env' = registered env) ∧
  (∀ e env',
     compile_function func argtypes restype kwds env = (inl e, env') →
     specializations env' = specializations env).
Proof.
  split.
  - intros e Hmiss Hmod Hfail.
    rewrite (compile_function_miss _ _ _ _ _ Hmiss). cbv zeta.
    rewrite Hmod, Hfail. eexists. split; [done|]. done.
  - intros e env'. apply compile_function_error_cache.
Qed.

(** The pipeline compiles the function it is given for the argument types
    it is given. *)
Hypothesis compile2_faithful : ∀ f restype argtypes kwds fe,
  compile2 f restype argtypes kwds = inr fe →
  func_id (fe_func fe) = func_id f ∧ args (func_signature fe) = argtypes.

Lemma compile_function_registers func argtypes restype kwds env spec env1 :
  compile_function func argtypes restype kwds env = (inr spec, env1) →
  get_function (specializations env1) (py_func_of func) argtypes None
    = Some spec
  ∧ compilations (py_func_of func) argtypes (trace env1)
    ≤ S (compilations (py_func_of func) argtypes (trace env)).
Proof.
  destruct (get_function (specializations env) (py_func_of func)
              argtypes None) as [hit|] eqn:Hget.
  - rewrite (compile_function_hit _ _ _ _ _ _ Hget).
    intros [= <- <-]. split; [done|lia].
  - rewrite (compile_function_miss _ _ _ _ _ Hget). cbv zeta.
    destruct (is_None _); [|done].
    destruct (compile2 _ _ _ _) as [e|fe] eqn:Hc; [done|].
    intros [= <- <-]. apply compile2_faithful in Hc as [Hf Ha].
    unfold get_function, with_cache; simpl. split.
    + rewrite Hf, Ha. apply lookup_insert_eq.
    + rewrite compilations_app.
      pose proof (compilations_single_le (py_func_of func) argtypes
                    (EvCompile2 (func_id (py_func_of func)) argtypes)).
      lia.
Qed.

(** One request leaves a cached entry and its compilation count alone. *)
Lemma compile_function_keeps f a spec g b restype kwds env out env1 :
  get_function (specializations env) f a None = Some spec →
  compile_function g b restype kwds env = (out, env1) →
  get_function (specializations env1) f a None = Some spec
  ∧ compilations f a (trace env1) = compilations f a (trace env)
  ∧ (func_id (py_func_of g) = func_id f → b = a → out = inr spec).
Proof.
  intros Hhit.
  destruct (decide ((func_id (py_func_of g), b) = (func_id f, a)))
    as [Heq|Hne].
  - injection Heq as Hid Hb.
    assert (get_function (specializations env) (py_func_of g) b None
            = Some spec) as Hhit'.
    { unfold get_function in *. by rewrite Hid, Hb. }
    rewrite (compile_function_hit _ _ _ _ _ _ Hhit').
    by intros [= <- <-].
  - destruct (get_function (specializations env) (py_func_of g) b None)
      as [hit|] eqn:Hget.
    { rewrite (compile_function_hit _ _ _ _ _ _ Hget).
      intros [= <- <-]. repeat split; [done|]. intros ? ?; congruence. }
    rewrite (compile_function_miss _ _ _ _ _ Hget). cbv zeta.
    destruct (is_None _).
    2:{ intros [= <- <-]. repeat split; [done|]. intros ? ?; congruence. }
    destruct (compile2 _ _ _ _) as [e|fe] eqn:Hc; intros [= <- <-];
      unfold with_cache; simpl; rewrite compilations_app,
      (compilations_other _ _ _ _ Hne), Nat.add_0_r.
    + repeat split; [done|]. intros ? ?; congruence.
    + apply compile2_faithful in Hc as [Hf Ha].
      repeat split; [|intros ? ?; congruence].
      unfold get_function in *. rewrite lookup_insert_ne; [done|].
      rewrite Hf, Ha. done.
Qed.

(** C1, as the code has it, for a pipeline that compiles the function it
    is given for the argument types it is given ([compile2_faithful]): a
    request that returns a specialization has invoked the pipeline at most
    once and leaves that specialization in the cache, and the pipeline is
    not invoked for that callable and those argument types by any request
    after it; and once a specialization for a callable and argument types
    is in the cache, every later request for that callable and those
    argument types, whatever was requested in between, returns the cached
    triple, and the pipeline is never invoked for them again. *)
Theorem compile_function_compiles_once func argtypes env :
  (∀ restype kwds spec env1,
     compile_function func argtypes restype kwds env = (inr spec, env1) →
     get_function (specializations env1) (py_func_of func) argtypes None
       = Some spec
     ∧ compilations (py_func_of func) argtypes (trace env1)
       ≤ S (compilations (py_func_of func) argtypes (trace env))
     ∧ ∀ reqs,
         compilations (py_func_of func) argtypes
                      (trace (serve reqs env1).2)
           = compilations (py_func_of func) argtypes (trace env1)
         ∧ ∀ i r, reqs !! i = Some r →
                  same_request (py_func_of func) argtypes r →
                  (serve reqs env1).1 !! i = Some (inr spec)) ∧
  (∀ spec,
     get_function (specializations env) (py_func_of func) argtypes None
       = Some spec →
     ∀ reqs,
       get_function (specializations (serve reqs env).2)
                    (py_func_of func) argtypes None = Some spec
       ∧ compilations (py_func_of func) argtypes (trace (serve reqs env).2)
         = compilations (py_func_of func) argtypes (trace env)
       ∧ ∀ i r, reqs !! i = Some r →
                same_request (py_func_of func) argtypes r →
                (serve reqs env).1 !! i = Some (inr spec)).
Proof.
  assert (∀ spec reqs env,
            get_function (specializations env) (py_func_of func) argtypes
                         None = Some spec →
            get_function (specializations (serve reqs env).2)
                         (py_func_of func) argtypes None = Some spec
            ∧ compilations (py_func_of func) argtypes
                           (trace (serve reqs env).2)
              = compilations (py_func_of func) argtypes (trace env)
            ∧ ∀ i r, reqs !! i = Some r →
                     same_request (py_func_of func) argtypes r →
                     (serve reqs env).1 !! i = Some (inr spec)) as Hlater;
    [|split].
  2: { intros restype kwds spec env1 Hrun.
       apply compile_function_registers in Hrun as [Hhit Hcount].
       split; [done|]. split; [done|]. intros reqs.
       by destruct (Hlater spec reqs env1 Hhit) as (_ & ? & ?). }
  2: { intros spec Hhit reqs. by apply Hlater. }
  clear env. intros spec reqs.
  induction reqs as [|[[[g b] restype] kwds] reqs IH]; intros env Hhit.
  { simpl. repeat split; [done|]. intros i r Hr. by destruct i. }
  simpl.
  destruct (compile_function g b restype kwds env) as [out env1] eqn:Hstep.
  destruct (compile_function_keeps _ _ _ _ _ _ _ _ _ _ Hhit Hstep)
    as (Hhit1 & Hcount1 & Hout).
  specialize (IH env1 Hhit1) as (IHhit & IHcount & IHouts).
  destruct (Decorators.serve compile2 reqs env1) as [outs env2] eqn:Hrest.
  simpl in *. repeat split; [done|congruence|].
  intros [|i] r Hr [Hid Hargs]; simpl in *.
  - injection Hr as <-. simpl in *. f_equal. by apply Hout.
  - apply (IHouts i r Hr). by split.
Qed.

End CompileFunctionFacts.

(** * Properties of [resolve_argtypes] *)

Section ResolveArgtypesFacts.

Variable from_python : pyobj → exception + numba_type.
Variable resolve_templates :
  option (gmap string numba_type) → signature → list string →
  list numba_type → exception + signature.

Abbreviation resolve_argtypes :=
  (resolve_argtypes from_python resolve_templates).

(** Mapping the arguments to their types, when the type mapper accepts
    each of them: one traced call per argument, in order. *)
Lemma for_each_from_python args argtypes env :
  Forall2 (λ x t, from_python x = inr t) args argtypes →
  for_each (λ x, external (EvFromPython x) (from_python x)) args env =
    (inr argtypes,
     Environment (specializations env) (registered env)
                 (trace env ++ map EvFromPython args)).
Proof.
  intros Hall. revert env.
  induction Hall as [|x t args argtypes Hx Hall IH]; intros env.
  - simpl. unfold mret, M_ret. rewrite app_nil_r. by destruct env.
  - simpl. unfold mbind, M_bind, external, emit, mbind, M_bind.
    rewrite Hx. unfold mret, M_ret. rewrite IH. simpl.
    by rewrite <- app_assoc.
Qed.

(** The override loop from index [i] on, when the list is long enough:
    it does not raise, touches no position before [i], and at position
    [i + k] puts the type that [locals] gives for the [k]-th name, if
    any. *)
Lemma override_argtypes_lookup d argnames : ∀ i argtypes env,
  i + length argnames ≤ length argtypes →
  ∃ argtypes',
    override_argtypes d i argnames argtypes env = (inr argtypes', env)
    ∧ length argtypes' = length argtypes
    ∧ (∀ j, j < i → argtypes' !! j = argtypes !! j)
    ∧ (∀ k argname t,
         argnames !! k = Some argname → argtypes !! (i + k) = Some t →
         argtypes' !! (i + k) = Some (default t (d !! argname))).
Proof.
  induction argnames as [|n argnames IH]; intros i argtypes env Hlen.
  - exists argtypes. simpl. repeat split; try done.
  - simpl in Hlen. simpl.
    set (l1 := match d !! n with
               | Some new_type => <[i := new_type]> argtypes
               | None => argtypes
               end).
    assert (length l1 = length argtypes) as Hl1.
    { unfold l1. destruct (d !! n); [apply length_insert|done]. }
    destruct (IH (S i) l1 env) as (l' & Hrun & Hlen' & Hbefore & Hat).
    { rewrite Hl1. lia. }
    exists l'. split; [|split; [|split]].
    + unfold l1 in Hrun. destruct (d !! n) as [new_type|]; [|done].
      destruct (decide (i < length argtypes)); [done|lia].
    + congruence.
    + intros j Hj. rewrite Hbefore by lia. unfold l1.
      destruct (d !! n); [|done]. apply list_lookup_insert_ne. lia.
    + intros [|k] argname t Hname Ht; simpl in Hname.
      * injection Hname as <-. rewrite Nat.add_0_r in *.
        rewrite Hbefore by lia. unfold l1.
        destruct (d !! n) as [new_type|]; simpl; [|done].
        apply list_lookup_insert_eq. lia.
      * replace (i + S k) with (S i + k) in * by lia.
        apply Hat; [done|]. unfold l1.
        destruct (d !! n); [|done].
        rewrite list_lookup_insert_ne by lia. done.
Qed.


(** C7: when a template signature is resolved, each argument named in
    [locals] gets the type [locals] gives it, in place of the type the
    template resolution gave that position; every other named position
    keeps its resolved type, and the return type is the resolved one. *)
Theorem locals_override_resolved_types
    numba_func template args translator_kwargs env argtypes0 sig :
  length args = co_argcount (py_func numba_func) →
  Forall2 (λ x t, from_python x = inr t) args argtypes0 →
  resolve_templates (get_locals translator_kwargs) template
    (argnames (py_func numba_func)) argtypes0 = inr sig →
  length (argnames (py_func numba_func)) ≤ length (sig_args sig) →
  ∃ resolved env',
    resolve_argtypes numba_func (Some template) args ∅
                     translator_kwargs env = (inr resolved, env')
    ∧ return_type resolved = return_type sig
    ∧ length (sig_args resolved) = length (sig_args sig)
    ∧ ∀ i argname unified,
        argnames (py_func numba_func) !! i = Some argname →
        sig_args sig !! i = Some unified →
        sig_args resolved !! i =
          Some (match get_locals translator_kwargs with
                | Some d => default unified (d !! argname)
                | None => unified
                end).
Proof.
  intros Harity Hmap Htpl Hlen. unfold Decorators.resolve_argtypes.
  unfold mbind at 1, M_bind at 1, py_assert.
  rewrite bool_decide_eq_true_2 by done. unfold mret at 1, M_ret at 1.
  destruct (decide _) as [Hne|_]; [by destruct Hne|].
  unfold mbind at 1, M_bind at 1.
  rewrite (for_each_from_python _ _ _ Hmap).
  unfold mbind at 1, M_bind at 1, mbind at 1, M_bind at 1.
  unfold external, emit, mbind at 1, M_bind at 1. rewrite Htpl.
  unfold mret at 1, M_ret at 1, mret at 1, M_ret at 1.
  unfold mbind at 1, M_bind at 1.
  destruct (get_locals translator_kwargs) as [d|].
  - match goal with |- context [override_argtypes d 0 ?ns ?l ?e] =>
      destruct (override_argtypes_lookup d ns 0 l e)
        as (l' & Hrun & Hlen' & _ & Hat); [simpl; lia|rewrite Hrun]
    end.
    eexists _, _. split; [done|]. simpl. repeat split; [done|].
    intros i argname unified Hname Hunified.
    by apply (Hat i argname unified).
  - eexists _, _. split; [done|]. simpl. repeat split; done.
Qed.

End ResolveArgtypesFacts.

(** * Properties of the entry points [export], [autojit] and [jit] *)

Section EntryPointFacts.

Variable compile2 :
  py_function → option numba_type → list numba_type → gmap string pyobj →
  exception + func_env.
Variable process_signature : string → pyobj → exception + signature.
Variable create_extension : string → gmap string pyobj → exception + nat.
Variable export_pipeline : py_function → signature → exception + unit.

Abbreviation jit := (jit process_signature create_extension).
Abbreviation autojit :=
  (autojit compile2 process_signature create_extension export_pipeline).
Abbreviation export := (export process_signature).
Abbreviation apply_decorator :=
  (apply_decorator compile2 process_signature create_extension
                   export_pipeline).

(** C10: [jit] called with a constructed function type and an [argtypes]
    keyword raises [TypeError]; the environment is untouched, so nothing
    was parsed, compiled or built before. *)
Theorem jit_rejects_function_type_with_argtypes
    ft argtypes backend target nopython kws env :
  jit (RFunctionType ft) (Some argtypes) backend target nopython kws env =
    (inl (TypeError "Cannot use both calling syntax and argtypes keyword"),
     env).
Proof. reflexivity. Qed.

Lemma stub_always_raises func env :
  apply_decorator NotImplementedStub func env = (inl bytecode_removed, env).
Proof. reflexivity. Qed.

Lemma jit_bytecode restype argtypes nopython kws env :
  reaches_jit_targets process_signature restype argtypes kws →
  ∃ evs,
    jit restype argtypes "bytecode" "cpu" nopython kws env =
      (inl bytecode_removed,
       Environment (specializations env) (registered env)
                   (trace env ++ evs))
    ∧ Forall (λ ev, compiles ev = false) evs.
Proof.
  intros Hreach.
  assert (∀ env, Environment (specializations env) (registered env)
                   (trace env ++ []) = env) as Hnil.
  { intros [c r t]; simpl. by rewrite app_nil_r. }
  destruct restype as [cls|ft|s|t|]; simpl in Hreach; [done|..].
  - subst argtypes. exists []. rewrite Hnil. split; [reflexivity|done].
  - destruct argtypes as [ts|].
    + exists []. rewrite Hnil. split; [reflexivity|done].
    + destruct (Hreach eq_refl) as [sig Hsig].
      exists [EvProcessSignature s]. split; [|by repeat constructor].
      unfold Decorators.jit, mbind, M_bind, external, emit, mbind, M_bind.
      unfold kw_get in *.
      rewrite !lookup_insert_ne by done. rewrite Hsig. reflexivity.
  - exists []. rewrite Hnil. split; [reflexivity|done].
  - exists []. rewrite Hnil. split; [reflexivity|done].
Qed.

(** C8, as the code has it: with the bytecode backend selected, every
    entry point that reaches its test of the backend fails with
    [NotImplementedError] and makes no call that compiles or builds
    anything.  For [export] and [autojit] the failure comes when the
    decorator they return is applied to a function; for [jit] with target
    cpu it comes from [jit] itself. *)
Theorem bytecode_backend_fails_at_dispatch :
  (∀ signature kws sig func env,
     process_signature signature PNone = inr sig →
     kws !! "backend" = Some (PStr "bytecode") →
     ∃ d env1,
       export signature kws env = (inr (Decorator d), env1)
       ∧ trace env1 = trace env ++ [EvProcessSignature signature]
       ∧ apply_decorator d (DFunction func) env1
         = (inl bytecode_export_removed, env1)) ∧
  (∀ template_signature target nopython locals kwargs func env env1,
     reaches_autojit_backend template_signature →
     autojit template_signature "bytecode" target nopython locals kwargs env
       = (inr (Decorator NotImplementedStub), env)
     ∧ apply_decorator NotImplementedStub func env1
       = (inl bytecode_removed, env1)) ∧
  (∀ restype argtypes nopython kws env,
     reaches_jit_targets process_signature restype argtypes kws →
     ∃ evs,
       jit restype argtypes "bytecode" "cpu" nopython kws env =
         (inl bytecode_removed,
          Environment (specializations env) (registered env)
                      (trace env ++ evs))
       ∧ Forall (λ ev, compiles ev = false) evs).
Proof.
  split; [|split].
  - intros signature kws sig func env Hsig Hbackend.
    unfold Decorators.export, mbind, M_bind, external, emit, mbind, M_bind.
    rewrite Hsig. unfold mret, M_ret, _internal_export. rewrite Hbackend.
    eexists _, _. split; [reflexivity|]. split; reflexivity.
  - intros template_signature target nopython locals kwargs func env env1
      Hreach.
    split; [|reflexivity].
    destruct template_signature as [tpl|f|v]; simpl in Hreach;
      [reflexivity|done|].
    unfold Decorators.autojit. rewrite Hreach. reflexivity.
  - apply jit_bytecode.
Qed.

End EntryPointFacts.

(** * Properties of the extension class builder *)

Section OrderedDictFacts.
Context {V : Type}.
Implicit Types (d : list (string * V)) (k : string) (v : V).

Lemma dict_get_None d k : dict_get d k = None ↔ k ∉ d.*1.
Proof.
  induction d as [|[k' v'] d IH]; simpl.
  - split; [intros _; apply not_elem_of_nil|done].
  - destruct (decide (k' = k)) as [->|Hne].
    + split; [done|]. intros Hnot. destruct Hnot. apply list_elem_of_here.
    + rewrite IH, not_elem_of_cons. naive_solver.
Qed.

Lemma dict_set_keys_present d k v :
  k ∈ d.*1 → (dict_set d k v).*1 = d.*1.
Proof.
  induction d as [|[k' v'] d IH]; simpl; intros Hin.
  - by apply elem_of_nil in Hin.
  - destruct (decide (k' = k)) as [->|Hne]; simpl; [done|].
    f_equal. apply IH. apply elem_of_cons in Hin as [->|]; done.
Qed.

(** Assigning to a new key appends it. *)
Lemma dict_set_fresh d k v : k ∉ d.*1 → dict_set d k v = d ++ [(k, v)].
Proof.
  induction d as [|[k' v'] d IH]; simpl; intros Hnot; [done|].
  apply not_elem_of_cons in Hnot as [Hne Hnot].
  destruct (decide (k' = k)) as [->|_]; [done|]. by rewrite IH.
Qed.

Lemma dict_set_NoDup d k v : NoDup d.*1 → NoDup (dict_set d k v).*1.
Proof.
  intros Hnd. destruct (decide (k ∈ d.*1)) as [Hin|Hnot].
  - by rewrite dict_set_keys_present.
  - rewrite dict_set_fresh, fmap_app by done. simpl.
    apply NoDup_app. split; [done|]. split; [|apply NoDup_singleton].
    intros x Hx Hx'. apply list_elem_of_singleton in Hx'. by subst.
Qed.

(** Assigning to any key keeps the keys that were there. *)
Lemma dict_set_mem d k v k' :
  k' ∈ (dict_set d k v).*1 ↔ k' = k ∨ k' ∈ d.*1.
Proof.
  destruct (decide (k ∈ d.*1)) as [Hin|Hnot].
  - rewrite dict_set_keys_present by done. naive_solver.
  - rewrite dict_set_fresh, fmap_app, elem_of_app by done. simpl.
    rewrite list_elem_of_singleton. naive_solver.
Qed.
End OrderedDictFacts.

Section AttributeStructFacts.

Variable sort_types :
  list (string * numba_type) → list (string * numba_type).

Abbreviation _construct_native_attribute_struct :=
  (_construct_native_attribute_struct sort_types).

Lemma attributes_keys st : (attributes st).*1 = st.*1.
Proof. induction st as [|[n v] st IH]; simpl; by f_equal. Qed.

Lemma dict_of_fields_None fs name :
  dict_of_fields fs !! name = None ↔ name ∉ fs.*1.
Proof.
  unfold dict_of_fields. rewrite <- not_elem_of_list_to_map.
  rewrite fmap_reverse, elem_of_reverse. done.
Qed.

Lemma filter_agree {A} (P Q : A → Prop) `{∀ x, Decision (P x)}
    `{∀ x, Decision (Q x)} (l : list A) :
  (∀ x, x ∈ l → P x ↔ Q x) → filter P l = filter Q l.
Proof.
  induction l as [|x l IH]; intros Hagree; [done|].
  rewrite !filter_cons.
  assert (filter P l = filter Q l) as ->.
  { apply IH. intros y Hy. apply Hagree. by apply list_elem_of_further. }
  pose proof (Hagree x (list_elem_of_here _ _)) as Hx.
  destruct (decide (P x)), (decide (Q x)); naive_solver.
Qed.

(** The loop over the symbol table: with unique names, the new fields are
    the entries whose name the struct does not have yet, in the order of
    the table. *)
Lemma collect_new_fields_from st :
  ∀ (new_fields : list (string * numba_type))
    (fd : gmap string numba_type),
  NoDup st.*1 →
  (foldl (λ '(new_fields, fd) '(name, variable),
            if decide (fd !! name = None)
            then (new_fields ++ [(name, var_type variable)],
                  <[name := var_type variable]> fd)
            else (new_fields, fd))
         (new_fields, fd) st).1
  = new_fields ++ filter (λ f, fd !! f.1 = None) (attributes st).
Proof.
  induction st as [|[n v] st IH]; intros new_fields fd Hnd; simpl.
  - by rewrite app_nil_r.
  - apply NoDup_cons in Hnd as [Hn Hnd]. rewrite filter_cons. simpl.
    destruct (decide (fd !! n = None)) as [Hnew|Hold].
    + rewrite IH by done. rewrite <- app_assoc. simpl. do 2 f_equal.
      apply filter_agree. intros [m t] Hm. simpl.
      rewrite lookup_insert_ne; [done|]. intros ->. apply Hn.
      rewrite <- attributes_keys. apply list_elem_of_fmap.
      by exists (m, t).
    + by rewrite IH.
Qed.

Lemma construct_inherited ext s :
  attribute_struct ext = Some s →
  NoDup (symtab ext).*1 →
  ∃ s',
    attribute_struct (_construct_native_attribute_struct ext) = Some s'
    ∧ fields s' =
        fields s ++
        filter (λ f, fielddict s !! f.1 = None) (attributes (symtab ext)).
Proof.
  intros Hs Hnd. unfold JitClass._construct_native_attribute_struct.
  rewrite Hs. unfold collect_new_fields.
  pose proof (collect_new_fields_from (symtab ext) [] (fielddict s) Hnd)
    as Hloop.
  destruct (foldl _ _ _) as [new_fields fd]. simpl in *.
  eexists. split; [done|]. simpl. by rewrite Hloop.
Qed.

(** What [inherit_attributes] leaves as attribute struct when the class
    has a native parent. *)
Lemma inherit_methods_attribute_struct vfields : ∀ ext ext',
  inherit_methods ext vfields = inr ext' →
  attribute_struct ext' = attribute_struct ext
  ∧ ext_class ext' = ext_class ext.
Proof.
  induction vfields as [|[name mt] vfields IH]; intros ext ext'; simpl.
  - by intros [= <-].
  - unfold mbind, result_bind.
    destruct (inherit_method ext mt) as [e|sig]; [done|].
    intros Hrest. by apply IH in Hrest as [-> ->].
Qed.

Lemma inherit_attributes_struct ext class_dict ext' parent :
  numba_struct_type (ext_class ext) = Some parent →
  inherit_attributes ext class_dict = inr ext' →
  attribute_struct ext' = Some (struct (fields parent)).
Proof.
  intros Hparent. unfold inherit_attributes. rewrite Hparent.
  destruct (numba_vtab_type _) as [vtab|]; [|done].
  unfold mbind, result_bind.
  destruct (verify_base_class_compatibility _ _ _); [done|].
  destruct (inherit_methods _ _) as [e|ext1] eqn:Hm; [done|].
  intros [= <-]. apply inherit_methods_attribute_struct in Hm as [Hm _].
  simpl. by rewrite Hm.
Qed.


End AttributeStructFacts.

Section InheritanceFacts.

Lemma inherit_method_inheritable ext sig :
  inheritable sig →
  inherit_method ext sig = inr (rebind_self (as_type ext) sig).
Proof.
  intros [[rt Hrt] Hargs]. unfold inherit_method, rebind_self.
  destruct (is_class sig || is_static sig) eqn:Hflag; simpl.
  - by rewrite Hrt.
  - destruct (args sig) as [|a rest] eqn:Ha; [by destruct Hargs|].
    simpl. by rewrite Hrt.
Qed.

Lemma inherit_methods_appends vfields : ∀ ext,
  Forall inheritable vfields.*2 →
  NoDup vfields.*1 →
  (∀ name, name ∈ vfields.*1 → name ∉ (methods ext).*1) →
  ∃ ext',
    inherit_methods ext vfields = inr ext'
    ∧ methods ext' =
        methods ext ++
        map (λ '(name, sig), (name, rebind_self (as_type ext) sig)) vfields
    ∧ symtab ext' = symtab ext.
Proof.
  induction vfields as [|[name sig] vfields IH]; intros ext Hok Hnd Hfresh.
  - exists ext. simpl. by rewrite app_nil_r.
  - simpl in *. apply Forall_cons in Hok as [Hsig Hok].
    apply NoDup_cons in Hnd as [Hname Hnd].
    rewrite (inherit_method_inheritable _ _ Hsig). simpl.
    destruct (IH (add_method ext name (rebind_self (as_type ext) sig)))
      as (ext' & Hrun & Hmethods & Hsymtab); [done|done| |].
    + intros n Hn. simpl. rewrite dict_set_mem. intros [->|Hin]; [done|].
      revert Hin. apply Hfresh. by apply list_elem_of_further.
    + exists ext'. split; [done|]. split; [|done]. rewrite Hmethods. simpl.
      rewrite dict_set_fresh by (apply Hfresh, list_elem_of_here).
      by rewrite <- app_assoc.
Qed.

(** C9: for a class that inherits from a native base, each method of the
    parent's vtable is entered in the method list of the derived type at
    the same index and under the same name; its return type is kept; a
    method that is neither a class method nor a static method has its
    first argument type replaced by the derived extension type, the other
    argument types kept; a class method or static method keeps all its
    argument types. *)
Theorem inherited_methods_take_derived_self
    cls struct_ty vtab_ty class_dict :
  numba_struct_type cls = Some struct_ty →
  numba_vtab_type cls = Some vtab_ty →
  verify_base_class_compatibility cls struct_ty vtab_ty = inr () →
  NoDup (vtab_fields vtab_ty).*1 →
  Forall inheritable (vtab_fields vtab_ty).*2 →
  ∃ ext',
    inherit_attributes (new_extension_type cls) class_dict = inr ext'
    ∧ length (methods ext') = length (vtab_fields vtab_ty)
    ∧ ∀ i name sig,
        vtab_fields vtab_ty !! i = Some (name, sig) →
        ∃ sig',
          methods ext' !! i = Some (name, sig')
          ∧ return_type sig' = return_type sig
          ∧ (is_class sig || is_static sig = false →
             ∃ self rest,
               args sig = self :: rest
               ∧ args sig' = TExtension (class_name cls) :: rest)
          ∧ (is_class sig || is_static sig = true →
             args sig' = args sig).
Proof.
  intros Hstruct Hvtab Hverify Hnd Hok.
  unfold inherit_attributes. simpl. rewrite Hstruct, Hvtab, Hverify. simpl.
  match goal with |- context [inherit_methods ?e _] =>
    destruct (inherit_methods_appends (vtab_fields vtab_ty) e Hok Hnd)
      as (ext' & Hrun & Hmethods & _)
  end.
  { intros name _. simpl. apply not_elem_of_nil. }
  rewrite Hrun. simpl in Hmethods. eexists. split; [done|]. simpl.
  rewrite Hmethods. split; [by rewrite length_map|].
  intros i name sig Hi. exists (rebind_self (TExtension (class_name cls)) sig).
  split; [|split; [done|split]].
  - rewrite list_lookup_fmap, Hi. done.
  - intros Hflag. unfold rebind_self. rewrite Hflag. simpl.
    rewrite Forall_forall in Hok.
    destruct (Hok sig) as [_ Hargs].
    { apply list_elem_of_fmap. exists (name, sig). split; [done|].
      by apply list_elem_of_lookup_2 in Hi. }
    destruct (args sig) as [|self rest]; [by destruct Hargs|].
    by exists self, rest.
  - intros Hflag. unfold rebind_self. by rewrite Hflag.
Qed.

(** When [verify_base_class_compatibility] accepts, every native base is
    prefix-compatible with the candidate layout, in attributes and in
    methods; so a native base that is not makes the build of the class
    fail. *)
Lemma verify_bases_accepts todo : ∀ seen struct_ty vtab_ty,
  verify_bases seen todo struct_ty vtab_ty = inr () →
  Forall (λ base, ∀ base_struct,
            numba_struct_type base = Some base_struct →
            ∃ base_vtab,
              numba_vtab_type base = Some base_vtab
              ∧ is_prefix_of (fields base_struct) (fields struct_ty) = true
              ∧ is_prefix_of (vtab_fields base_vtab) (vtab_fields vtab_ty)
                = true)
         todo.
Proof.
  induction todo as [|base todo IH]; intros seen struct_ty vtab_ty Hrun;
    [done|].
  simpl in Hrun. constructor.
  - intros base_struct Hbase. rewrite Hbase in Hrun.
    destruct (numba_vtab_type base) as [base_vtab|]; [|done].
    exists base_vtab. split; [done|].
    destruct (is_prefix_of (fields base_struct) _),
             (is_prefix_of (vtab_fields base_vtab) _); done.
  - destruct (numba_struct_type base) as [base_struct|]; [|by eapply IH].
    destruct (numba_vtab_type base) as [base_vtab|]; [|done].
    destruct (negb _ || negb _); [done|]. by eapply IH.
Qed.

Lemma incompatible_base_rejected cls struct_ty vtab_ty base base_struct :
  base ∈ bases cls →
  numba_struct_type base = Some base_struct →
  is_prefix_of (fields base_struct) (fields struct_ty) = false →
  ∃ e, verify_base_class_compatibility cls struct_ty vtab_ty = inl e.
Proof.
  intros Hin Hbase Hprefix.
  destruct (verify_base_class_compatibility cls struct_ty vtab_ty)
    as [e|[]] eqn:Hrun; [by exists e|].
  apply verify_bases_accepts in Hrun. rewrite Forall_forall in Hrun.
  destruct (Hrun base Hin base_struct Hbase) as (? & _ & Hp & _).
  congruence.
Qed.

End InheritanceFacts.

Section CompileMethodsFacts.

Variable compile2 :
  py_function → option numba_type → list numba_type → gmap string pyobj →
  exception + func_env.
Variable parent_method_pointers : option (list (string * nat)).
Variable flags : gmap string pyobj.

Abbreviation compile_from :=
  (compile_methods_from compile2 parent_method_pointers flags).

(** A successful run of the loop from index [i]: one pointer is appended
    per method; an inherited method gets the parent's pointer at its
    index; the pipeline is invoked once per declared method and no other
    call is made; the dictionary keeps its keys. *)
Lemma compile_from_success todo : ∀ i cd lm mp env cd' lm' mp' env',
  compile_from i todo (cd, lm, mp) env = (inr (cd', lm', mp'), env') →
  cd'.*1 = cd.*1
  ∧ length mp' = length mp + length todo
  ∧ (∀ j, j < length mp → mp' !! j = mp !! j)
  ∧ (∀ k name sig,
       todo !! k = Some (name, sig) → name ∉ cd.*1 →
       ∃ pointers p,
         parent_method_pointers = Some pointers
         ∧ pointers !! (i + k) = Some (name, p)
         ∧ mp' !! (length mp + k) = Some (name, p))
  ∧ ∃ evs, appended env env' evs
           ∧ Forall is_compile2 evs
           ∧ length evs = length (declared cd todo).
Proof.
  induction todo as [|[name sig] todo IH];
    intros i cd lm mp env cd' lm' mp' env'; simpl.
  - intros [= <- <- <- <-]. split; [done|]. split; [lia|].
    split; [done|]. split; [by intros k ? ? ?|].
    exists []. unfold appended. by rewrite app_nil_r.
  - unfold declared. rewrite filter_cons. simpl.
    destruct (dict_get cd name) as [member|] eqn:Hget.
    + (* a declared method *)
      assert (name ∈ cd.*1) as Hin.
      { destruct (decide (name ∈ cd.*1)) as [|Hnot]; [done|].
        apply dict_get_None in Hnot. congruence. }
      destruct member as [t|m|m w|v]; try done.
      unfold mbind, M_bind, pipeline_compile2, external, emit, mbind, M_bind.
      destruct (compile2 _ _ _ _) as [e|fe]; [done|].
      unfold mret, M_ret. intros Hrest.
      apply IH in Hrest as (Hkeys & Hlen & Hold & Hinh & evs & Hev & Hc & Hn).
      rewrite dict_set_keys_present in Hkeys by done.
      rewrite length_app in Hlen, Hinh. simpl in Hlen, Hinh.
      split; [done|]. split; [lia|]. split; [|split].
      * intros j Hj. rewrite Hold by (rewrite length_app; lia).
        by rewrite lookup_app_l.
      * intros [|k] name' sig' Hk Hnot; simpl in Hk.
        { injection Hk as <- <-. done. }
        rewrite dict_set_keys_present in Hinh by done.
        destruct (Hinh k name' sig' Hk Hnot) as (ps & p & Hps & Hp & Hmp).
        exists ps, p. split; [done|].
        replace (i + S k) with (S i + k) by lia.
        replace (length mp + S k) with (length mp + 1 + k) by lia. done.
      * destruct Hev as (Hs & Hr & Ht). simpl in *.
        eexists (_ :: evs). split; [|split].
        -- split; [done|]. split; [done|].
           rewrite Ht, <- app_assoc. done.
        -- by constructor.
        -- destruct (decide _) as [_|Hno]; [|done]. simpl. rewrite Hn.
           unfold declared.
           by rewrite (dict_set_keys_present cd name _ Hin).
    + (* an inherited method *)
      apply dict_get_None in Hget.
      destruct parent_method_pointers as [pointers|] eqn:Hparent; [|done].
      destruct (pointers !! i) as [[name' p]|] eqn:Hp; [|done].
      unfold mbind, M_bind, py_assert.
      destruct (bool_decide (name' = name)) eqn:Hname; [|done].
      apply bool_decide_eq_true in Hname as ->.
      unfold mret, M_ret. intros Hrest.
      apply IH in Hrest as (Hkeys & Hlen & Hold & Hinh & evs & Hev & Hc & Hn).
      rewrite length_app in Hlen, Hinh. simpl in Hlen, Hinh.
      split; [done|]. split; [lia|]. split; [|split].
      * intros j Hj. rewrite Hold by (rewrite length_app; lia).
        by rewrite lookup_app_l.
      * intros [|k] name' sig' Hk Hnot; simpl in Hk.
        { injection Hk as <- <-. exists pointers, p. split; [done|].
          rewrite !Nat.add_0_r. split; [done|].
          rewrite Hold by (rewrite length_app; simpl; lia).
          by rewrite lookup_app_r, Nat.sub_diag. }
        destruct (Hinh k name' sig' Hk Hnot) as (ps & p' & Hps & Hp' & Hmp).
        exists ps, p'. split; [done|].
        replace (i + S k) with (S i + k) by lia.
        replace (length mp + S k) with (length mp + 1 + k) by lia. done.
      * exists evs. split; [done|]. split; [done|].
        destruct (decide _) as [Hyes|_]; [by destruct Hget|]. done.
Qed.

(** The loop over a list in two parts. *)
Lemma compile_from_app pre rest : ∀ i st env,
  compile_from i (pre ++ rest) st env =
    match compile_from i pre st env with
    | (inr st1, env1) => compile_from (i + length pre) rest st1 env1
    | (inl e, env1) => (inl e, env1)
    end.
Proof.
  induction pre as [|[name sig] pre IH]; intros i [[cd lm] mp] env; simpl.
  - by rewrite Nat.add_0_r.
  - destruct (dict_get cd name) as [[t|m|m w|v]|]; try done.
    + unfold mbind, M_bind.
      destruct (pipeline_compile2 _ _ _ _ _ _) as [[e|fe] env1]; [done|].
      rewrite IH. by replace (S i + length pre) with (i + S (length pre))
        by lia.
    + destruct parent_method_pointers as [pointers|]; [|done].
      destruct (pointers !! i) as [[name' p]|]; [|done].
      unfold mbind, M_bind.
      destruct (py_assert _ _ env) as [[e|[]] env1]; [done|].
      rewrite IH. by replace (S i + length pre) with (i + S (length pre))
        by lia.
Qed.

(** Without a parent pointer table, a method list with an inherited
    method cannot be compiled. *)
Lemma compile_from_fails todo : ∀ i cd lm mp env name sig,
  parent_method_pointers = None →
  (name, sig) ∈ todo → name ∉ cd.*1 →
  ∃ e env', compile_from i todo (cd, lm, mp) env = (inl e, env').
Proof.
  induction todo as [|[n s] todo IH];
    intros i cd lm mp env name sig Hparent Hin Hnot.
  - by apply elem_of_nil in Hin.
  - simpl. destruct (dict_get cd n) as [member|] eqn:Hget.
    + assert (n ∈ cd.*1) as Hn.
      { destruct (decide (n ∈ cd.*1)) as [|Hno]; [done|].
        apply dict_get_None in Hno. congruence. }
      apply elem_of_cons in Hin as [[= -> ->]|Hin]; [done|].
      destruct member as [t|m|m w|v]; try by eexists _, _.
      unfold mbind, M_bind.
      destruct (pipeline_compile2 _ _ _ _ _ _) as [[e|fe] env1];
        [by eexists _, _|].
      eapply IH; [done|done|]. by rewrite dict_set_keys_present.
    + rewrite Hparent. by eexists _, _.
Qed.

End CompileMethodsFacts.

(** C6: in [_compile_methods], a method of the method list that the class
    dictionary does not have is inherited: when the run succeeds, the
    pointer table has, at the index of that method, the name and the pointer
    that the parent's pointer table has at the same index, and the pipeline
    was invoked once per declared method and for nothing else.  When the
    parent's pointer table is absent and some method is inherited, the run
    fails, and it fails with the assertion on the parent table as soon as the
    loop reaches the inherited method. *)
Theorem inherited_methods_reuse_parent_pointers
    compile2 class_dict ext lmethods method_pointers flags env :
  (∀ cd' lm' mp' env',
     _compile_methods compile2 class_dict ext lmethods method_pointers flags
                      env = (inr (cd', lm', mp'), env') →
     (∀ i name sig,
        methods ext !! i = Some (name, sig) → name ∉ class_dict.*1 →
        ∃ pointers p,
          numba_method_pointers (ext_class ext) = Some pointers
          ∧ pointers !! i = Some (name, p)
          ∧ mp' !! (length method_pointers + i) = Some (name, p))
     ∧ ∃ evs, appended env env' evs
              ∧ Forall is_compile2 evs
              ∧ length evs = length (declared class_dict (methods ext))) ∧
  (numba_method_pointers (ext_class ext) = None →
     (∀ name sig,
        (name, sig) ∈ methods ext → name ∉ class_dict.*1 →
        ∃ e env',
          _compile_methods compile2 class_dict ext lmethods method_pointers
                           flags env = (inl e, env')) ∧
     (∀ pre name sig post st1 env1,
        methods ext = pre ++ (name, sig) :: post →
        name ∉ class_dict.*1 →
        compile_methods_from compile2 None flags 0 pre
          (class_dict, lmethods, method_pointers) env = (inr st1, env1) →
        _compile_methods compile2 class_dict ext lmethods method_pointers
                         flags env = (inl (AssertionError PNone), env1))).
Proof.
  unfold _compile_methods. split.
  - intros cd' lm' mp' env' Hrun.
    apply compile_from_success in Hrun as (_ & _ & _ & Hinh & Hevs).
    split; [|done]. intros i name sig Hi Hnot.
    by destruct (Hinh i name sig Hi Hnot) as (ps & p & ? & ? & ?);
      exists ps, p.
  - intros Hparent. rewrite Hparent. split.
    + intros name sig Hin Hnot. by eapply compile_from_fails.
    + intros pre name sig post [[cd1 lm1] mp1] env1 Hsplit Hnot Hpre.
      rewrite Hsplit, compile_from_app, Hpre. simpl.
      apply compile_from_success in Hpre as (Hkeys & _).
      assert (dict_get cd1 name = None) as ->; [|done].
      apply dict_get_None. by rewrite Hkeys.
Qed.

(** * The theorems at work on the examples *)

Import Examples.

Lemma compile_ok_faithful f restype argtypes kwds fe :
  compile_ok f restype argtypes kwds = inr fe →
  func_id (fe_func fe) = func_id f ∧ args (func_signature fe) = argtypes.
Proof. intros [= <-]. by split. Defined.

Lemma NoDup_two (a b : string) : a ≠ b → NoDup [a; b].
Proof.
  intros Hne. apply NoDup_cons. split; [|apply NoDup_singleton].
  intros Hin. apply list_elem_of_singleton in Hin. contradiction.
Defined.

(** [add] compiled for [(i4, i4)] in the empty environment, and the
    requests that follow. *)
Lemma compile_function_compiles_once_witness :
  compile_function compile_ok (PlainFunction add) [i4; i4] None ∅ env0
    = (inr spec_add, env_add)
  ∧ compilations add [i4; i4] (trace env_add)
    ≤ S (compilations add [i4; i4] (trace env0))
  ∧ get_function (specializations env_add) add [i4; i4] None = Some spec_add
  ∧ (serve compile_ok requests env_add).1 !! 2 = Some (inr spec_add)
  ∧ compilations add [i4; i4] (trace (serve compile_ok requests env_add).2)
    = compilations add [i4; i4] (trace env_add).
Proof.
  assert (compile_function compile_ok (PlainFunction add) [i4; i4] None ∅
                           env0 = (inr spec_add, env_add)) as Hrun
    by (vm_compute; reflexivity).
  destruct (compile_function_compiles_once compile_ok compile_ok_faithful
              (PlainFunction add) [i4; i4] env0) as [Hfirst _].
  destruct (Hfirst None ∅ spec_add env_add Hrun) as (Hhit & Hone & _).
  split; [exact Hrun|]. split; [exact Hone|]. split; [exact Hhit|].
  destruct (compile_function_compiles_once compile_ok compile_ok_faithful
              (PlainFunction add) [i4; i4] env_add) as [_ Hlater].
  destruct (Hlater spec_add Hhit requests) as (_ & Hcount & Houts).
  split; [|exact Hcount].
  apply (Houts 2 (NumbaFunction (NumbaWrapper add), [i4; i4], None, ∅)).
  - reflexivity.
  - split; reflexivity.
Defined.

(** C1 as stated fails when a compilation fails: the failure leaves no
    entry in the cache, and the next request for the same function and
    argument types invokes the pipeline again, so that [neg] requested
    twice for [f8] makes two pipeline runs for that pair.  It also fails
    with a pipeline that answers for other argument types than it was
    given: its result is cached under those, and the second request for
    [neg] and [i4] compiles again. *)
Lemma pipeline_invoked_twice_for_one_pair :
  (serve compile_fail (neg_twice f8) env0).1
    = [inl (Raised "CompilationError"); inl (Raised "CompilationError")]
  ∧ trace (serve compile_fail (neg_twice f8) env0).2
    = [EvCompile2 2 [f8]; EvCompile2 2 [f8]]
  ∧ compilations neg [f8] (trace (serve compile_fail (neg_twice f8) env0).2)
    = 2
  ∧ (serve compile_widening (neg_twice i4) env0).1
    = [inr (function_type None [f8], 102, 302);
       inr (function_type None [f8], 102, 302)]
  ∧ compilations neg [i4]
      (trace (serve compile_widening (neg_twice i4) env0).2)
    = 2.
Proof. repeat split; vm_compute; reflexivity. Qed.

Lemma compile_failure_leaves_cache_unchanged_witness :
  get_function (specializations env_add) neg [f8] None = None
  ∧ ∃ env',
      compile_function compile_fail (PlainFunction neg) [f8] None ∅ env_add
        = (inl (Raised "CompilationError"), env')
      ∧ specializations env' = specializations env_add
      ∧ registered env' = registered env_add.
Proof.
  assert (get_function (specializations env_add) neg [f8] None = None)
    as Hmiss by (vm_compute; reflexivity).
  split; [exact Hmiss|].
  destruct (compile_failure_leaves_cache_unchanged compile_fail
              (PlainFunction neg) [f8] None ∅ env_add) as [Hraise _].
  apply (Hraise (Raised "CompilationError") Hmiss);
    vm_compute; reflexivity.
Defined.





Lemma locals_override_resolved_types_witness :
  ∃ resolved env',
    resolve_argtypes from_python_num resolve_identity (NumbaWrapper add)
      (Some template_f8) [PInt 1; PInt 2] ∅ locals_b env0
    = (inr resolved, env')
    ∧ args resolved !! 0 = Some f8
    ∧ args resolved !! 1 = Some i4.
Proof.
  destruct (locals_override_resolved_types from_python_num resolve_identity
              (NumbaWrapper add) template_f8 [PInt 1; PInt 2] locals_b env0
              [i4; i4] template_f8)
    as (resolved & env' & Hrun & _ & _ & Hargs).
  - reflexivity.
  - repeat constructor.
  - reflexivity.
  - vm_compute. lia.
  - exists resolved, env'. split; [exact Hrun|]. split.
    + exact (Hargs 0 "a" f8 eq_refl eq_refl).
    + exact (Hargs 1 "b" f8 eq_refl eq_refl).
Defined.

(** The methods of [Base] as [Child] inherits them. *)
Lemma inherited_methods_take_derived_self_witness :
  ∃ ext',
    inherit_attributes (new_extension_type Child) (class_vars Child)
      = inr ext'
    ∧ (∃ sig', methods ext' !! 0 = Some ("get", sig')
               ∧ args sig' = [TExtension "Child"])
    ∧ (∃ sig', methods ext' !! 1 = Some ("make", sig')
               ∧ args sig' = [i4]).
Proof.
  destruct (inherited_methods_take_derived_self Child base_struct base_vtab
              (class_vars Child)) as (ext' & Hrun & _ & Hmethods).
  - reflexivity.
  - reflexivity.
  - vm_compute. reflexivity.
  - vm_compute. apply NoDup_cons. split.
    + intros Hin. apply elem_of_cons in Hin as [Hin|Hin]; [discriminate|].
      by apply elem_of_nil in Hin.
    + apply NoDup_singleton.
  - repeat constructor; simpl; try (by eexists); discriminate.
  - exists ext'. split; [exact Hrun|]. split.
    + destruct (Hmethods 0 "get" _ eq_refl) as (sig' & Hsig & _ & Hself & _).
      exists sig'. split; [exact Hsig|].
      destruct (Hself eq_refl) as (self & rest & Hargs & ->).
      simpl in Hargs. by injection Hargs as _ <-.
    + destruct (Hmethods 1 "make" _ eq_refl) as (sig' & Hsig & _ & _ & Hst).
      exists sig'. split; [exact Hsig|]. exact (Hst eq_refl).
Defined.

Lemma inherited_methods_reuse_parent_pointers_witness :
  (∃ cd' lm' mp' env',
     _compile_methods compile_ok child_dict child_ext [] [] ∅ env0
       = (inr (cd', lm', mp'), env')
     ∧ mp' !! 0 = Some ("get", 11)
     ∧ mp' !! 1 = Some ("make", 12)
     ∧ ∃ evs, trace env' = evs ∧ length evs = 1)
  ∧ _compile_methods compile_ok child_dict orphan_ext [] [] ∅ env0
    = (inl (AssertionError PNone), env0).
Proof.
  split.
  - destruct (_compile_methods compile_ok child_dict child_ext [] [] ∅ env0)
      as [[e|[[cd' lm'] mp']] env'] eqn:Hrun; [vm_compute in Hrun; discriminate|].
    destruct (inherited_methods_reuse_parent_pointers compile_ok child_dict
                child_ext [] [] ∅ env0) as [Hok _].
    destruct (Hok cd' lm' mp' env' Hrun)
      as (Hinh & evs & (_ & _ & Htrace) & _ & Hlen).
    exists cd', lm', mp', env'. split; [reflexivity|].
    assert (∀ name, name = "get" ∨ name = "make" →
                    name ∉ child_dict.*1) as Hnot.
    { intros name Hname Hin. vm_compute in Hin.
      apply elem_of_cons in Hin as [->|Hin]; [by destruct Hname|].
      apply elem_of_cons in Hin as [->|Hin]; [by destruct Hname|].
      by apply elem_of_nil in Hin. }
    split; [|split].
    + destruct (Hinh 0 "get" _ eq_refl (Hnot _ (or_introl eq_refl)))
        as (ps & p & Hps & Hp & Hmp).
      injection Hps as <-. injection Hp as <-. exact Hmp.
    + destruct (Hinh 1 "make" _ eq_refl (Hnot _ (or_intror eq_refl)))
        as (ps & p & Hps & Hp & Hmp).
      injection Hps as <-. injection Hp as <-. exact Hmp.
    + exists evs. split; [exact Htrace|]. rewrite Hlen. reflexivity.
  - destruct (inherited_methods_reuse_parent_pointers compile_ok child_dict
                orphan_ext [] [] ∅ env0) as [_ Hfail].
    destruct (Hfail eq_refl) as [_ Hreach].
    apply (Hreach [] "get" (function_type (Some f8) [TExtension "Child"])
                  (tail (methods orphan_ext)) (child_dict, [], []) env0).
    + reflexivity.
    + intros Hin. vm_compute in Hin.
      apply elem_of_cons in Hin as [Hin|Hin]; [discriminate|].
      apply elem_of_cons in Hin as [Hin|Hin]; [discriminate|].
      by apply elem_of_nil in Hin.
    + reflexivity.
Defined.

(** The three entry points with the bytecode backend selected. *)
Lemma bytecode_backend_fails_at_dispatch_witness :
  (∃ d env1,
     export parse_ok "f8(f8)" {["backend" := PStr "bytecode"]} env0
       = (inr (Decorator d), env1)
     ∧ apply_decorator compile_ok parse_ok create_ok export_ok d
         (DFunction add) env1
       = (inl bytecode_export_removed, env1))
  ∧ autojit compile_ok parse_ok create_ok export_ok (TplOther PNone)
      "bytecode" "cpu" false PNone ∅ env0
    = (inr (Decorator NotImplementedStub), env0)
  ∧ ∃ evs,
      jit parse_ok create_ok (RStr "f8(f8)") None "bytecode" "cpu" false ∅
          env0
      = (inl bytecode_removed, Environment ∅ [] evs)
      ∧ Forall (λ ev, compiles ev = false) evs.
Proof.
  destruct (bytecode_backend_fails_at_dispatch compile_ok parse_ok create_ok
              export_ok) as (Hexport & Hautojit & Hjit).
  split; [|split].
  - destruct (Hexport "f8(f8)" {["backend" := PStr "bytecode"]}
                (FunctionType (Some f8) [f8] (Some "f8(f8)") false false)
                add env0 eq_refl) as (d & env1 & Hd & _ & Happly).
    + vm_compute. reflexivity.
    + by exists d, env1.
  - exact (proj1 (Hautojit (TplOther PNone) "cpu" false PNone ∅
                    (DFunction add) env0 env0 eq_refl)).
  - destruct (Hjit (RStr "f8(f8)") None false ∅ env0) as (evs & Hrun & Hevs).
    + intros _. by eexists.
    + by exists evs.
Defined.

(** C8 as stated fails on two calls that select the bytecode backend:
    [autojit] called on a function wraps it for the ast backend and raises
    nothing, and [jit] called on a class builds the extension class. *)
Lemma bytecode_backend_not_consulted :
  autojit compile_ok parse_ok create_ok export_ok (TplCallable add)
    "bytecode" "cpu" false PNone ∅ env0
  = (inr (SpecializingWrapper (NumbaWrapper add) "ast"
            (AutojitDecorator (TplOther PNone) "cpu" false
                              {["locals" := PNone]})),
     Environment ∅ [1] [])
  ∧ jit parse_ok create_ok (RClass "Foo") None "bytecode" "cpu" false ∅ env0
  = (inr (ExtensionClass 7), Environment ∅ [] [EvCreateExtension "Foo"]).
Proof. split; vm_compute; reflexivity. Qed.

(** C4 fails on [class C(A, B1, B2)]: the layout of [C] is that of [A], the
    base [B2] (fields [x, z]) is not a prefix of it, and the error names
    [B2] and [B1], the base accepted just before.  [B1] (field [x]) is a
    prefix of [B2] and of [A]: the base that [B2] conflicts with is [A]. *)
Theorem incompatible_base_named_with_previous_base :
  verify_base_class_compatibility C (struct [("x", f8); ("y", i4)])
                                  no_methods
  = inl (NumbaError "Multiple incompatible base classes found: %s and %s"
                    "B2" "B1")
  ∧ is_prefix_of [("x", f8)] [("x", f8); ("z", i4)] = true
  ∧ is_prefix_of [("x", f8)] [("x", f8); ("y", i4)] = true
  ∧ is_prefix_of [("x", f8); ("z", i4)] [("x", f8); ("y", i4)] = false
  ∧ is_prefix_of [("x", f8); ("y", i4)] [("x", f8); ("z", i4)] = false.
Proof. repeat split; vm_compute; reflexivity. Qed.

(** * Further properties of [compile_function] *)

Section CacheFacts.

Variable compile2 :
  py_function → option numba_type → list numba_type → gmap string pyobj →
  exception + func_env.

Hypothesis compile2_faithful : ∀ f restype argtypes kwds fe,
  compile2 f restype argtypes kwds = inr fe →
  func_id (fe_func fe) = func_id f ∧ args (func_signature fe) = argtypes.

Lemma kw_get_with_compile_only f kwds :
  kw_get (with_compile_only f kwds) "llvm_module" = kw_get kwds "llvm_module".
Proof.
  unfold kw_get, with_compile_only. by rewrite lookup_insert_ne.
Qed.

(** A request for another key neither changes what is cached under a key
    nor counts as a compilation for it. *)
Lemma compile_function_other_key f a g b restype kwds env out env1 :
  (func_id (py_func_of g), b) ≠ (func_id f, a) →
  Decorators.compile_function compile2 g b restype kwds env = (out, env1) →
  get_function (specializations env1) f a None
    = get_function (specializations env) f a None
  ∧ compilations f a (trace env1) = compilations f a (trace env).
Proof.
  intros Hne.
  destruct (get_function (specializations env) (py_func_of g) b None)
    as [hit|] eqn:Hget.
  { rewrite (compile_function_hit _ _ _ _ _ _ _ Hget). by intros [= <- <-]. }
  rewrite (compile_function_miss _ _ _ _ _ _ Hget). cbv zeta.
  destruct (is_None _); [|by intros [= <- <-]].
  destruct (compile2 _ _ _ _) as [e|fe] eqn:Hc; intros [= <- <-];
    unfold with_cache; simpl; rewrite compilations_app,
    (compilations_other _ _ _ _ Hne), Nat.add_0_r.
  - done.
  - apply compile2_faithful in Hc as [Hf Ha]. split; [|done].
    unfold get_function. rewrite lookup_insert_ne; [done|].
    by rewrite Hf, Ha.
Qed.

(** A cached entry and its count survive any sequence of requests. *)
Lemma serve_keeps f a spec reqs : ∀ env,
  get_function (specializations env) f a None = Some spec →
  get_function (specializations (Decorators.serve compile2 reqs env).2)
               f a None = Some spec
  ∧ compilations f a (trace (Decorators.serve compile2 reqs env).2)
    = compilations f a (trace env).
Proof.
  induction reqs as [|[[[g b] restype] kwds] reqs IH]; intros env Hhit;
    [done|].
  simpl.
  destruct (Decorators.compile_function compile2 g b restype kwds env)
    as [out env1] eqn:Hstep.
  destruct (compile_function_keeps compile2 compile2_faithful
              _ _ _ _ _ _ _ _ _ _ Hhit Hstep) as (Hhit1 & Hcount1 & _).
  destruct (IH env1 Hhit1) as [IHhit IHcount].
  destruct (Decorators.serve compile2 reqs env1) as [outs env2].
  simpl in *. split; [done|congruence].
Qed.

(** X1: when the pipeline does not fail for a function and argument types,
    it is invoked for them at most once over any sequence of requests,
    whatever else is requested in between. *)
Theorem pipeline_invoked_at_most_once f a :
  (∀ g restype kwds,
     func_id g = func_id f → ∃ fe, compile2 g restype a kwds = inr fe) →
  ∀ reqs env,
    compilations f a (trace (Decorators.serve compile2 reqs env).2)
    ≤ S (compilations f a (trace env)).
Proof.
  intros Htotal reqs.
  induction reqs as [|[[[g b] restype] kwds] reqs IH]; intros env;
    [simpl; lia|].
  simpl.
  destruct (Decorators.compile_function compile2 g b restype kwds env)
    as [out env1] eqn:Hstep.
  pose proof (IH env1) as IH1.
  destruct (decide ((func_id (py_func_of g), b) = (func_id f, a)))
    as [Heq|Hne].
  - injection Heq as Hid Hb. subst b.
    destruct (get_function (specializations env) (py_func_of g) a None)
      as [hit|] eqn:Hget.
    { rewrite (compile_function_hit _ _ _ _ _ _ _ Hget) in Hstep.
      injection Hstep as <- <-.
      destruct (Decorators.serve compile2 reqs env) as [outs env2].
      simpl in *. lia. }
    rewrite (compile_function_miss _ _ _ _ _ _ Hget) in Hstep.
    cbv zeta in Hstep. destruct (is_None _).
    2:{ injection Hstep as <- <-.
        destruct (Decorators.serve compile2 reqs env) as [outs env2].
        simpl in *. lia. }
    destruct (Htotal (py_func_of g) restype
                (with_compile_only (py_func_of g) kwds) Hid) as [fe Hfe].
    rewrite Hfe in Hstep. injection Hstep as <- <-.
    apply compile2_faithful in Hfe as [Hf Ha].
    match goal with |- context [Decorators.serve compile2 reqs ?e] =>
      destruct (serve_keeps f a
                  (func_signature fe, lfunc fe, numba_wrapper_func fe)
                  reqs e) as [_ Hcount]
    end.
    { unfold get_function, with_cache. simpl. rewrite Hf, Ha, Hid.
      apply lookup_insert_eq. }
    match goal with |- context [Decorators.serve compile2 reqs ?e] =>
      destruct (Decorators.serve compile2 reqs e) as [outs env2]
    end.
    simpl in *. rewrite Hcount. unfold with_cache. simpl.
    rewrite compilations_app.
    pose proof (compilations_single_le f a
                  (EvCompile2 (func_id (py_func_of g)) a)). lia.
  - destruct (compile_function_other_key f a _ _ _ _ _ _ _ Hne Hstep)
      as [_ Hcount].
    destruct (Decorators.serve compile2 reqs env1) as [outs env2].
    simpl in *. lia.
Qed.

(** X3: for a pipeline that compiles the function it is given for the
    argument types it is given ([compile2_faithful]), the entries of the
    cache are independent: a sequence of requests none of which is for a
    given function and argument types leaves what is cached for them, if
    anything, and their compilation count as they were. *)
Theorem other_requests_leave_entry_alone f a reqs :
  Forall (λ r, ¬ same_request f a r) reqs →
  ∀ env,
    get_function (specializations (Decorators.serve compile2 reqs env).2)
                 f a None
      = get_function (specializations env) f a None
    ∧ compilations f a (trace (Decorators.serve compile2 reqs env).2)
      = compilations f a (trace env).
Proof.
  induction 1 as [|[[[g b] restype] kwds] reqs Hr Hall IH]; intros env;
    [done|].
  simpl.
  destruct (Decorators.compile_function compile2 g b restype kwds env)
    as [out env1] eqn:Hstep.
  assert ((func_id (py_func_of g), b) ≠ (func_id f, a)) as Hne.
  { intros [= Hid Hb]. apply Hr. by split. }
  destruct (compile_function_other_key f a _ _ _ _ _ _ _ Hne Hstep)
    as [Hget Hcount].
  destruct (IH env1) as [IHget IHcount].
  destruct (Decorators.serve compile2 reqs env1) as [outs env2].
  simpl in *. split; congruence.
Qed.

End CacheFacts.

(** X2: the keyword [llvm_module] is refused exactly when a compilation
    would be needed: on a miss a value other than [None] raises the
    assertion with that value, the pipeline is not invoked and the
    environment is unchanged; on a hit the keyword is not looked at. *)
Theorem llvm_module_refused_on_miss
    compile2 func argtypes restype kwds env :
  is_None (kw_get kwds "llvm_module") = false →
  match get_function (specializations env) (py_func_of func) argtypes None
  with
  | None =>
      Decorators.compile_function compile2 func argtypes restype kwds env
        = (inl (AssertionError (kw_get kwds "llvm_module")), env)
  | Some spec =>
      Decorators.compile_function compile2 func argtypes restype kwds env
        = (inr spec, env)
  end.
Proof.
  intros Hmod.
  destruct (get_function _ _ _ _) as [spec|] eqn:Hget.
  - by apply compile_function_hit.
  - rewrite (compile_function_miss _ _ _ _ _ _ Hget). cbv zeta.
    unfold kw_get, with_compile_only in *.
    rewrite lookup_insert_ne by done. by rewrite Hmod.
Qed.

(** * Further properties of [resolve_argtypes] *)

Section ResolveArgtypesEdges.

Variable from_python : pyobj → exception + numba_type.
Variable resolve_templates :
  option (gmap string numba_type) → signature → list string →
  list numba_type → exception + signature.

(** Mapping the arguments stops at the first one the type mapper refuses:
    the arguments before it and the refused one were asked about, the later
    ones were not. *)
Lemma for_each_from_python_fails pre pre_types x e post env :
  Forall2 (λ x t, from_python x = inr t) pre pre_types →
  from_python x = inl e →
  for_each (λ x, external (EvFromPython x) (from_python x))
           (pre ++ x :: post) env =
    (inl e,
     Environment (specializations env) (registered env)
                 (trace env ++ map EvFromPython (pre ++ [x]))).
Proof.
  intros Hpre Hx. revert env.
  induction Hpre as [|y t pre pre_types Hy Hpre IH]; intros env.
  - simpl. unfold mbind, M_bind, external, emit, mbind, M_bind.
    by rewrite Hx.
  - simpl. unfold mbind at 1, M_bind at 1, external, emit.
    unfold mbind at 1, M_bind at 1. rewrite Hy.
    unfold mret at 1, M_ret at 1. unfold mbind at 1, M_bind at 1.
    rewrite IH. simpl. by rewrite <- app_assoc.
Qed.

(** The override loop raises [IndexError] when a name that [locals] has
    stands at an index past the end of the list. *)
Lemma override_argtypes_index_error d argnames : ∀ i argtypes env k argname,
  argnames !! k = Some argname →
  is_Some (d !! argname) →
  length argtypes ≤ i + k →
  override_argtypes d i argnames argtypes env = (inl IndexError, env).
Proof.
  induction argnames as [|n argnames IH];
    intros i argtypes env k argname Hk Hin Hlen; [done|].
  simpl. destruct k as [|k]; simpl in Hk.
  - injection Hk as ->. destruct Hin as [t ->].
    destruct (decide (i < length argtypes)); [lia|done].
  - destruct (d !! n) as [t|].
    + destruct (decide (i < length argtypes)); [|done].
      apply (IH (S i) _ env k argname Hk Hin).
      rewrite length_insert. lia.
    + apply (IH (S i) _ env k argname Hk Hin). lia.
Qed.

(** X4: without a template signature, a call with the right number of
    arguments, all accepted by the type mapper, always resolves: the return
    type is left open ([None]), there is one argument type per argument,
    the type mapper was asked once per argument in order, and each named
    position holds the type [locals] gives its name, or else the mapped
    type. *)
Theorem resolve_without_template
    numba_func args translator_kwargs env argtypes0 :
  length args = co_argcount (py_func numba_func) →
  Forall2 (λ x t, from_python x = inr t) args argtypes0 →
  ∃ resolved,
    Decorators.resolve_argtypes from_python resolve_templates numba_func
      None args ∅ translator_kwargs env =
      (inr resolved,
       Environment (specializations env) (registered env)
                   (trace env ++ map EvFromPython args))
    ∧ return_type resolved = None
    ∧ length (sig_args resolved) = length args
    ∧ ∀ i argname mapped,
        argnames (py_func numba_func) !! i = Some argname →
        argtypes0 !! i = Some mapped →
        sig_args resolved !! i =
          Some (match get_locals translator_kwargs with
                | Some d => default mapped (d !! argname)
                | None => mapped
                end).
Proof.
  intros Harity Hmap. unfold Decorators.resolve_argtypes.
  unfold mbind at 1, M_bind at 1, py_assert.
  rewrite bool_decide_eq_true_2 by done. unfold mret at 1, M_ret at 1.
  destruct (decide _) as [Hne|_]; [by destruct Hne|].
  unfold mbind at 1, M_bind at 1.
  rewrite (for_each_from_python _ _ _ _ Hmap).
  unfold mbind at 1, M_bind at 1, mret at 1, M_ret at 1.
  unfold mbind at 1, M_bind at 1.
  pose proof (Forall2_length _ _ _ Hmap) as Hlen.
  destruct (get_locals translator_kwargs) as [d|].
  - match goal with |- context [override_argtypes d 0 ?ns ?l ?e] =>
      destruct (override_argtypes_lookup d ns 0 l e)
        as (l' & Hrun & Hlen' & _ & Hat);
        [unfold co_argcount in Harity; simpl; lia|rewrite Hrun]
    end.
    eexists. split; [done|]. simpl. split; [done|]. split; [lia|].
    intros i argname mapped Hname Hmapped.
    by apply (Hat i argname mapped).
  - eexists. split; [done|]. simpl. repeat split; [lia|done].
Qed.

(** X5: the first argument that the type mapper refuses ends the
    resolution with the type mapper's error: the later arguments are not
    mapped and the template resolver is not asked. *)
Theorem unresolvable_argument_stops_resolution
    numba_func template_signature pre pre_types x e post
    translator_kwargs env :
  length (pre ++ x :: post) = co_argcount (py_func numba_func) →
  Forall2 (λ x t, from_python x = inr t) pre pre_types →
  from_python x = inl e →
  Decorators.resolve_argtypes from_python resolve_templates numba_func
    template_signature (pre ++ x :: post) ∅ translator_kwargs env =
    (inl e,
     Environment (specializations env) (registered env)
                 (trace env ++ map EvFromPython (pre ++ [x]))).
Proof.
  intros Harity Hpre Hx. unfold Decorators.resolve_argtypes.
  unfold mbind at 1, M_bind at 1, py_assert.
  rewrite bool_decide_eq_true_2 by done. unfold mret at 1, M_ret at 1.
  destruct (decide _) as [Hne|_]; [by destruct Hne|].
  unfold mbind at 1, M_bind at 1.
  by rewrite (for_each_from_python_fails _ _ _ _ _ _ Hpre Hx).
Qed.

(** X6: the resolution raises [IndexError] when the resolved template has
    fewer argument types than the function has parameters and [locals]
    names a parameter past them. *)
Theorem short_template_index_error
    numba_func template args translator_kwargs env argtypes0 sig d i argname :
  length args = co_argcount (py_func numba_func) →
  Forall2 (λ x t, from_python x = inr t) args argtypes0 →
  get_locals translator_kwargs = Some d →
  resolve_templates (Some d) template (argnames (py_func numba_func))
                    argtypes0 = inr sig →
  argnames (py_func numba_func) !! i = Some argname →
  is_Some (d !! argname) →
  length (sig_args sig) ≤ i →
  ∃ env',
    Decorators.resolve_argtypes from_python resolve_templates numba_func
      (Some template) args ∅ translator_kwargs env = (inl IndexError, env').
Proof.
  intros Harity Hmap Hlocals Htpl Hname Hin Hshort.
  unfold Decorators.resolve_argtypes.
  unfold mbind at 1, M_bind at 1, py_assert.
  rewrite bool_decide_eq_true_2 by done. unfold mret at 1, M_ret at 1.
  destruct (decide _) as [Hne|_]; [by destruct Hne|].
  unfold mbind at 1, M_bind at 1.
  rewrite (for_each_from_python _ _ _ _ Hmap).
  unfold mbind at 1, M_bind at 1, mbind at 1, M_bind at 1.
  unfold external, emit, mbind at 1, M_bind at 1.
  rewrite Hlocals, Htpl.
  unfold mret at 1, M_ret at 1, mret at 1, M_ret at 1.
  unfold mbind at 1, M_bind at 1.
  rewrite (override_argtypes_index_error d _ 0 _ _ i argname Hname Hin)
    by (simpl; lia).
  by eexists.
Qed.

End ResolveArgtypesEdges.

(** * Further properties of the entry points *)

Section EntryPointEdges.

Variable compile2 :
  py_function → option numba_type → list numba_type → gmap string pyobj →
  exception + func_env.
Variable process_signature : string → pyobj → exception + signature.
Variable create_extension : string → gmap string pyobj → exception + nat.
Variable export_pipeline : py_function → signature → exception + unit.

Abbreviation jit' := (Decorators.jit process_signature create_extension).
Abbreviation autojit' :=
  (Decorators.autojit compile2 process_signature create_extension
                      export_pipeline).
Abbreviation apply' :=
  (Decorators.apply_decorator compile2 process_signature create_extension
                              export_pipeline).

(** X7: the three ways to give [jit] a signature agree.  A signature string
    that parses gives what the parsed function type gives (with [func_name]
    set when the string names the function), after the one call to the
    parser; and a function type gives what its return type and argument
    types give as [restype] and [argtypes]. *)
Theorem jit_signature_forms_agree backend target nopython kws env :
  (∀ s sig,
     process_signature s (kw_get kws "name") = inr sig →
     jit' (RStr s) None backend target nopython kws env =
       jit' (RFunctionType sig) None backend target nopython
            (match sig_name sig with
             | Some name => <["func_name" := PStr name]> kws
             | None => kws
             end)
            (Environment (specializations env) (registered env)
                         (trace env ++ [EvProcessSignature s]))) ∧
  (∀ ft,
     jit' (RFunctionType ft) None backend target nopython kws env =
       jit' (match return_type ft with Some t => RType t | None => RNone end)
            (Some (args ft)) backend target nopython kws env).
Proof.
  split.
  - intros s sig Hsig.
    unfold Decorators.jit, mbind, M_bind, external, emit, mbind, M_bind.
    unfold kw_get in *. rewrite !lookup_insert_ne by done. rewrite Hsig.
    unfold mret, M_ret.
    destruct (sig_name sig) as [name|]; [|done].
    rewrite (insert_insert_ne _ "func_name" "backend") by done.
    rewrite (insert_insert_ne kws "func_name" "nopython") by done.
    done.
  - intros ft. unfold Decorators.jit.
    by destruct (return_type ft).
Qed.

(** X8: [jit] knows the target cpu and the backends ast and bytecode only:
    a call that reaches the table of targets with any other target or
    backend raises [KeyError], and nothing was compiled or built. *)
Theorem jit_unknown_target restype argtypes backend target nopython kws env :
  reaches_jit_targets process_signature restype argtypes kws →
  target ≠ "cpu" ∨ (backend ≠ "bytecode" ∧ backend ≠ "ast") →
  ∃ evs,
    jit' restype argtypes backend target nopython kws env =
      (inl KeyError,
       Environment (specializations env) (registered env)
                   (trace env ++ evs))
    ∧ Forall (λ ev, compiles ev = false) evs.
Proof.
  intros Hreach Hunknown.
  assert (jit_targets target backend = None) as Htable.
  { unfold jit_targets. destruct Hunknown as [Ht|[Hb1 Hb2]].
    - by destruct (decide (target = "cpu")).
    - destruct (decide (target = "cpu")); [|done].
      destruct (decide (backend = "bytecode")); [done|].
      by destruct (decide (backend = "ast")). }
  assert (∀ env, Environment (specializations env) (registered env)
                   (trace env ++ []) = env) as Hnil.
  { intros [c r t]; simpl. by rewrite app_nil_r. }
  destruct restype as [cls|ft|s|t|]; simpl in Hreach; [done|..].
  - subst argtypes. exists []. rewrite Hnil. split; [|done].
    unfold Decorators.jit, mbind, M_bind, mret, M_ret. by rewrite Htable.
  - destruct argtypes as [ts|].
    + exists []. rewrite Hnil. split; [|done].
      unfold Decorators.jit, mbind, M_bind, mret, M_ret. by rewrite Htable.
    + destruct (Hreach eq_refl) as [sig Hsig].
      exists [EvProcessSignature s]. split; [|by repeat constructor].
      unfold Decorators.jit, mbind, M_bind, external, emit, mbind, M_bind.
      unfold kw_get in *.
      rewrite !lookup_insert_ne by done. rewrite Hsig.
      unfold mret, M_ret. by rewrite Htable.
  - exists []. rewrite Hnil. split; [|done].
    unfold Decorators.jit, mbind, M_bind, mret, M_ret. by rewrite Htable.
  - exists []. rewrite Hnil. split; [|done].
    unfold Decorators.jit, mbind, M_bind, mret, M_ret. by rewrite Htable.
Qed.

(** X9: [autojit] makes no call to the parser, the pipeline or the class
    builder when it decorates, whatever its arguments: the trace of the
    calls made is as before (compilation is left to the first call of the
    wrapper). *)
Theorem autojit_decorates_lazily
    template_signature backend target nopython locals kwargs env out env' :
  Decorators.autojit compile2 process_signature create_extension
    export_pipeline template_signature backend target nopython locals kwargs
    env
    = (out, env') →
  trace env' = trace env.
Proof.
  unfold Decorators.autojit, autojit_backend.
  destruct template_signature as [tpl|f|v].
  - destruct (decide (backend = "bytecode")); by intros [= <- <-].
  - simpl. unfold mbind, M_bind, mret, M_ret. simpl.
    unfold _autojit_decorator, mbind, M_bind, register.
    destruct (autojit_wrappers target "ast") as [[]|];
      by intros [= <- <-].
  - destruct (truthy v); [by intros [= <- <-]|].
    destruct (decide (backend = "bytecode")); by intros [= <- <-].
Qed.

(** X10: [autojit] only asks whether the backend is bytecode: any other
    backend, known or not, gives what ast gives; and called on a function
    directly it gives what ast gives for every backend. *)
Theorem autojit_backend_is_ast_unless_bytecode
    template_signature backend target nopython locals kwargs env :
  (backend ≠ "bytecode" ∨ ∃ f, template_signature = TplCallable f) →
  Decorators.autojit compile2 process_signature create_extension
    export_pipeline template_signature backend target nopython locals kwargs
    env
  = Decorators.autojit compile2 process_signature create_extension
    export_pipeline template_signature "ast" target nopython locals kwargs env.
Proof.
  intros [Hb|[f ->]]; [|done].
  unfold Decorators.autojit, autojit_backend.
  destruct template_signature as [tpl|f|v]; [|done|].
  - by destruct (decide (backend = "bytecode")).
  - destruct (truthy v); [done|].
    by destruct (decide (backend = "bytecode")).
Qed.

(** X11: the decorator of [jit] needs argument types unless the function
    takes no argument: applied to a function with parameters and without
    [argtypes] it fails its assertion before the function is registered or
    anything is compiled; applied to a function without parameters it
    compiles for the empty list of argument types. *)
Theorem jit_decorator_needs_argtypes
    restype nopython env_name kwargs func env :
  (co_argcount func ≠ 0 →
   apply' (JitDecorator restype PNone nopython env_name kwargs)
          (DFunction func) env = (inl (AssertionError PNone), env)) ∧
  (co_argcount func = 0 →
   apply' (JitDecorator restype PNone nopython env_name kwargs)
          (DFunction func) env =
   apply' (JitDecorator restype (PTypes []) nopython env_name kwargs)
          (DFunction func) env).
Proof.
  split; intros Hcount; simpl; unfold _jit_decorator.
  - by destruct (decide (co_argcount func = 0)).
  - by destruct (decide (co_argcount func = 0)).
Qed.

End EntryPointEdges.

Section DecoratorFacts.

Variable compile2 :
  py_function → option numba_type → list numba_type → gmap string pyobj →
  exception + func_env.
Variable process_signature : string → pyobj → exception + signature.
Variable create_extension : string → gmap string pyobj → exception + nat.
Variable export_pipeline : py_function → signature → exception + unit.

Hypothesis compile2_faithful : ∀ f restype argtypes kwds fe,
  compile2 f restype argtypes kwds = inr fe →
  func_id (fe_func fe) = func_id f ∧ args (func_signature fe) = argtypes.

Abbreviation apply'' :=
  (Decorators.apply_decorator compile2 process_signature create_extension
                              export_pipeline).

(** X12: for a pipeline that compiles the function it is given for the
    argument types it is given, and with [register] leaving the cache as it
    is (as it is modelled above), decorating a function a second time with
    the same [jit] decorator compiles nothing: the first application built
    its wrapper from the function and a specialization, the second builds
    its wrapper from the same function and the same specialization, found
    in the cache, and the trace and the cache are as the first left them. *)
Theorem jit_decorator_twice_compiles_once
    restype argtypes nopython env_name kwargs f env r env1 :
  Decorators.apply_decorator compile2 process_signature create_extension
    export_pipeline
    (JitDecorator restype argtypes nopython env_name kwargs)
    (DFunction f) env = (inr r, env1) →
  ∃ spec env2,
    r = CompiledWrapper f spec
    ∧ Decorators.apply_decorator compile2 process_signature create_extension
        export_pipeline
        (JitDecorator restype argtypes nopython env_name kwargs)
        (DFunction f) env1 = (inr (CompiledWrapper f spec), env2)
    ∧ trace env2 = trace env1
    ∧ specializations env2 = specializations env1.
Proof.
  simpl. unfold _jit_decorator.
  set (argtys := if decide (co_argcount f = 0)
                 then if is_None argtypes then PTypes [] else argtypes
                 else argtypes).
  unfold mbind, M_bind, py_assert, register.
  destruct (negb (is_None argtys)); [|done].
  unfold mret at 1, M_ret at 1. unfold mret at 3, M_ret at 3.
  destruct (is_None (kw_get kwargs "llvm_module")); [|done].
  unfold mret at 1, M_ret at 1. unfold mret at 2, M_ret at 2.
  destruct (is_None (kw_get kwargs "llvm_ee")); [|done].
  unfold mret at 1, M_ret at 1. unfold mret at 2, M_ret at 2.
  destruct (Decorators.compile_function compile2 (PlainFunction f) _ _ _ _)
    as [[e|spec] env1'] eqn:Hfirst; [done|].
  unfold mret, M_ret. intros [= <- <-].
  apply (compile_function_registers compile2 compile2_faithful)
    in Hfirst as [Hhit _].
  match goal with |- context [Decorators.compile_function compile2 ?g ?a ?rt
                                ?k ?e] =>
    rewrite (compile_function_hit compile2 g a rt k e spec)
  end; [|done].
  by eexists _, _.
Qed.

(** X13: the decorator of [exportmany] exports the signatures one after the
    other.  With any backend but bytecode, when every signature parses and
    the pipeline accepts each, the function is returned after one parse
    and one pipeline run per signature, in order.  With the bytecode
    backend, a list whose first signature parses fails on it with
    [NotImplementedError], after that one parse alone; the empty list
    returns the function whatever the backend. *)
Theorem exportmany_exports_in_order signatures kws f env :
  (kws !! "backend" ≠ Some (PStr "bytecode") →
   Forall (λ s, ∃ sig, process_signature s PNone = inr sig
                       ∧ export_pipeline f sig = inr ()) signatures →
   apply'' (ExportMany signatures kws) (DFunction f) env =
     (inr (Undecorated (DFunction f)),
      Environment (specializations env) (registered env)
        (trace env ++
         flat_map (λ s, [EvProcessSignature s; EvExportPipeline (func_id f)])
                  signatures))) ∧
  (kws !! "backend" = Some (PStr "bytecode") →
   match signatures with
   | [] =>
       apply'' (ExportMany signatures kws) (DFunction f) env =
         (inr (Undecorated (DFunction f)), env)
   | s :: _ =>
       ∀ sig, process_signature s PNone = inr sig →
       apply'' (ExportMany signatures kws) (DFunction f) env =
         (inl bytecode_export_removed,
          Environment (specializations env) (registered env)
                      (trace env ++ [EvProcessSignature s]))
   end).
Proof.
  split.
  - intros Hbackend Hall. simpl.
    assert (default (PStr "ast") (kws !! "backend") ≠ PStr "bytecode")
      as Hb.
    { destruct (kws !! "backend") as [b|]; simpl; [congruence|done]. }
    unfold mbind at 1, M_bind at 1.
    assert (∀ env,
      for_each
        (λ signature,
           sig ← external (EvProcessSignature signature)
                          (process_signature signature PNone);
           _iexport export_pipeline sig
                    (default (PStr "ast") (kws !! "backend")) f)
        signatures env =
      (inr (map (λ _, Undecorated (DFunction f)) signatures),
       Environment (specializations env) (registered env)
         (trace env ++
          flat_map (λ s, [EvProcessSignature s;
                          EvExportPipeline (func_id f)]) signatures)))
      as Hloop.
    { clear env. induction Hall as [|s signatures (sig & Hs & Hp) Hall IH];
        intros env.
      - simpl. unfold mret, M_ret. rewrite app_nil_r. by destruct env.
      - simpl. unfold mbind at 1, M_bind at 1, mbind at 1, M_bind at 1.
        unfold external at 1, emit, mbind at 1, M_bind at 1. rewrite Hs.
        unfold mret at 1, M_ret at 1. unfold _iexport at 1.
        destruct (decide _) as [Hbad|_]; [by destruct Hb|].
        unfold mbind at 1, M_bind at 1, external at 1, emit.
        unfold mbind at 1, M_bind at 1. rewrite Hp.
        unfold mret at 1, M_ret at 1, mret at 1, M_ret at 1.
        unfold mbind at 1, M_bind at 1. rewrite IH. simpl.
        unfold mret, M_ret. by rewrite <- !app_assoc. }
    by rewrite Hloop.
  - intros Hbackend. destruct signatures as [|s signatures]; [done|].
    intros sig Hs. simpl. rewrite Hbackend. simpl.
    unfold mbind, M_bind, external, emit, mbind, M_bind. rewrite Hs.
    by unfold mret, M_ret.
Qed.

(** X26: with any backend but bytecode, the decorator that [export] returns
    for a signature that parses runs the pipeline once on the function and
    returns the function itself, not a wrapper; an error of the pipeline is
    raised to the caller. *)
Theorem export_returns_function signature kws sig f env :
  process_signature signature PNone = inr sig →
  kws !! "backend" ≠ Some (PStr "bytecode") →
  ∃ d,
    Decorators.export process_signature signature kws env =
      (inr (Decorator d),
       Environment (specializations env) (registered env)
                   (trace env ++ [EvProcessSignature signature]))
    ∧ Decorators.apply_decorator compile2 process_signature create_extension
        export_pipeline d (DFunction f)
        (Environment (specializations env) (registered env)
                     (trace env ++ [EvProcessSignature signature])) =
      (match export_pipeline f sig with
       | inr _ => inr (Undecorated (DFunction f))
       | inl e => inl e
       end,
       Environment (specializations env) (registered env)
         (trace env ++ [EvProcessSignature signature;
                        EvExportPipeline (func_id f)])).
Proof.
  intros Hsig Hbackend.
  assert (default (PStr "ast") (kws !! "backend") ≠ PStr "bytecode") as Hb.
  { destruct (kws !! "backend") as [b|]; simpl; [congruence|done]. }
  unfold Decorators.export, mbind, M_bind, external, emit, mbind, M_bind.
  rewrite Hsig. unfold mret, M_ret, _internal_export.
  eexists. split; [reflexivity|]. simpl. unfold _iexport.
  destruct (decide _) as [Hbad|_]; [by destruct Hb|].
  unfold mbind, M_bind, external, emit, mbind, M_bind. simpl.
  rewrite <- app_assoc. simpl.
  by destruct (export_pipeline f sig).
Qed.

End DecoratorFacts.

(** * Further properties of the extension class builder *)

Section VerifyFacts.

Lemma head_reverse_app_singleton {A} (l : list A) (c : A) :
  head (reverse l ++ [c]) = Some (default c (last l)).
Proof.
  induction l as [|x l IH] using rev_ind; [done|].
  by rewrite reverse_app, last_snoc.
Qed.

Lemma native_bases_app pre post :
  native_bases (pre ++ post) = native_bases pre ++ native_bases post.
Proof. apply filter_app. Qed.

Lemma verify_bases_compatible todo : ∀ seen struct_ty vtab_ty,
  Forall (compatible_base struct_ty vtab_ty) todo →
  verify_bases seen todo struct_ty vtab_ty = inr ().
Proof.
  induction todo as [|base todo IH]; intros seen struct_ty vtab_ty Hall;
    [done|].
  apply Forall_cons in Hall as [Hbase Hall]. simpl.
  destruct (numba_struct_type base) as [bs|] eqn:Hbs; [|by apply IH].
  destruct (Hbase bs Hbs) as (bv & -> & -> & ->). simpl. by apply IH.
Qed.

(** X14: [verify_base_class_compatibility] accepts a class exactly when
    each of its direct bases is either no native class or has a struct and
    a vtable that are prefixes of the candidate layout; bases that are not
    native are not looked at. *)
Theorem verify_accepts_iff_all_bases_compatible cls struct_ty vtab_ty :
  verify_base_class_compatibility cls struct_ty vtab_ty = inr ()
  ↔ Forall (compatible_base struct_ty vtab_ty) (bases cls).
Proof.
  split.
  - apply verify_bases_accepts.
  - apply verify_bases_compatible.
Qed.

Lemma verify_bases_error todo : ∀ seen struct_ty vtab_ty msg first second,
  verify_bases seen todo struct_ty vtab_ty
    = inl (NumbaError msg first second) →
  ∃ pre base post,
    todo = pre ++ base :: post
    ∧ Forall (compatible_base struct_ty vtab_ty) pre
    ∧ is_numba_class base = true
    ∧ ¬ compatible_base struct_ty vtab_ty base
    ∧ first = class_name base
    ∧ second = from_option class_name ""
                 (head (reverse (native_bases pre) ++ seen)).
Proof.
  induction todo as [|base todo IH];
    intros seen struct_ty vtab_ty msg first second Hrun; [done|].
  simpl in Hrun.
  destruct (numba_struct_type base) as [bs|] eqn:Hbs.
  - destruct (numba_vtab_type base) as [bv|] eqn:Hbv; [|done].
    destruct (negb (is_prefix_of (fields bs) (fields struct_ty))
              || negb (is_prefix_of (vtab_fields bv) (vtab_fields vtab_ty)))
      eqn:Hbad.
    + injection Hrun as <- <- <-.
      exists [], base, todo. split; [done|]. split; [done|].
      split; [unfold is_numba_class; rewrite Hbs; by apply bool_decide_eq_true|].
      split; [|done].
      intros Hc. destruct (Hc bs Hbs) as (bv' & Hbv' & Hp1 & Hp2).
      rewrite Hbv in Hbv'. injection Hbv' as <-.
      by rewrite Hp1, Hp2 in Hbad.
    + apply IH in Hrun
        as (pre & b & post & -> & Hpre & Hnat & Hbadb & -> & ->).
      exists (base :: pre), b, post. split; [done|]. split.
      { constructor; [|done]. intros bs' Hbs'. rewrite Hbs in Hbs'.
        injection Hbs' as <-. exists bv. split; [done|].
        apply orb_false_elim in Hbad as [H1 H2].
        by apply negb_false_iff in H1, H2. }
      split; [done|]. split; [done|]. split; [done|].
      unfold native_bases. rewrite filter_cons.
      assert (is_numba_class base = true) as Hb.
      { unfold is_numba_class. rewrite Hbs. by apply bool_decide_eq_true. }
      destruct (decide _) as [_|Hno]; [|done].
      by rewrite reverse_cons, <- app_assoc.
  - apply IH in Hrun
      as (pre & b & post & -> & Hpre & Hnat & Hbadb & -> & ->).
    exists (base :: pre), b, post. split; [done|]. split.
    { constructor; [|done]. intros bs' Hbs'. congruence. }
    split; [done|]. split; [done|]. split; [done|].
    unfold native_bases. rewrite filter_cons.
    destruct (decide _) as [Hyes|_]; [|done].
    unfold is_numba_class in Hyes. rewrite Hbs in Hyes.
    apply bool_decide_eq_true in Hyes. by destruct Hyes.
Qed.

(** X15: when [verify_base_class_compatibility] reports incompatible
    bases, the first class it names is the first direct base, in the order
    of [__bases__], that is native and not prefix-compatible with the
    candidate layout; the second is the last native base before it, or the
    class under construction itself when there is none. *)
Theorem verify_names_offender_and_predecessor
    cls struct_ty vtab_ty msg first second :
  verify_base_class_compatibility cls struct_ty vtab_ty
    = inl (NumbaError msg first second) →
  ∃ pre base post,
    bases cls = pre ++ base :: post
    ∧ Forall (compatible_base struct_ty vtab_ty) pre
    ∧ is_numba_class base = true
    ∧ ¬ compatible_base struct_ty vtab_ty base
    ∧ first = class_name base
    ∧ second = class_name (default cls (last (native_bases pre))).
Proof.
  intros Hrun. apply verify_bases_error in Hrun
    as (pre & base & post & Hsplit & Hpre & Hnat & Hbad & -> & ->).
  exists pre, base, post. repeat (split; [done|]).
  by rewrite head_reverse_app_singleton.
Qed.

End VerifyFacts.

Section StructFacts.

Variable sort_types :
  list (string * numba_type) → list (string * numba_type).

Abbreviation construct :=
  (JitClass._construct_native_attribute_struct sort_types).

Lemma dict_of_fields_snoc fs name t :
  dict_of_fields (fs ++ [(name, t)]) = <[name := t]> (dict_of_fields fs).
Proof. unfold dict_of_fields. by rewrite reverse_snoc. Qed.

Lemma is_prefix_of_app {A} `{EqDecision A} (l k : list A) :
  is_prefix_of l (l ++ k) = true.
Proof.
  unfold is_prefix_of. apply bool_decide_eq_true.
  by rewrite take_app_length.
Qed.

(** The dictionary that the loop over the symbol table leaves is the
    dictionary of the old and the new fields together. *)
Lemma collect_new_fields_dict st :
  ∀ (pf new_fields : list (string * numba_type))
    (fd : gmap string numba_type),
  fd = dict_of_fields (pf ++ new_fields) →
  let r := foldl (λ '(new_fields, fd) '(name, variable),
                    if decide (fd !! name = None)
                    then (new_fields ++ [(name, var_type variable)],
                          <[name := var_type variable]> fd)
                    else (new_fields, fd))
                 (new_fields, fd) st in
  r.2 = dict_of_fields (pf ++ r.1).
Proof.
  induction st as [|[n v] st IH]; intros pf new_fields fd Hfd; simpl;
    [done|].
  destruct (decide (fd !! n = None)); [|by apply IH].
  apply IH. by rewrite Hfd, app_assoc, dict_of_fields_snoc.
Qed.

(** Every name of the symbol table is in the dictionary after the loop,
    and the loop adds nothing when that is so before. *)
Lemma collect_new_fields_covers st :
  ∀ (new_fields : list (string * numba_type))
    (fd : gmap string numba_type) name,
  (name ∈ st.*1 ∨ is_Some (fd !! name)) →
  is_Some ((foldl (λ '(new_fields, fd) '(name, variable),
                     if decide (fd !! name = None)
                     then (new_fields ++ [(name, var_type variable)],
                           <[name := var_type variable]> fd)
                     else (new_fields, fd))
                  (new_fields, fd) st).2 !! name).
Proof.
  induction st as [|[n v] st IH]; intros new_fields fd name Hin; simpl.
  - destruct Hin as [Hin|Hin]; [by apply elem_of_nil in Hin|done].
  - destruct (decide (fd !! n = None)) as [Hnew|Hold].
    + apply IH. destruct Hin as [Hin|Hin].
      * simpl in Hin. apply elem_of_cons in Hin as [->|Hin]; [|by left].
        right. by rewrite lookup_insert_eq.
      * right. destruct (decide (n = name)) as [->|Hne].
        -- by rewrite lookup_insert_eq.
        -- by rewrite lookup_insert_ne.
    + apply IH. destruct Hin as [Hin|Hin]; [|by right].
      simpl in Hin. apply elem_of_cons in Hin as [->|Hin]; [|by left].
      right. by apply not_eq_None_Some.
Qed.

Lemma collect_new_fields_nothing st :
  ∀ (fd : gmap string numba_type),
  (∀ name, name ∈ st.*1 → is_Some (fd !! name)) →
  collect_new_fields fd st = ([], fd).
Proof.
  unfold collect_new_fields.
  induction st as [|[n v] st IH]; intros fd Hall; simpl; [done|].
  destruct (decide (fd !! n = None)) as [Hnew|_].
  - destruct (Hall n) as [t Ht]; [apply list_elem_of_here|congruence].
  - apply IH. intros name Hname. apply Hall. by apply list_elem_of_further.
Qed.

(** X16: for a class with a native parent the finalized attribute struct
    extends the parent's: the parent's struct is a prefix of it (so it
    passes the layout check of a later subclass), no name occurs twice in
    it, and its [fielddict] is the dictionary of its fields. *)
Theorem finalized_struct_extends_parent ext pf :
  attribute_struct ext = Some (struct pf) →
  NoDup pf.*1 →
  NoDup (symtab ext).*1 →
  ∃ s,
    attribute_struct (construct ext) = Some s
    ∧ is_prefix_of pf (fields s) = true
    ∧ NoDup (fields s).*1
    ∧ fielddict s = dict_of_fields (fields s).
Proof.
  intros Hs Hpf Hst.
  destruct (construct_inherited sort_types ext _ Hs Hst)
    as (s & Hs' & Hfields).
  exists s. split; [done|]. simpl in Hfields.
  split; [rewrite Hfields; apply is_prefix_of_app|]. split.
  - rewrite Hfields, fmap_app. apply NoDup_app. split; [done|]. split.
    + intros name Hin Hnew. apply list_elem_of_fmap in Hnew
        as ([n t] & -> & Hf). apply list_elem_of_filter in Hf as [Hnone _].
      simpl in *. by apply dict_of_fields_None in Hnone.
    + rewrite <- attributes_keys in Hst.
      eapply sublist_NoDup; [exact Hst|].
      apply fmap_sublist, sublist_filter.
  - revert Hs'. unfold JitClass._construct_native_attribute_struct.
    rewrite Hs. unfold collect_new_fields.
    pose proof (collect_new_fields_dict (symtab ext) pf []
                  (fielddict (struct pf))) as Hd.
    simpl in Hd. rewrite app_nil_r in Hd. specialize (Hd eq_refl).
    destruct (foldl _ _ _) as [new_fields fd]. simpl in *.
    by intros [= <-].
Qed.

(** X17: finalizing the attribute struct of a class with a native parent a
    second time changes nothing: every attribute is in the struct already. *)
Theorem construct_twice ext s :
  attribute_struct ext = Some s →
  JitClass._construct_native_attribute_struct sort_types
    (JitClass._construct_native_attribute_struct sort_types ext)
  = JitClass._construct_native_attribute_struct sort_types ext.
Proof.
  intros Hs. unfold JitClass._construct_native_attribute_struct at 2.
  rewrite Hs. unfold collect_new_fields.
  pose proof (λ name, collect_new_fields_covers (symtab ext) []
                        (fielddict s) name) as Hcover.
  destruct (foldl _ _ _) as [new_fields fd] eqn:Hloop. simpl in Hcover.
  unfold JitClass._construct_native_attribute_struct. simpl.
  rewrite collect_new_fields_nothing.
  - unfold set_attribute_struct. simpl. rewrite app_nil_r, Hs.
    unfold collect_new_fields. by rewrite Hloop.
  - intros name Hname. apply Hcover. by left.
Qed.

End StructFacts.

Section SymtabFacts.

Variable sort_types :
  list (string * numba_type) → list (string * numba_type).

Lemma dict_get_set {V} (d : list (string * V)) k v k' :
  dict_get (dict_set d k v) k' =
    if decide (k = k') then Some v else dict_get d k'.
Proof.
  induction d as [|[k0 v0] d IH]; simpl.
  - by destruct (decide (k = k')).
  - destruct (decide (k0 = k)) as [->|Hne]; simpl.
    + by destruct (decide (k = k')).
    + destruct (decide (k0 = k')) as [->|Hne'].
      * by destruct (decide (k = k')) as [->|].
      * done.
Qed.

Lemma dict_set_keys_prefix {V} (d : list (string * V)) k v :
  d.*1 `prefix_of` (dict_set d k v).*1.
Proof.
  destruct (decide (k ∈ d.*1)) as [Hin|Hnot].
  - by rewrite dict_set_keys_present.
  - rewrite dict_set_fresh, fmap_app by done. by apply prefix_app_r.
Qed.

Lemma enter_class_attributes_facts class_dict : ∀ st,
  st.*1 `prefix_of` (enter_class_attributes st class_dict).*1
  ∧ (NoDup st.*1 → NoDup (enter_class_attributes st class_dict).*1)
  ∧ (∀ name,
       name ∈ (enter_class_attributes st class_dict).*1
       ↔ name ∈ st.*1 ∨ ∃ t, (name, MType t) ∈ class_dict)
  ∧ (∀ name,
       (∀ t, (name, MType t) ∉ class_dict) →
       dict_get (enter_class_attributes st class_dict) name
         = dict_get st name)
  ∧ (∀ name t,
       NoDup class_dict.*1 → (name, MType t) ∈ class_dict →
       dict_get (enter_class_attributes st class_dict) name
         = Some (Variable_ t false)).
Proof.
  unfold enter_class_attributes.
  induction class_dict as [|[n value] class_dict IH]; intros st; simpl.
  { split; [done|]. split; [done|]. split; [|split; [done|]].
    - intros name. split; [by left|]. intros [?|[t Ht]]; [done|].
      by apply elem_of_nil in Ht.
    - intros name t _ Ht. by apply elem_of_nil in Ht. }
  set (st1 := match value with
              | MType t => dict_set st n (Variable_ t false)
              | _ => st
              end).
  destruct (IH st1) as (Hprefix & Hnodup & Hkeys & Hkeep & Hnew).
  assert (st.*1 `prefix_of` st1.*1) as Hp1.
  { unfold st1. destruct value; try done. apply dict_set_keys_prefix. }
  split; [by etrans|]. split; [|split; [|split]].
  - intros Hst. apply Hnodup. unfold st1.
    destruct value; try done. by apply dict_set_NoDup.
  - intros name. rewrite Hkeys. unfold st1. split.
    + intros [Hin|[t Ht]].
      * destruct value as [t| | |]; try by left.
        apply dict_set_mem in Hin as [->|Hin]; [|by left].
        right. exists t. apply list_elem_of_here.
      * right. exists t. by apply list_elem_of_further.
    + intros [Hin|[t Ht]].
      * left. destruct value; try done. apply dict_set_mem. by right.
      * apply elem_of_cons in Ht as [[= -> <-]|Ht].
        -- left. apply dict_set_mem. by left.
        -- right. by exists t.
  - intros name Hnone. rewrite Hkeep.
    + unfold st1. destruct value as [t| | |]; try done.
      rewrite dict_get_set. destruct (decide (n = name)) as [->|]; [|done].
      destruct (Hnone t). apply list_elem_of_here.
    + intros t Ht. apply (Hnone t). by apply list_elem_of_further.
  - intros name t Hnd Ht. apply NoDup_cons in Hnd as [Hn Hnd].
    apply elem_of_cons in Ht as [[= -> <-]|Ht].
    + rewrite Hkeep.
      * unfold st1. rewrite dict_get_set. by destruct (decide (n = n)).
      * intros t' Ht'. apply Hn. apply list_elem_of_fmap.
        by exists (n, MType t').
    + by apply Hnew.
Qed.

(** X18: [process_class_attribute_types] enters the class attributes whose
    value is a type, and nothing else.  A name is in the symbol table
    afterwards exactly when it was before or the class gives it a type; a
    name to which the class gives a type maps to that type, not promotable;
    every other name maps to what it mapped to before. *)
Theorem class_attribute_types_enter_symtab ext class_dict :
  NoDup class_dict.*1 →
  let ext' := process_class_attribute_types ext class_dict in
  (∀ name,
     name ∈ (symtab ext').*1
     ↔ name ∈ (symtab ext).*1 ∨ ∃ t, (name, MType t) ∈ class_dict)
  ∧ (∀ name t,
       (name, MType t) ∈ class_dict →
       dict_get (symtab ext') name = Some (Variable_ t false))
  ∧ (∀ name,
       (∀ t, (name, MType t) ∉ class_dict) →
       dict_get (symtab ext') name = dict_get (symtab ext) name).
Proof.
  intros Hnd.
  destruct (enter_class_attributes_facts class_dict (symtab ext))
    as (_ & _ & Hkeys & Hkeep & Hnew).
  simpl. split; [done|]. split; [|done].
  intros name t. by apply Hnew.
Qed.

Lemma inherit_methods_symtab vfields : ∀ ext ext',
  inherit_methods ext vfields = inr ext' → symtab ext' = symtab ext.
Proof.
  induction vfields as [|[name mt] vfields IH]; intros ext ext'; simpl.
  - by intros [= <-].
  - unfold mbind, result_bind.
    destruct (inherit_method ext mt) as [e|sig]; [done|].
    intros Hrest. by apply IH in Hrest as ->.
Qed.

Lemma inherited_symtab_NoDup (fs : list (string * numba_type)) :
  ∀ st : list (string * variable),
  NoDup st.*1 →
  NoDup (foldl (λ st '(field_name, field_type),
                  dict_set st field_name (Variable_ field_type false))
               st fs).*1.
Proof.
  induction fs as [|[n t] fs IH]; intros st Hst; simpl; [done|].
  apply IH. by apply dict_set_NoDup.
Qed.

Lemma inherit_attributes_symtab_NoDup cls class_dict ext' :
  inherit_attributes (new_extension_type cls) class_dict = inr ext' →
  NoDup (symtab ext').*1.
Proof.
  unfold inherit_attributes. simpl.
  destruct (numba_struct_type cls) as [s|].
  2:{ intros [= <-]. simpl. apply NoDup_nil_2. }
  destruct (numba_vtab_type cls) as [v|]; [|done].
  unfold mbind, result_bind.
  destruct (verify_base_class_compatibility _ _ _); [done|].
  destruct (inherit_methods _ _) as [e|ext1] eqn:Hm; [done|].
  intros [= <-]. simpl. apply inherit_methods_symtab in Hm. rewrite Hm.
  simpl. apply inherited_symtab_NoDup. apply NoDup_nil_2.
Qed.

Lemma NoDup_fst_functional {A B} (l : list (A * B)) x y1 y2 :
  NoDup l.*1 → (x, y1) ∈ l → (x, y2) ∈ l → y1 = y2.
Proof.
  induction l as [|[a b] l IH]; simpl; intros Hnd H1 H2.
  - by apply elem_of_nil in H1.
  - apply NoDup_cons in Hnd as [Ha Hnd].
    apply elem_of_cons in H1 as [H1|H1];
      apply elem_of_cons in H2 as [H2|H2]; simplify_eq; try done.
    + destruct Ha. apply list_elem_of_fmap. by exists (a, y2).
    + destruct Ha. apply list_elem_of_fmap. by exists (a, y1).
    + by apply IH.
Qed.

(** X19: a derived class cannot change the type of an inherited attribute.
    When the class gives a type to a name that its native parent has as a
    field, the symbol table takes the new type, but the finalized struct
    has that name once, with the parent's type. *)
Theorem redeclared_attribute_keeps_parent_type
    cls parent class_dict ext1 name t t' :
  numba_struct_type cls = Some parent →
  inherit_attributes (new_extension_type cls) class_dict = inr ext1 →
  NoDup (fields parent).*1 →
  NoDup class_dict.*1 →
  (name, t) ∈ fields parent →
  (name, MType t') ∈ class_dict →
  let ext2 := process_class_attribute_types ext1 class_dict in
  dict_get (symtab ext2) name = Some (Variable_ t' false)
  ∧ ∃ s,
      attribute_struct
        (JitClass._construct_native_attribute_struct sort_types ext2)
        = Some s
      ∧ ∀ u, (name, u) ∈ fields s ↔ u = t.
Proof.
  intros Hparent Hinherit Hpf Hcd Hfield Hdecl ext2.
  destruct (enter_class_attributes_facts class_dict (symtab ext1))
    as (_ & Hnodup & _ & _ & Hnew).
  split; [by apply Hnew|].
  destruct (construct_inherited sort_types ext2 (struct (fields parent)))
    as (s & Hs & Hfields).
  { unfold ext2. simpl.
    exact (inherit_attributes_struct (new_extension_type cls) class_dict
             ext1 parent Hparent Hinherit). }
  { unfold ext2. simpl. apply Hnodup.
    by eapply inherit_attributes_symtab_NoDup. }
  exists s. split; [done|]. intros u. rewrite Hfields. simpl.
  rewrite elem_of_app. split.
  - intros [Hu|Hu].
    + by eapply NoDup_fst_functional.
    + apply list_elem_of_filter in Hu as [Hnone _]. simpl in Hnone.
      apply dict_of_fields_None in Hnone. destruct Hnone.
      apply list_elem_of_fmap. by exists (name, t).
  - intros ->. by left.
Qed.

End SymtabFacts.

Section PointerTableFacts.

Variable compile2 :
  py_function → option numba_type → list numba_type → gmap string pyobj →
  exception + func_env.
Variable parent_method_pointers : option (list (string * nat)).
Variable flags : gmap string pyobj.

Abbreviation compile_from' :=
  (compile_methods_from compile2 parent_method_pointers flags).

Lemma compile_from_declared todo : ∀ i cd lm mp env cd' lm' mp' env',
  NoDup todo.*1 →
  compile_from' i todo (cd, lm, mp) env = (inr (cd', lm', mp'), env') →
  mp'.*1 = mp.*1 ++ todo.*1
  ∧ length lm' = length lm + length (declared cd todo)
  ∧ (∀ name, name ∉ todo.*1 → dict_get cd' name = dict_get cd name)
  ∧ (∀ k name sig,
       todo !! k = Some (name, sig) → name ∈ cd.*1 →
       ∃ m fe,
         dict_get cd name = Some (MMethod m)
         ∧ compile2 (method_py_func m) (return_type sig) (args sig)
             (<["name" := PStr (func_name (method_py_func m))]> flags)
           = inr fe
         ∧ mp' !! (length mp + k) = Some (name, lfunc_pointer fe)
         ∧ dict_get cd' name
           = Some (MResult m (numba_wrapper_func fe))).
Proof.
  induction todo as [|[name sig] todo IH];
    intros i cd lm mp env cd' lm' mp' env' Hnd; simpl.
  - intros [= <- <- <- <-]. rewrite app_nil_r. split; [done|].
    split; [unfold declared; simpl; lia|]. split; [done|].
    by intros k ? ? ?.
  - apply NoDup_cons in Hnd as [Hname Hnd].
    unfold declared. rewrite filter_cons. simpl.
    destruct (dict_get cd name) as [member|] eqn:Hget.
    + assert (name ∈ cd.*1) as Hin.
      { destruct (decide (name ∈ cd.*1)) as [|Hnot]; [done|].
        apply dict_get_None in Hnot. congruence. }
      destruct member as [t|m|m w|v]; try done.
      unfold mbind, M_bind, pipeline_compile2, external, emit, mbind, M_bind.
      destruct (compile2 _ _ _ _) as [e|fe] eqn:Hc; [done|].
      unfold mret, M_ret. intros Hrest.
      pose proof (compile_from_success _ _ _ _ _ _ _ _ _ _ _ _ _ Hrest)
        as (_ & _ & Hold & _).
      apply IH in Hrest as (Hnames & Hlm & Hkeep & Hdecl); [|done].
      rewrite fmap_app, <- app_assoc in Hnames. simpl in Hnames.
      rewrite length_app in Hlm, Hdecl. simpl in Hlm, Hdecl.
      split; [done|]. split; [|split].
      * destruct (decide _) as [_|Hno]; [|done]. simpl. rewrite Hlm.
        unfold declared.
        rewrite (filter_agree (λ m0, m0.1 ∈ (dict_set cd name
                   (MResult m (numba_wrapper_func fe))).*1)
                   (λ m0, m0.1 ∈ cd.*1)); [lia|].
        intros x _. by rewrite dict_set_keys_present.
      * intros n Hn. apply not_elem_of_cons in Hn as [Hne Hn].
        rewrite Hkeep by done. rewrite dict_get_set.
        by destruct (decide (name = n)).
      * intros [|k] n s Hk Hn; simpl in Hk.
        { injection Hk as <- <-. exists m, fe. split; [done|].
          split; [done|]. split.
          - rewrite Nat.add_0_r, Hold by (rewrite length_app; simpl; lia).
            by rewrite lookup_app_r, Nat.sub_diag.
          - rewrite Hkeep by done. rewrite dict_get_set.
            by destruct (decide (name = name)). }
        assert (n ≠ name) as Hne.
        { intros ->. apply Hname. apply list_elem_of_fmap.
          exists (name, s). split; [done|].
          by apply list_elem_of_lookup_2 in Hk. }
        destruct (Hdecl k n s Hk) as (m' & fe' & Hm' & Hfe' & Hmp & Hcd').
        { apply dict_set_mem. by right. }
        exists m', fe'. rewrite dict_get_set in Hm'.
        destruct (decide (name = n)); [congruence|].
        split; [done|]. split; [done|]. split; [|done].
        by replace (length mp + S k) with (length mp + 1 + k) by lia.
    + apply dict_get_None in Hget.
      destruct parent_method_pointers as [pointers|]; [|done].
      destruct (pointers !! i) as [[name' p]|]; [|done].
      unfold mbind, M_bind, py_assert.
      destruct (bool_decide (name' = name)); [|done].
      unfold mret, M_ret. intros Hrest.
      apply IH in Hrest as (Hnames & Hlm & Hkeep & Hdecl); [|done].
      rewrite fmap_app, <- app_assoc in Hnames. simpl in Hnames.
      rewrite length_app in Hdecl. simpl in Hdecl.
      split; [done|]. split; [|split].
      * destruct (decide _) as [Hyes|_]; [by destruct Hget|]. done.
      * intros n Hn. apply not_elem_of_cons in Hn as [_ Hn].
        by apply Hkeep.
      * intros [|k] n s Hk Hn; simpl in Hk.
        { injection Hk as <- <-. by destruct Hget. }
        destruct (Hdecl k n s Hk Hn) as (m' & fe' & Hm' & Hfe' & Hmp & Hcd').
        exists m', fe'. repeat (split; [done|]). split; [|done].
        by replace (length mp + S k) with (length mp + 1 + k) by lia.
Qed.

End PointerTableFacts.

(** X20: the pointer table that [_compile_methods] builds follows the
    method list.  When the method names are distinct and the run
    succeeds, the table has the names of the method list in its order; a
    method that the class declares has, at its index, the pointer of the
    function the pipeline compiled for it with its signature, and its entry
    in the class dictionary is replaced by the result wrapper; every entry
    of the class dictionary that is no method of the list is untouched. *)
Theorem pointer_table_follows_method_list
    compile2 class_dict ext flags env cd' lm' mp' env' :
  NoDup (methods ext).*1 →
  _compile_methods compile2 class_dict ext [] [] flags env
    = (inr (cd', lm', mp'), env') →
  mp'.*1 = (methods ext).*1
  ∧ length lm' = length (declared class_dict (methods ext))
  ∧ (∀ name, name ∉ (methods ext).*1 →
             dict_get cd' name = dict_get class_dict name)
  ∧ (∀ i name sig,
       methods ext !! i = Some (name, sig) → name ∈ class_dict.*1 →
       ∃ m fe,
         dict_get class_dict name = Some (MMethod m)
         ∧ compile2 (method_py_func m) (return_type sig) (args sig)
             (<["name" := PStr (func_name (method_py_func m))]> flags)
           = inr fe
         ∧ mp' !! i = Some (name, lfunc_pointer fe)
         ∧ dict_get cd' name
           = Some (MResult m (numba_wrapper_func fe))).
Proof.
  intros Hnd Hrun. unfold _compile_methods in Hrun.
  apply compile_from_declared in Hrun as (Hnames & Hlm & Hkeep & Hdecl);
    [|done].
  done.
Qed.

(** X21: an inherited method needs the parent's pointer table to agree
    with the method list.  When the loop of [_compile_methods] reaches a
    method that the class does not declare, it raises [IndexError] if the
    parent's table has no entry at the index of the method, and fails its
    assertion if the entry there has another name; in both cases nothing
    more is compiled. *)
Theorem parent_table_must_match
    compile2 class_dict ext lmethods method_pointers flags env
    pointers pre name sig post st1 env1 :
  numba_method_pointers (ext_class ext) = Some pointers →
  methods ext = pre ++ (name, sig) :: post →
  name ∉ class_dict.*1 →
  compile_methods_from compile2 (Some pointers) flags 0 pre
    (class_dict, lmethods, method_pointers) env = (inr st1, env1) →
  (pointers !! length pre = None →
   _compile_methods compile2 class_dict ext lmethods method_pointers flags
                    env = (inl IndexError, env1)) ∧
  (∀ name' p,
     pointers !! length pre = Some (name', p) → name' ≠ name →
     _compile_methods compile2 class_dict ext lmethods method_pointers flags
                      env = (inl (AssertionError PNone), env1)).
Proof.
  intros Hparent Hsplit Hnot Hpre. unfold _compile_methods.
  rewrite Hparent, Hsplit, compile_from_app, Hpre.
  destruct st1 as [[cd1 lm1] mp1].
  apply compile_from_success in Hpre as (Hkeys & _).
  assert (dict_get cd1 name = None) as Hget.
  { apply dict_get_None. by rewrite Hkeys. }
  simpl. rewrite Hget. split.
  - by intros ->.
  - intros name' p -> Hne. unfold mbind, M_bind, py_assert.
    by rewrite bool_decide_eq_false_2.
Qed.

Section StageFacts.

Variable sort_types :
  list (string * numba_type) → list (string * numba_type).
Variable compile2 :
  py_function → option numba_type → list numba_type → gmap string pyobj →
  exception + func_env.
Variable infer_types2 :
  py_function → option numba_type → list numba_type → gmap string pyobj →
  list (string * variable) →
  exception + (signature * list (string * variable)).
Variable get_method_signatures :
  list (string * class_member) → extension_type →
  exception + list (method * signature).
Variable _create_descr : string → class_member.
Variable build_vtab :
  option vtab_struct → list (string * nat) → exception + (nat * vtab_struct).
Variable create_new_extension_type :
  string → list py_class → list (string * class_member) → extension_type →
  nat → vtab_struct → list llvm_func → list (string * nat) →
  exception + nat.

Abbreviation infer_method := (JitClass._type_infer_method infer_types2).
Abbreviation infer_items := (JitClass.type_infer_items infer_types2).
Abbreviation infer_methods := (JitClass._type_infer_methods infer_types2).
Abbreviation infer_init :=
  (JitClass._type_infer_init_method infer_types2).
Abbreviation compile_methods' :=
  (JitClass.compile_extension_methods sort_types compile2 infer_types2
     get_method_signatures).
Abbreviation create' :=
  (JitClass.create_extension sort_types compile2 infer_types2
     get_method_signatures _create_descr build_vtab
     create_new_extension_type).

Lemma appended_nil env : appended env env [].
Proof. unfold appended. by rewrite app_nil_r. Qed.

Lemma appended_trans env env1 env2 evs1 evs2 :
  appended env env1 evs1 → appended env1 env2 evs2 →
  appended env env2 (evs1 ++ evs2).
Proof.
  intros (Hs1 & Hr1 & Ht1) (Hs2 & Hr2 & Ht2). unfold appended.
  rewrite Hs2, Hs1, Hr2, Hr1, Ht2, Ht1. by rewrite app_assoc.
Qed.

Lemma dict_get_elem {V} (d : list (string * V)) k v :
  NoDup d.*1 → (k, v) ∈ d → dict_get d k = Some v.
Proof.
  induction d as [|[k0 v0] d IH]; simpl; intros Hnd Hin.
  - by apply elem_of_nil in Hin.
  - apply NoDup_cons in Hnd as [Hk0 Hnd].
    apply elem_of_cons in Hin as [Hin|Hin]; simplify_eq.
    + by destruct (decide (k0 = k0)).
    + destruct (decide (k0 = k)) as [->|_]; [|by apply IH].
      destruct Hk0. apply list_elem_of_fmap. by exists (k, v).
Qed.

Lemma dict_set_same {V} (d : list (string * V)) k v :
  dict_get d k = Some v → dict_set d k v = d.
Proof.
  induction d as [|[k0 v0] d IH]; simpl; [done|].
  destruct (decide (k0 = k)) as [->|_].
  - by intros [= ->].
  - intros Hget. by rewrite IH.
Qed.

Lemma dict_get_Some_key {V} (d : list (string * V)) k v :
  dict_get d k = Some v → k ∈ d.*1.
Proof.
  intros Hget. destruct (decide (k ∈ d.*1)) as [|Hnot]; [done|].
  apply dict_get_None in Hnot. congruence.
Qed.

(** One inference: at most one call, to [infer_types2]; the names of the
    method list stay. *)
Lemma infer_method_run ext member name cd flags env out env' :
  infer_method ext member name cd flags env = (out, env') →
  (∃ evs, appended env env' evs ∧ Forall is_infer_types2 evs
          ∧ (∀ ext' cd', out = inr (ext', cd') →
               length evs = (if decide (name ∈ (methods ext).*1)
                             then 1 else 0)))
  ∧ ∀ ext' cd', out = inr (ext', cd') →
      (methods ext').*1 = (methods ext).*1
      ∧ cd' = (if decide (name ∈ (methods ext).*1)
               then dict_set cd name member else cd).
Proof.
  unfold JitClass._type_infer_method.
  destruct (dict_get (methods ext) name) as [sig|] eqn:Hget.
  - pose proof (dict_get_Some_key _ _ _ Hget) as Hin.
    destruct (decide _) as [_|Hno]; [|done].
    destruct member as [t|m|m w|v];
      try (intros [= <- <-]; split;
           [exists []; split; [apply appended_nil|split; [done|]];
            by intros ? ?|by intros ? ?]).
    unfold mbind, M_bind, external, emit, mbind, M_bind.
    destruct (infer_types2 _ _ _ _ _) as [e|[fsig st]]; intros [= <- <-].
    + split; [|by intros ? ?]. eexists [_]. split; [done|].
      split; [by repeat constructor|]. by intros ? ?.
    + split.
      * eexists [_]. split; [done|]. split; [by repeat constructor|].
        by intros ? ? _.
      * intros ext' cd' [= <- <-]. split; [|done]. simpl.
        by apply dict_set_keys_present.
  - apply dict_get_None in Hget.
    destruct (decide _) as [Hyes|_]; [done|].
    intros [= <- <-]. split.
    + exists []. split; [apply appended_nil|]. split; [done|].
      by intros ? ? _.
    + by intros ext' cd' [= <- <-].
Qed.

Lemma infer_items_run items : ∀ ext cd flags env out env',
  infer_items items ext cd flags env = (out, env') →
  ∃ evs, appended env env' evs ∧ Forall is_infer_types2 evs
   ∧ ∀ ext' cd', out = inr (ext', cd') →
       (methods ext').*1 = (methods ext).*1
       ∧ length evs = length (filter (inferred_member (methods ext)) items)
       ∧ ((∀ item, item ∈ items → dict_get cd item.1 = Some item.2) →
          cd' = cd).
Proof.
  induction items as [|[name member] items IH];
    intros ext cd flags env out env'; simpl.
  - intros [= <- <-]. exists []. split; [apply appended_nil|].
    split; [done|]. by intros ext' cd' [= <- <-].
  - assert (¬ inferred_member (methods ext) (name, member) →
            infer_items items ext cd flags env = (out, env') →
            ∃ evs, appended env env' evs ∧ Forall is_infer_types2 evs
             ∧ ∀ ext' cd', out = inr (ext', cd') →
                 (methods ext').*1 = (methods ext).*1
                 ∧ length evs
                   = length (filter (inferred_member (methods ext))
                                    ((name, member) :: items))
                 ∧ ((∀ item, item ∈ (name, member) :: items →
                              dict_get cd item.1 = Some item.2) →
                    cd' = cd)) as Hskip.
    { intros Hno Hrun. apply IH in Hrun as (evs & Happ & Hinf & Hok).
      exists evs. split; [done|]. split; [done|].
      intros ext' cd' Hout.
      destruct (Hok ext' cd' Hout) as (Hm & Hlen & Hcd).
      split; [done|]. split.
      - rewrite filter_cons. by destruct (decide _).
      - intros Hall. apply Hcd. intros item Hitem. apply Hall.
        by apply list_elem_of_further. }
    destruct (decide (name = "__new__")) as [Hnew|Hnew].
    { rewrite (bool_decide_eq_true_2 _ Hnew). simpl. apply Hskip.
      by intros (Hno & _). }
    rewrite (bool_decide_eq_false_2 _ Hnew).
    destruct (decide (name = "__init__")) as [Hinit|Hinit].
    { rewrite (bool_decide_eq_true_2 _ Hinit). simpl. apply Hskip.
      by intros (_ & Hno & _). }
    rewrite (bool_decide_eq_false_2 _ Hinit).
    destruct (member_is_None member) eqn:Hnone; simpl.
    { apply Hskip. intros (_ & _ & Hno & _). simpl in Hno. congruence. }
    clear Hskip. unfold mbind, M_bind.
    destruct (infer_method ext member name cd flags env)
      as [[e|[ext1 cd1]] env1] eqn:Hstep.
    + intros [= <- <-].
      apply infer_method_run in Hstep as [(evs & Happ & Hinf & _) _].
      exists evs. split; [done|]. split; [done|]. by intros ? ?.
    + intros Hrun.
      apply infer_method_run in Hstep
        as [(evs1 & Happ1 & Hinf1 & Hlen1) Hstep].
      destruct (Hstep ext1 cd1 eq_refl) as [Hm1 Hcd1].
      specialize (Hlen1 ext1 cd1 eq_refl).
      apply IH in Hrun as (evs2 & Happ2 & Hinf2 & Hok).
      exists (evs1 ++ evs2). split; [by eapply appended_trans|].
      split; [by apply Forall_app|].
      intros ext' cd' Hout.
      destruct (Hok ext' cd' Hout) as (Hm & Hlen & Hcd).
      split; [congruence|]. split.
      * rewrite (filter_agree (inferred_member (methods ext1))
                   (inferred_member (methods ext))) in Hlen
          by (intros item _; unfold inferred_member; by rewrite Hm1).
        rewrite length_app, Hlen1, Hlen, filter_cons.
        destruct (decide (name ∈ (methods ext).*1)) as [Hin|Hnot].
        -- destruct (decide (inferred_member _ _)) as [_|Hno]; [done|].
           destruct Hno. by repeat split.
        -- destruct (decide (inferred_member _ _))
             as [(_ & _ & _ & Hyes)|_]; [done|]. done.
      * intros Hall.
        assert (cd1 = cd) as ->.
        { rewrite Hcd1. destruct (decide _); [|done].
          apply dict_set_same.
          apply (Hall (name, member)), list_elem_of_here. }
        apply Hcd. intros item Hitem. apply Hall.
        by apply list_elem_of_further.
Qed.

(** X22: [_type_infer_methods] passes to type inference exactly the
    members of the class dictionary that have a signature in the method
    list and are neither [__new__], [__init__] nor [None]: it makes no
    other call, and when it succeeds it has called [infer_types2] once for
    each of them, the class dictionary is as before, and the method list
    has the names it had. *)
Theorem type_inference_covers_listed_methods
    class_dict ext flags env out env' :
  NoDup class_dict.*1 →
  infer_methods class_dict ext flags env = (out, env') →
  ∃ evs,
    appended env env' evs
    ∧ Forall is_infer_types2 evs
    ∧ ∀ ext' cd',
        out = inr (ext', cd') →
        cd' = class_dict
        ∧ (methods ext').*1 = (methods ext).*1
        ∧ length evs
          = length (filter (inferred_member (methods ext)) class_dict).
Proof.
  intros Hnd Hrun. unfold JitClass._type_infer_methods in Hrun.
  apply infer_items_run in Hrun as (evs & Happ & Hinf & Hok).
  exists evs. split; [done|]. split; [done|].
  intros ext' cd' Hout. destruct (Hok ext' cd' Hout) as (Hm & Hlen & Hcd).
  split; [|done]. apply Hcd. intros [name member] Hitem.
  by apply dict_get_elem.
Qed.

Lemma compile_from_trace parent flags todo : ∀ i st env out env',
  compile_methods_from compile2 parent flags i todo st env = (out, env') →
  ∃ evs, appended env env' evs ∧ Forall is_compile2 evs.
Proof.
  induction todo as [|[name sig] todo IH]; intros i [[cd lm] mp] env out env';
    simpl.
  - intros [= <- <-]. exists []. split; [apply appended_nil|done].
  - destruct (dict_get cd name) as [[t|m|m w|v]|];
      try (intros [= <- <-]; exists []; split; [apply appended_nil|done]).
    + unfold mbind, M_bind, pipeline_compile2, external, emit, mbind, M_bind.
      destruct (compile2 _ _ _ _) as [e|fe].
      * intros [= <- <-]. eexists [_]. split; [done|]. by repeat constructor.
      * unfold mret, M_ret. intros Hrest.
        apply IH in Hrest as (evs & Happ & Hc).
        destruct Happ as (Hs & Hr & Ht). simpl in *.
        exists (EvCompile2 (func_id (method_py_func m)) (args sig) :: evs).
        split; [|by constructor].
        split; [done|]. split; [done|]. by rewrite Ht, <- app_assoc.
    + destruct parent as [pointers|];
        [|intros [= <- <-]; exists []; split; [apply appended_nil|done]].
      destruct (pointers !! i) as [[name' p]|];
        [|intros [= <- <-]; exists []; split; [apply appended_nil|done]].
      unfold mbind, M_bind, py_assert.
      destruct (bool_decide (name' = name));
        [|intros [= <- <-]; exists []; split; [apply appended_nil|done]].
      unfold mret, M_ret. apply IH.
Qed.

Lemma infer_init_run cd ext flags env out env' :
  infer_init cd ext flags env = (out, env') →
  ∃ evs, appended env env' evs ∧ Forall is_infer_types2 evs
   ∧ ∀ ext' cd', out = inr (ext', cd') →
       (methods ext').*1 = (methods ext).*1.
Proof.
  unfold JitClass._type_infer_init_method.
  destruct (dict_get cd "__init__") as [initfunc|].
  - destruct (member_is_None initfunc).
    + intros [= <- <-]. exists []. split; [apply appended_nil|].
      split; [done|]. by intros ? ? [= <- <-].
    + intros Hrun. apply infer_method_run in Hrun
        as [(evs & Happ & Hinf & _) Hok].
      exists evs. split; [done|]. split; [done|].
      intros ext' cd' Hout. by destruct (Hok ext' cd' Hout).
  - intros [= <- <-]. exists []. split; [apply appended_nil|].
    split; [done|]. by intros ? ? [= <- <-].
Qed.

Lemma process_signatures_NoDup
    (signatures : list (method * signature)) : ∀ cd ext,
  NoDup (methods ext).*1 →
  NoDup (methods
           (foldl (λ '(class_dict, ext_type) '(method, method_type),
                     (dict_set class_dict (method_name method)
                               (MMethod method),
                      add_method ext_type (method_name method) method_type))
                  (cd, ext) signatures).2).*1.
Proof.
  induction signatures as [|[m sig] signatures IH]; intros cd ext Hnd;
    simpl; [done|].
  apply IH. simpl. by apply dict_set_NoDup.
Qed.

(** X23: [compile_extension_methods] compiles nothing before every method
    is type-inferred: whatever the outcome, the calls it made are calls to
    [infer_types2] followed by calls to [compile2].  When it succeeds, the
    vtable type of the extension type has one field per method of the
    method list, in its order, and, the method names being distinct, the
    pointer table it returns has the same names in the same order. *)
Theorem methods_inferred_before_compiled cls ext class_dict flags env out env' :
  NoDup (methods ext).*1 →
  compile_methods' cls ext class_dict flags env = (out, env') →
  (∃ evs1 evs2,
     appended env env' (evs1 ++ evs2)
     ∧ Forall is_infer_types2 evs1
     ∧ Forall is_compile2 evs2)
  ∧ ∀ ext' cd' method_pointers lmethods,
      out = inr (ext', cd', method_pointers, lmethods) →
      vtab_type ext' = Some (VtabStruct (methods ext'))
      ∧ method_pointers.*1 = (methods ext').*1.
Proof.
  intros Hnd. unfold JitClass.compile_extension_methods.
  unfold process_method_signatures, lift.
  unfold mbind at 1, M_bind at 1, mbind at 1, M_bind at 1.
  destruct (get_method_signatures _ _) as [e|signatures].
  { intros [= <- <-]. split; [|by intros ? ? ? ?].
    exists [], []. split; [apply appended_nil|done]. }
  unfold mret at 1, M_ret at 1, mret at 1, M_ret at 1.
  pose proof (process_signatures_NoDup signatures
                (dict_set class_dict "__numba_py_class" (class_object cls))
                ext Hnd) as Hnd1.
  destruct (foldl _ _ signatures) as [cd1 ext1]. simpl in Hnd1.
  unfold mbind at 1, M_bind at 1.
  destruct (infer_init cd1 ext1 flags env) as [[e|[ext2 cd2]] env2] eqn:Hinit.
  { intros [= <- <-]. split; [|by intros ? ? ? ?].
    apply infer_init_run in Hinit as (evs & Happ & Hinf & _).
    exists evs, []. rewrite app_nil_r. by split. }
  apply infer_init_run in Hinit as (evsi & Happi & Hinfi & Hmi).
  specialize (Hmi ext2 cd2 eq_refl).
  unfold mbind at 1, M_bind at 1.
  destruct (infer_methods cd2 _ flags env2) as [[e|[ext3 cd3]] env3]
    eqn:Hinfer.
  { intros [= <- <-]. split; [|by intros ? ? ? ?].
    apply infer_items_run in Hinfer as (evs & Happ & Hinf & _).
    exists (evsi ++ evs), []. rewrite app_nil_r.
    split; [by eapply appended_trans|]. split; [by apply Forall_app|done]. }
  apply infer_items_run in Hinfer as (evsm & Happm & Hinfm & Hmm).
  destruct (Hmm ext3 cd3 eq_refl) as (Hm3 & _ & _).
  assert ((methods ext3).*1 = (methods ext1).*1) as Hnames.
  { rewrite Hm3. unfold JitClass._construct_native_attribute_struct.
    destruct (attribute_struct ext2); [|by simpl].
    destruct (collect_new_fields _ _). by simpl. }
  unfold mbind at 1, M_bind at 1.
  destruct (_compile_methods compile2 cd3 _ [] [] flags env3)
    as [[e|[[cd4 lm4] mp4]] env4] eqn:Hcompile.
  { intros [= <- <-]. split; [|by intros ? ? ? ?].
    apply compile_from_trace in Hcompile as (evs & Happ & Hc).
    exists (evsi ++ evsm), evs.
    split; [by repeat (eapply appended_trans; [|done])|].
    split; [by apply Forall_app|done]. }
  unfold mret, M_ret. intros [= <- <-]. split.
  - pose proof Hcompile as Htrace.
    apply compile_from_trace in Htrace as (evs & Happ & Hc).
    exists (evsi ++ evsm), evs.
    split; [by repeat (eapply appended_trans; [|done])|].
    split; [by apply Forall_app|done].
  - intros ext' cd' mp lm [= <- <- <- <-]. split; [done|].
    apply pointer_table_follows_method_list in Hcompile as (Hmp & _);
      [done|].
    simpl. by rewrite Hnames.
Qed.

Lemma inject_descriptors_facts (st : list (string * variable)) :
  ∀ cd : list (string * class_member),
  let cd' := foldl (λ class_dict '(attr_name, attr_type),
                      dict_set class_dict attr_name
                               (_create_descr attr_name)) cd st in
  cd.*1 `prefix_of` cd'.*1
  ∧ (∀ name, name ∈ st.*1 →
             dict_get cd' name = Some (_create_descr name))
  ∧ (∀ name, name ∉ st.*1 → dict_get cd' name = dict_get cd name).
Proof.
  induction st as [|[n v] st IH]; intros cd; simpl.
  - split; [done|]. split; [|done]. intros name Hin.
    by apply elem_of_nil in Hin.
  - destruct (IH (dict_set cd n (_create_descr n)))
      as (Hprefix & Hin & Hout).
    split; [|split].
    + etrans; [apply dict_set_keys_prefix|done].
    + intros name Hname. destruct (decide (name ∈ st.*1)) as [Hst|Hst].
      * by apply Hin.
      * apply elem_of_cons in Hname as [->|Hname]; [|done].
        rewrite Hout by done. rewrite dict_get_set.
        by destruct (decide (n = n)).
    + intros name Hname. apply not_elem_of_cons in Hname as [Hne Hname].
      rewrite Hout by done. rewrite dict_get_set.
      by destruct (decide (n = name)).
Qed.

(** X24: [inject_descriptors] binds every attribute of the symbol table to
    its descriptor in the class dictionary, in place of whatever the class
    had under that name (the type in [attr = double], for one); the other
    entries keep their values. *)
Theorem descriptors_replace_attributes ext class_dict :
  let cd' := JitClass.inject_descriptors _create_descr ext class_dict in
  (∀ name, name ∈ (symtab ext).*1 →
           dict_get cd' name = Some (_create_descr name))
  ∧ (∀ name, name ∉ (symtab ext).*1 →
             dict_get cd' name = dict_get class_dict name).
Proof. apply inject_descriptors_facts. Qed.

(** X25: [create_extension] checks the layout before anything else: for a
    class with a native layout and a native direct base whose struct is not
    a prefix of that layout, it raises, and the environment is untouched:
    no method was type-inferred or compiled. *)
Theorem create_extension_checks_layout_first
    cls flags env struct_ty vtab_ty base base_struct :
  numba_struct_type cls = Some struct_ty →
  numba_vtab_type cls = Some vtab_ty →
  base ∈ bases cls →
  numba_struct_type base = Some base_struct →
  is_prefix_of (fields base_struct) (fields struct_ty) = false →
  ∃ e, create' cls flags env = (inl e, env).
Proof.
  intros Hs Hv Hin Hbs Hprefix.
  destruct (incompatible_base_rejected cls struct_ty vtab_ty base base_struct
              Hin Hbs Hprefix) as [e He].
  exists e. unfold JitClass.create_extension, inherit_attributes. simpl.
  rewrite Hs, Hv, He. reflexivity.
Qed.

End StageFacts.

(** * The further properties at work on the examples *)

Lemma compile_ok_total g restype a kwds :
  ∃ fe, compile_ok g restype a kwds = inr fe.
Proof. by eexists. Defined.

Lemma pipeline_invoked_at_most_once_witness :
  compilations add [i4; i4] (trace (serve compile_ok requests env0).2) ≤ 1.
Proof.
  exact (pipeline_invoked_at_most_once compile_ok compile_ok_faithful add
           [i4; i4] (λ g restype kwds _, compile_ok_total g restype _ kwds)
           requests env0).
Defined.

Lemma llvm_module_refused_on_miss_witness :
  is_None (kw_get with_module "llvm_module") = false
  ∧ compile_function compile_ok (PlainFunction add) [i4; i4] None
      with_module env0
    = (inl (AssertionError (PObj 5)), env0)
  ∧ compile_function compile_ok (PlainFunction add) [i4; i4] None
      with_module env_add
    = (inr spec_add, env_add).
Proof.
  assert (is_None (kw_get with_module "llvm_module") = false) as Hmod
    by (vm_compute; reflexivity).
  split; [exact Hmod|]. split.
  - pose proof (llvm_module_refused_on_miss compile_ok (PlainFunction add)
                  [i4; i4] None with_module env0 Hmod) as Hmiss.
    vm_compute in Hmiss. vm_compute. exact Hmiss.
  - pose proof (llvm_module_refused_on_miss compile_ok (PlainFunction add)
                  [i4; i4] None with_module env_add Hmod) as Hhit.
    vm_compute in Hhit. vm_compute. exact Hhit.
Defined.

Lemma other_requests_leave_entry_alone_witness :
  get_function (specializations (serve compile_ok requests env0).2)
               neg [i4] None = None.
Proof.
  destruct (other_requests_leave_entry_alone compile_ok compile_ok_faithful
              neg [i4] requests) with (env := env0) as [Hget _].
  - repeat constructor; intros [Hid Hargs]; vm_compute in Hid, Hargs;
      discriminate.
  - rewrite Hget. vm_compute. reflexivity.
Defined.

Lemma resolve_without_template_witness :
  ∃ resolved env',
    resolve_argtypes from_python_num resolve_identity (NumbaWrapper add)
      None [PInt 1; PInt 2] ∅ locals_b env0 = (inr resolved, env')
    ∧ trace env' = [EvFromPython (PInt 1); EvFromPython (PInt 2)]
    ∧ return_type resolved = None
    ∧ sig_args resolved !! 0 = Some i4
    ∧ sig_args resolved !! 1 = Some i4.
Proof.
  destruct (resolve_without_template from_python_num resolve_identity
              (NumbaWrapper add) [PInt 1; PInt 2] locals_b env0 [i4; i4])
    as (resolved & Hrun & Hret & _ & Hargs).
  - reflexivity.
  - repeat constructor.
  - exists resolved. eexists. split; [exact Hrun|]. split; [reflexivity|].
    split; [exact Hret|]. split.
    + exact (Hargs 0 "a" i4 eq_refl eq_refl).
    + exact (Hargs 1 "b" i4 eq_refl eq_refl).
Defined.

Lemma unresolvable_argument_stops_resolution_witness :
  resolve_argtypes from_python_num resolve_identity (NumbaWrapper add)
    (Some template_f8) [PStr "one"; PInt 2] ∅ ∅ env0
  = (inl (Raised "UnsupportedValueError"),
     Environment ∅ [] [EvFromPython (PStr "one")]).
Proof.
  exact (unresolvable_argument_stops_resolution from_python_num
           resolve_identity (NumbaWrapper add) (Some template_f8)
           [] [] (PStr "one") (Raised "UnsupportedValueError") [PInt 2]
           ∅ env0 eq_refl ltac:(constructor) eq_refl).
Defined.

Lemma short_template_index_error_witness :
  ∃ env',
    resolve_argtypes from_python_num resolve_short (NumbaWrapper add)
      (Some template_f8) [PInt 1; PInt 2] ∅ locals_b env0
    = (inl IndexError, env').
Proof.
  apply (short_template_index_error from_python_num resolve_short
           (NumbaWrapper add) template_f8 [PInt 1; PInt 2] locals_b env0
           [i4; i4] (function_type (Some f8) [f8]) {["b" := i4]} 1 "b").
  - reflexivity.
  - repeat constructor.
  - vm_compute. reflexivity.
  - reflexivity.
  - reflexivity.
  - exists i4. vm_compute. reflexivity.
  - vm_compute. lia.
Defined.

Lemma jit_signature_forms_agree_witness :
  jit parse_ok create_ok (RStr "f8(f8)") None "ast" "cpu" false ∅ env0
  = jit parse_ok create_ok
      (RFunctionType (FunctionType (Some f8) [f8] (Some "f8(f8)")
                                   false false))
      None "ast" "cpu" false {["func_name" := PStr "f8(f8)"]}
      (Environment ∅ [] [EvProcessSignature "f8(f8)"]).
Proof.
  destruct (jit_signature_forms_agree parse_ok create_ok "ast" "cpu" false
              ∅ env0) as [Hstring _].
  exact (Hstring "f8(f8)" _ eq_refl).
Defined.

Lemma jit_unknown_target_witness :
  ∃ evs,
    jit parse_ok create_ok (RType f8) (Some [f8]) "ast" "gpu" false ∅ env0
    = (inl KeyError, Environment ∅ [] evs)
    ∧ Forall (λ ev, compiles ev = false) evs.
Proof.
  destruct (jit_unknown_target parse_ok create_ok (RType f8) (Some [f8])
              "ast" "gpu" false ∅ env0) as (evs & Hrun & Hevs).
  - exact I.
  - left. discriminate.
  - by exists evs.
Defined.

Lemma autojit_decorates_lazily_witness :
  ∃ out env',
    autojit compile_ok parse_ok create_ok export_ok (TplCallable add) "ast"
            "cpu" false PNone ∅ env0 = (out, env')
    ∧ trace env' = [].
Proof.
  destruct (autojit compile_ok parse_ok create_ok export_ok (TplCallable add)
              "ast" "cpu" false PNone ∅ env0) as [out env'] eqn:Hrun.
  exists out, env'. split; [reflexivity|].
  exact (autojit_decorates_lazily compile_ok parse_ok create_ok export_ok
           _ _ _ _ _ _ _ _ _ Hrun).
Defined.

Lemma autojit_backend_is_ast_unless_bytecode_witness :
  autojit compile_ok parse_ok create_ok export_ok (TplOther PNone) "llvm"
          "cpu" false PNone ∅ env0
  = autojit compile_ok parse_ok create_ok export_ok (TplOther PNone) "ast"
            "cpu" false PNone ∅ env0.
Proof.
  apply autojit_backend_is_ast_unless_bytecode. left. discriminate.
Defined.

Lemma jit_decorator_needs_argtypes_witness :
  co_argcount add ≠ 0
  ∧ apply_decorator compile_ok parse_ok create_ok export_ok
      (JitDecorator (PType f8) PNone (PBool false) PNone ∅)
      (DFunction add) env0
    = (inl (AssertionError PNone), env0).
Proof.
  assert (co_argcount add ≠ 0) as Hcount by (vm_compute; lia).
  split; [exact Hcount|].
  exact (proj1 (jit_decorator_needs_argtypes compile_ok parse_ok create_ok
                  export_ok (PType f8) (PBool false) PNone ∅ add env0)
               Hcount).
Defined.

Lemma jit_decorator_twice_compiles_once_witness :
  ∃ r env1 env2,
    apply_decorator compile_ok parse_ok create_ok export_ok jit_add
      (DFunction add) env0 = (inr r, env1)
    ∧ apply_decorator compile_ok parse_ok create_ok export_ok jit_add
        (DFunction add) env1 = (inr r, env2)
    ∧ trace env2 = [EvCompile2 1 [i4; i4]].
Proof.
  destruct (apply_decorator compile_ok parse_ok create_ok export_ok jit_add
              (DFunction add) env0) as [[e|r] env1] eqn:Hfirst;
    [vm_compute in Hfirst; discriminate|].
  destruct (jit_decorator_twice_compiles_once compile_ok parse_ok create_ok
              export_ok compile_ok_faithful _ _ _ _ _ _ _ _ _ Hfirst)
    as (spec & env2 & -> & Hsecond & Htrace & _).
  exists (CompiledWrapper add spec), env1, env2.
  split; [reflexivity|]. split; [exact Hsecond|].
  rewrite Htrace. vm_compute in Hfirst. injection Hfirst as _ <-.
  reflexivity.
Defined.

Lemma exportmany_exports_in_order_witness :
  apply_decorator compile_ok parse_ok create_ok export_ok
    (ExportMany ["f8(f8)"; "g f8(f8)"] ∅) (DFunction add) env0
  = (inr (Undecorated (DFunction add)),
     Environment ∅ []
       [EvProcessSignature "f8(f8)"; EvExportPipeline 1;
        EvProcessSignature "g f8(f8)"; EvExportPipeline 1]).
Proof.
  destruct (exportmany_exports_in_order compile_ok parse_ok create_ok
              export_ok ["f8(f8)"; "g f8(f8)"] ∅ add env0) as [Hast _].
  rewrite Hast.
  - reflexivity.
  - vm_compute. discriminate.
  - repeat constructor; by eexists.
Defined.

Lemma base_compatible_with_child :
  Forall (compatible_base base_struct base_vtab) (bases Child).
Proof.
  repeat constructor. intros bs [= <-]. exists base_vtab.
  split; [reflexivity|]. split; vm_compute; reflexivity.
Defined.

Lemma verify_accepts_iff_all_bases_compatible_witness :
  verify_base_class_compatibility Child base_struct base_vtab = inr ().
Proof.
  exact (proj2 (verify_accepts_iff_all_bases_compatible Child base_struct
                  base_vtab) base_compatible_with_child).
Defined.

Lemma verify_names_offender_and_predecessor_witness :
  ∃ pre base post,
    bases C = pre ++ base :: post
    ∧ class_name base = "B2"
    ∧ class_name (default C (last (native_bases pre))) = "B1".
Proof.
  destruct (verify_names_offender_and_predecessor C
              (struct [("x", f8); ("y", i4)]) no_methods
              "Multiple incompatible base classes found: %s and %s"
              "B2" "B1")
    as (pre & base & post & Hsplit & _ & _ & _ & Hfirst & Hsecond).
  - vm_compute. reflexivity.
  - exists pre, base, post. split; [exact Hsplit|].
    split; [symmetry; exact Hfirst|symmetry; exact Hsecond].
Defined.

Lemma finalized_struct_extends_parent_witness :
  ∃ s,
    attribute_struct
      (_construct_native_attribute_struct (λ fs, fs) child_declared) = Some s
    ∧ is_prefix_of [("x", f8)] (fields s) = true
    ∧ NoDup (fields s).*1.
Proof.
  destruct (finalized_struct_extends_parent (λ fs, fs) child_declared
              [("x", f8)]) as (s & Hs & Hprefix & Hnd & _).
  - vm_compute. reflexivity.
  - apply NoDup_singleton.
  - vm_compute. apply NoDup_two. discriminate.
  - by exists s.
Defined.

Lemma construct_twice_witness :
  _construct_native_attribute_struct (λ fs, fs)
    (_construct_native_attribute_struct (λ fs, fs) child_declared)
  = _construct_native_attribute_struct (λ fs, fs) child_declared.
Proof.
  apply (construct_twice (λ fs, fs) child_declared base_struct).
  vm_compute. reflexivity.
Defined.

Lemma class_attribute_types_enter_symtab_witness :
  dict_get (symtab (process_class_attribute_types child_inherited
                                                  (class_vars Child))) "y"
  = Some (Variable_ i4 false).
Proof.
  destruct (class_attribute_types_enter_symtab child_inherited
              (class_vars Child)) as (_ & Hnew & _).
  - apply NoDup_singleton.
  - apply Hnew. apply list_elem_of_here.
Defined.

Lemma redeclared_attribute_keeps_parent_type_witness :
  ∃ ext1,
    inherit_attributes (new_extension_type Redeclared) (class_vars Redeclared)
      = inr ext1
    ∧ dict_get (symtab (process_class_attribute_types ext1
                          (class_vars Redeclared))) "x"
      = Some (Variable_ i4 false)
    ∧ ∃ s,
        attribute_struct
          (_construct_native_attribute_struct (λ fs, fs)
             (process_class_attribute_types ext1 (class_vars Redeclared)))
          = Some s
        ∧ ∀ u, (("x", u) : string * numba_type) ∈ fields s ↔ u = f8.
Proof.
  destruct (inherit_attributes (new_extension_type Redeclared)
              (class_vars Redeclared)) as [e|ext1] eqn:Hinherit;
    [vm_compute in Hinherit; discriminate|].
  exists ext1. split; [reflexivity|].
  apply (redeclared_attribute_keeps_parent_type (λ fs, fs) Redeclared
           base_struct (class_vars Redeclared) ext1 "x" f8 i4).
  - reflexivity.
  - exact Hinherit.
  - apply NoDup_singleton.
  - apply NoDup_singleton.
  - apply list_elem_of_here.
  - apply list_elem_of_here.
Defined.

Lemma child_methods_NoDup : NoDup (methods child_ext).*1.
Proof.
  vm_compute. apply NoDup_cons. split.
  - intros Hin. apply elem_of_cons in Hin as [Hin|Hin]; [discriminate|].
    apply list_elem_of_singleton in Hin. discriminate.
  - apply NoDup_two. discriminate.
Defined.

Lemma pointer_table_follows_method_list_witness :
  ∃ cd' lm' mp' env',
    _compile_methods compile_ok child_dict child_ext [] [] ∅ env0
      = (inr (cd', lm', mp'), env')
    ∧ mp'.*1 = ["get"; "make"; "area"]
    ∧ mp' !! 2 = Some ("area", 203)
    ∧ dict_get cd' "area" = Some (MResult area 303).
Proof.
  destruct (_compile_methods compile_ok child_dict child_ext [] [] ∅ env0)
    as [[e|[[cd' lm'] mp']] env'] eqn:Hrun;
    [vm_compute in Hrun; discriminate|].
  destruct (pointer_table_follows_method_list compile_ok child_dict child_ext
              ∅ env0 cd' lm' mp' env' child_methods_NoDup Hrun)
    as (Hnames & _ & _ & Hdecl).
  exists cd', lm', mp', env'. split; [reflexivity|].
  split; [rewrite Hnames; vm_compute; reflexivity|].
  destruct (Hdecl 2 "area" (function_type (Some f8) [TExtension "Child"]))
    as (m & fe & Hm & Hfe & Hmp & Hcd).
  - vm_compute. reflexivity.
  - vm_compute. apply list_elem_of_further, list_elem_of_here.
  - vm_compute in Hm. injection Hm as <-.
    vm_compute in Hfe. injection Hfe as <-. by split.
Defined.

Lemma parent_table_must_match_witness :
  _compile_methods compile_ok child_dict short_table_ext [] [] ∅ env0
    = (inl IndexError, env0)
  ∧ _compile_methods compile_ok child_dict other_table_ext [] [] ∅ env0
    = (inl (AssertionError PNone), env0).
Proof.
  assert ("get" ∉ child_dict.*1) as Hnot.
  { intros Hin. vm_compute in Hin.
    apply elem_of_cons in Hin as [Hin|Hin]; [discriminate|].
    apply list_elem_of_singleton in Hin. discriminate. }
  split.
  - exact (proj1 (parent_table_must_match compile_ok child_dict
                    short_table_ext [] [] ∅ env0 [] [] "get"
                    (function_type (Some f8) [TExtension "Child"])
                    (tail (methods short_table_ext)) (child_dict, [], [])
                    env0 eq_refl eq_refl Hnot eq_refl) eq_refl).
  - apply (proj2 (parent_table_must_match compile_ok child_dict
                    other_table_ext [] [] ∅ env0 [("set", 13)] [] "get"
                    (function_type (Some f8) [TExtension "Child"])
                    (tail (methods other_table_ext)) (child_dict, [], [])
                    env0 eq_refl eq_refl Hnot eq_refl) "set" 13 eq_refl).
    discriminate.
Defined.

Lemma type_inference_covers_listed_methods_witness :
  ∃ out env',
    _type_infer_methods infer_ok child_dict child_ext ∅ env0 = (out, env')
    ∧ ∃ evs, trace env' = evs ∧ length evs = 1.
Proof.
  destruct (_type_infer_methods infer_ok child_dict child_ext ∅ env0)
    as [out env'] eqn:Hrun.
  destruct (type_inference_covers_listed_methods infer_ok child_dict
              child_ext ∅ env0 out env') as (evs & Happ & _ & Hok).
  - apply NoDup_two. discriminate.
  - exact Hrun.
  - exists out, env'. split; [reflexivity|]. exists evs.
    destruct Happ as (_ & _ & Htrace). split; [exact Htrace|].
    destruct out as [e|[ext' cd']]; [vm_compute in Hrun; discriminate|].
    destruct (Hok ext' cd' eq_refl) as (_ & _ & Hlen).
    rewrite Hlen. vm_compute. reflexivity.
Defined.

Lemma methods_inferred_before_compiled_witness :
  ∃ ext' cd' mp lm env',
    compile_extension_methods (λ fs, fs) compile_ok infer_ok signatures_area
      Child child_declared (class_vars Child) ∅ env0
    = (inr (ext', cd', mp, lm), env')
    ∧ trace env' = [EvInferTypes2 3; EvCompile2 3 [TExtension "Child"]]
    ∧ mp.*1 = (methods ext').*1.
Proof.
  destruct (compile_extension_methods (λ fs, fs) compile_ok infer_ok
              signatures_area Child child_declared (class_vars Child) ∅ env0)
    as [[e|[[[ext' cd'] mp] lm]] env'] eqn:Hrun;
    [vm_compute in Hrun; discriminate|].
  assert (NoDup (methods child_declared).*1) as Hnd.
  { vm_compute. apply NoDup_two. discriminate. }
  destruct (methods_inferred_before_compiled (λ fs, fs) compile_ok infer_ok
              signatures_area Child child_declared (class_vars Child) ∅ env0
              _ env' Hnd Hrun) as [_ Hok].
  - destruct (Hok ext' cd' mp lm eq_refl) as [_ Hnames].
    exists ext', cd', mp, lm, env'. split; [reflexivity|].
    split; [|exact Hnames].
    vm_compute in Hrun. injection Hrun as _ _ _ _ <-. reflexivity.
Defined.

Lemma descriptors_replace_attributes_witness :
  dict_get (inject_descriptors descriptor_of child_declared
                               (class_vars Child)) "y"
  = Some (descriptor_of "y").
Proof.
  destruct (descriptors_replace_attributes descriptor_of child_declared
              (class_vars Child)) as (Hin & _).
  apply Hin. vm_compute. apply list_elem_of_further, list_elem_of_here.
Defined.

Lemma create_extension_checks_layout_first_witness :
  ∃ e,
    create_extension (λ fs, fs) compile_ok infer_ok signatures_area
      descriptor_of build_vtab_ok new_type_ok C ∅ env0 = (inl e, env0).
Proof.
  apply (create_extension_checks_layout_first (λ fs, fs) compile_ok infer_ok
           signatures_area descriptor_of build_vtab_ok new_type_ok C ∅ env0
           (struct [("x", f8); ("y", i4)]) no_methods B2
           (struct [("x", f8); ("z", i4)])).
  - reflexivity.
  - reflexivity.
  - vm_compute. apply list_elem_of_further, list_elem_of_further,
      list_elem_of_here.
  - reflexivity.
  - vm_compute. reflexivity.
Defined.

Lemma export_returns_function_witness :
  ∃ d env1,
    export parse_ok "f8(f8)" ∅ env0 = (inr (Decorator d), env1)
    ∧ apply_decorator compile_ok parse_ok create_ok export_ok d
        (DFunction add) env1
      = (inr (Undecorated (DFunction add)),
         Environment ∅ []
           [EvProcessSignature "f8(f8)"; EvExportPipeline 1]).
Proof.
  destruct (export_returns_function compile_ok parse_ok create_ok export_ok
              "f8(f8)" ∅ (FunctionType (Some f8) [f8] (Some "f8(f8)")
                                       false false) add env0 eq_refl)
    as (d & Hd & Happly).
  - vm_compute. discriminate.
  - exists d. eexists. split; [exact Hd|]. exact Happly.
Defined.
